(** * Math-solver agent: routing, confidence arbitration and feedback

    A shallow embedding of the decision logic of
    [backend/app/agents/routing_agent.py] and
    [backend/app/agents/feedback_agent.py], and the properties the
    specification states about it; then of the keyword search of
    [backend/app/services/knowledge_base.py], the filters of
    [backend/app/services/web_search.py] and the knowledge-base solver of
    [backend/app/agents/math_solver.py], with properties read off the code.

    Conventions of the embedding.
    - A Python [float] is a binary64 number: Rocq's primitive [float], whose
      operations round as CPython's do.  Decimal literals denote the nearest
      binary64 value in both languages.
    - A Python [str] is a [string] of 8-bit characters; [str.lower] and
      [str.split] are written out for the ASCII range.
    - A Python exception is [Raise msg], where [msg] is what [str(e)] gives.
      Code that can raise lives in the monad [M S], a state monad over the
      mutable objects in scope whose results are [Ok] or [Raise]; a raise
      keeps the mutations made before it, as in Python.
    - Dictionaries read with [d.get(k, default)] are records of [option]
      fields: [None] is an absent key, and an entry that is present holds a
      value of the type the code expects.  A present entry that holds
      Python's [None] is outside the records, but for the entry
      ['routing_metadata'] of a response, which the request schema fills with
      [None] by default.  A dictionary whose order of insertion
      is observable is an association list.
    - The knowledge base, the web search and the solver are external
      collaborators: they are the fields of the class [Collaborators], act on
      an abstract [World], and may raise. *)

From Stdlib Require Import Floats ZArith Ascii DecimalString DecimalNat DecimalZ.
From stdpp Require Import gmap strings list sorting.

Set Warnings "-inexact-float".

(** ** Python runtime notions *)

Module Py.

(** The outcome of evaluating an expression or running a block. *)
Inductive result (A : Type) : Type :=
| Ok (a : A)
| Raise (msg : string).
Arguments Ok {A} a.
Arguments Raise {A} msg.

(** Stateful, fallible code over the mutable state [S]. *)
Definition M (S A : Type) : Type := S → result A * S.

Definition ret {S A} (a : A) : M S A := λ s, (Ok a, s).

Definition bind {S A B} (m : M S A) (k : A → M S B) : M S B :=
  λ s, match m s with
       | (Ok a, s') => k a s'
       | (Raise e, s') => (Raise e, s')
       end.

Definition raise {S A} (e : string) : M S A := λ s, (Raise e, s).

Definition gets {S A} (f : S → A) : M S A := λ s, (Ok (f s), s).

Definition modify {S} (f : S → S) : M S unit := λ s, (Ok tt, f s).

(** [try: body except Exception as e: handler(e)]. *)
Definition try_except {S A} (body : M S A) (handler : string → M S A) : M S A :=
  λ s, match body s with
       | (Ok a, s') => (Ok a, s')
       | (Raise e, s') => handler e s'
       end.

(** A pure expression that may raise, evaluated inside a block. *)
Definition eval {S A} (r : result A) : M S A := λ s, (r, s).

(** [d[key]] on a dictionary read as an optional field. *)
Definition getitem {A} (key : string) (field : option A) : result A :=
  match field with
  | Some a => Ok a
  | None => Raise ("'" +:+ key +:+ "'")
  end.

(** [d.get(key, default)]. *)
Definition get {A} (field : option A) (default : A) : A :=
  match field with
  | Some a => a
  | None => default
  end.

(** *** Floats *)

(** [a >= b], [a > b] and [a < b] on floats. *)
Definition ge (a b : float) : bool := (b <=? a)%float.
Definition gt (a b : float) : bool := (b <? a)%float.
Definition lt (a b : float) : bool := (a <? b)%float.

(** [min(a, b)]: [b] replaces [a] only when [b < a]. *)
Definition min (a b : float) : float := if lt b a then b else a.

(** [max([x0, x1, ...])] on a non-empty list: an item replaces the running
    maximum only when it is greater. *)
Definition max (x0 : float) (xs : list float) : float :=
  fold_left (λ m x, if gt x m then x else m) xs x0.

(** The float nearest to an integer, as [float(n)] gives it. *)
Definition float_of_Z (n : Z) : float :=
  SF2Prim (binary_normalize prec emax n 0 false).

(** [a / b] on integers that are counters or lengths: true division.  The
    quotient of the two conversions is the correctly rounded quotient while
    both integers are below 2^53 in absolute value. *)
Definition truediv (a b : Z) : result float :=
  if (b =? 0)%Z then Raise "division by zero"
  else Ok (float_of_Z a / float_of_Z b)%float.

(** An integer as a float of unbounded mantissa. *)
Definition SF_of_Z (n : Z) : SpecFloat.spec_float :=
  match n with
  | Z0 => SpecFloat.S754_zero false
  | Zpos m => SpecFloat.S754_finite false m 0
  | Zneg m => SpecFloat.S754_finite true m 0
  end.

(** [a / b] on integers of any size, as CPython's [long_true_divide]
    computes it: the quotient of the two conversions when both integers are
    below 2^53 in absolute value, and otherwise the exact quotient rounded
    to the nearest float, ties to even; [OverflowError] when that is beyond
    the range of the floats. *)
Definition long_true_divide (a b : Z) : result float :=
  if (b =? 0)%Z then Raise "division by zero"
  else if (Z.abs a <? 2 ^ 53)%Z && (Z.abs b <? 2 ^ 53)%Z then
    Ok (float_of_Z a / float_of_Z b)%float
  else
    match SpecFloat.SFdiv prec emax (SF_of_Z a) (SF_of_Z b) with
    | SpecFloat.S754_infinity _ =>
        Raise "integer division result too large for a float"
    | quotient => Ok (SF2Prim quotient)
    end.

(** *** Strings *)

Definition lower_char (c : ascii) : ascii :=
  let n := N_of_ascii c in
  if ((65 <=? n) && (n <=? 90))%N then ascii_of_N (n + 32) else c.

(** [s.lower()]. *)
Fixpoint lower (s : string) : string :=
  match s with
  | EmptyString => EmptyString
  | String c s' => String (lower_char c) (lower s')
  end.

(** [sub in s]: [sub] occurs in [s] as a contiguous substring. *)
Fixpoint contains (sub s : string) : bool :=
  String.prefix sub s ||
  match s with
  | EmptyString => false
  | String _ s' => contains sub s'
  end.

Definition is_space (c : ascii) : bool :=
  let n := N_of_ascii c in
  (((9 <=? n) && (n <=? 13)) || ((28 <=? n) && (n <=? 32)))%N.

(** [s.split()]: the maximal runs of characters that are not whitespace.
    [cur] is the run being read, reversed. *)
Fixpoint split_go (s : string) (cur : list ascii) : list string :=
  let flush := match cur with
               | [] => []
               | _ => [String.string_of_list_ascii (rev cur)]
               end in
  match s with
  | EmptyString => flush
  | String c s' =>
      if is_space c then flush ++ split_go s' [] else split_go s' (c :: cur)
  end.

Definition split (s : string) : list string := split_go s [].

(** [str(n)] and [f"{n}"] on integers. *)
Definition str_of_nat (n : nat) : string :=
  NilEmpty.string_of_uint (Nat.to_uint n).

Definition str_of_Z (n : Z) : string :=
  NilZero.string_of_int (Z.to_int n).

(** [f"{n:04d}"] on a natural number: zeros on the left up to width 4. *)
Definition zfill (width : nat) (s : string) : string :=
  String.string_of_list_ascii (replicate (width - String.length s) "0"%char) +:+ s.

Definition format_04d (n : nat) : string := zfill 4 (str_of_nat n).

(** *** Dictionaries whose order is observable *)

(** [d[k] = v]: a present key keeps its place, a new one goes last. *)
Fixpoint dict_set {V} (k : string) (v : V) (d : list (string * V)) : list (string * V) :=
  match d with
  | [] => [(k, v)]
  | (k', v') :: d' =>
      if String.eqb k' k then (k, v) :: d' else (k', v') :: dict_set k v d'
  end.

(** [d.get(k)]. *)
Fixpoint dict_get {V} (k : string) (d : list (string * V)) : option V :=
  match d with
  | [] => None
  | (k', v') :: d' => if String.eqb k' k then Some v' else dict_get k d'
  end.

Definition dict_keys {V} (d : list (string * V)) : list string := d.*1.
Definition dict_values {V} (d : list (string * V)) : list V := d.*2.

End Py.

Import Py.

Declare Scope py_scope.
Notation "x ← m ; k" := (Py.bind m (λ x, k))
  (at level 20, m at level 100, k at level 200, only parsing) : py_scope.
Notation "m ;; k" := (Py.bind m (λ _, k))
  (at level 100, k at level 200, only parsing, right associativity) : py_scope.
Delimit Scope py_scope with py.

(** ** Settings ([backend/app/core/config.py]) *)

Module settings.
Definition confidence_threshold : float := 0.7.
End settings.

(** ** The routing agent ([backend/app/agents/routing_agent.py]) *)

Inductive RouteDecision : Type :=
| KNOWLEDGE_BASE
| WEB_SEARCH
| HYBRID
| FALLBACK.

(** [route.value]. *)
Definition value (route : RouteDecision) : string :=
  match route with
  | KNOWLEDGE_BASE => "knowledge_base"
  | WEB_SEARCH => "web_search"
  | HYBRID => "hybrid"
  | FALLBACK => "fallback"
  end.

(** What the solver returns: a dictionary read with [solution["solution"]],
    [solution["steps"]] and [solution.get("confidence", default)]. *)
Record solver_output : Type := {
  out_solution : option string;
  out_steps : option (list string);
  out_confidence : option float
}.

(** The external collaborators of the agent and the types they exchange. *)
Class Collaborators : Type := {
  World : Type;
  (** The caller-supplied metadata dictionary. *)
  Metadata : Type;
  (** A knowledge-base document, apart from its ['score'] entry. *)
  Document : Type;
  (** One web search result. *)
  WebResult : Type;
  (** [KnowledgeBaseService.search(query, top_k)]; each hit is a document with
      its optional ['score'] entry. *)
  kb_search : string → nat → M World (list (option float * Document));
  (** [WebSearchService.search(query)]. *)
  web_search : string → M World (list WebResult);
  (** [MathSolverAgent.solve_from_knowledge(kb_result, query)]. *)
  solve_from_knowledge : option float * Document → string → M World solver_output;
  (** [MathSolverAgent.solve_from_web_search(results, query)]. *)
  solve_from_web_search : list WebResult → string → M World solver_output;
  (** [MathSolverAgent.solve_direct(query, metadata)]. *)
  solve_direct : string → Metadata → M World solver_output;
  (** [f"{x:.3f}"]. *)
  format_3f : float → string
}.

Section RoutingAgent.
Context {collab : Collaborators}.

(** A hit of the knowledge-base search: [result.get('score', 0.0)] reads
    its first component. *)
Definition kb_result : Type := option float * Document.
Definition score (r : kb_result) : option float := r.1.

(** The [routing_metadata] dictionary; ["route_used"] is absent until it is
    assigned. *)
Record routing_metadata : Type := {
  md_query : string;
  md_confidence_scores : list (string * float);
  md_reasoning : string;
  md_fallback_used : bool;
  md_route_used : option string
}.

(** An entry of [self.routing_history]. *)
Record history_entry : Type := {
  h_query : string;
  h_route : string;
  h_confidence : list (string * float);
  h_reasoning : string
}.

(** *** Confidence scorers *)

Definition math_topics : list string :=
  ["derivative"; "integral"; "quadratic"; "linear"; "equation"; "formula"].

Definition computational_words : list string :=
  ["solve"; "calculate"; "find"; "compute"].

(** [for kw in keywords: if kw in text: acc += w]. *)
Definition add_per_match (w : float) (keywords : list string) (text : string)
    (acc : float) : float :=
  fold_left (λ a kw, if contains kw text then (a + w)%float else a) keywords acc.

(** [any(word in text for word in words)]. *)
Definition any_in (words : list string) (text : string) : bool :=
  existsb (λ word, contains word text) words.

Definition _calculate_kb_confidence (results : list kb_result) (query : string) : float :=
  match results with
  | [] => 0.0%float
  | r :: rs =>
      let best_score := Py.max (get (score r) 0.0%float)
                               (map (λ result, get (score result) 0.0%float) rs) in
      let query_lower := lower query in
      let topic_boost := 0.0%float in
      let topic_boost := add_per_match 0.1 math_topics query_lower topic_boost in
      let topic_boost :=
        if any_in computational_words query_lower
        then (topic_boost + 0.1)%float else topic_boost in
      let final_confidence := Py.min (best_score + topic_boost)%float 1.0%float in
      final_confidence
  end.

Definition web_search_indicators : list string :=
  ["latest"; "recent"; "new"; "current"; "today"; "2024"; "2025";
   "research"; "paper"; "study"; "theorem"; "conjecture";
   "explain"; "what is"; "definition"; "concept"].

Definition advanced_topics : list string :=
  ["riemann"; "fermat"; "basel"; "euler"; "gauss"; "newton";
   "hypothesis"; "conjecture"; "problem"; "paradox"].

Definition explanation_phrases : list string :=
  ["explain"; "what is"; "how does"; "why"].

Definition _should_use_web_search (query : string) (metadata : Metadata) : float :=
  let query_lower := lower query in
  let score := 0.0%float in
  let score := add_per_match 0.2 web_search_indicators query_lower score in
  let score := add_per_match 0.3 advanced_topics query_lower score in
  let score := if (10 <? length (split query))%nat then (score + 0.2)%float else score in
  let score :=
    if any_in explanation_phrases query_lower
    then (score + 0.3)%float else (score + 0.1)%float in
  Py.min score 1.0%float.

(** *** Route selection *)

(** The objects [route_query] mutates: the world of the collaborators and
    [self.routing_history]. *)
Record agent_state : Type := {
  world : World;
  routing_history : list history_entry
}.

(** The same with the local dictionary [routing_metadata], which the
    [except] clause of [route_query] reads after a raise. *)
Record route_frame : Type := {
  frame_agent : agent_state;
  frame_metadata : routing_metadata
}.

(** A call to a collaborator, from code that runs over [agent_state]. *)
Definition call {A} (c : M World A) : M agent_state A :=
  λ st, let '(r, w) := c (world st) in
        (r, {| world := w; routing_history := routing_history st |}).

Definition in_agent {A} (m : M agent_state A) : M route_frame A :=
  λ fr, let '(r, st) := m (frame_agent fr) in
        (r, {| frame_agent := st; frame_metadata := frame_metadata fr |}).

Definition update_metadata (f : routing_metadata → routing_metadata) : M route_frame unit :=
  modify (λ fr, {| frame_agent := frame_agent fr; frame_metadata := f (frame_metadata fr) |}).

(** [routing_metadata["confidence_scores"][route] = x]. *)
Definition set_confidence_score (route : string) (x : float) : M route_frame unit :=
  update_metadata (λ md,
    {| md_query := md_query md;
       md_confidence_scores := dict_set route x (md_confidence_scores md);
       md_reasoning := md_reasoning md;
       md_fallback_used := md_fallback_used md;
       md_route_used := md_route_used md |}).

(** [routing_metadata["reasoning"] = text]. *)
Definition set_reasoning (text : string) : M route_frame unit :=
  update_metadata (λ md,
    {| md_query := md_query md;
       md_confidence_scores := md_confidence_scores md;
       md_reasoning := text;
       md_fallback_used := md_fallback_used md;
       md_route_used := md_route_used md |}).

(** [routing_metadata["fallback_used"] = True]. *)
Definition set_fallback_used : M route_frame unit :=
  update_metadata (λ md,
    {| md_query := md_query md;
       md_confidence_scores := md_confidence_scores md;
       md_reasoning := md_reasoning md;
       md_fallback_used := true;
       md_route_used := md_route_used md |}).

(** [routing_metadata["route_used"] = name]. *)
Definition with_route_used (name : string) (md : routing_metadata) : routing_metadata :=
  {| md_query := md_query md;
     md_confidence_scores := md_confidence_scores md;
     md_reasoning := md_reasoning md;
     md_fallback_used := md_fallback_used md;
     md_route_used := Some name |}.

Definition set_route_used (name : string) : M route_frame unit :=
  update_metadata (with_route_used name).

(** [self.routing_history.append(entry)], the entry built from the current
    [routing_metadata]. *)
Definition log_routing_decision (query : string) (route : RouteDecision) : M route_frame unit :=
  modify (λ fr,
    let md := frame_metadata fr in
    let entry := {| h_query := String.substring 0 100 query;
                    h_route := value route;
                    h_confidence := md_confidence_scores md;
                    h_reasoning := md_reasoning md |} in
    {| frame_agent := {| world := world (frame_agent fr);
                         routing_history := routing_history (frame_agent fr) ++ [entry] |};
       frame_metadata := md |}).

Local Open Scope py_scope.

Section RouteSelector.
(** The two scorers as [route_query] calls them.  [route_query] itself
    passes [_calculate_kb_confidence] and [_should_use_web_search]; the
    [except] clause is written for whatever they may raise. *)
Variable calculate_kb_confidence : list kb_result → string → result float.
Variable should_use_web_search : string → Metadata → result float.

(** The body of the [try] block of [route_query]. *)
Definition route_query_try (query : string) (metadata : Metadata) : M route_frame RouteDecision :=
  kb_results ← in_agent (call (kb_search query 3));
  kb_confidence ← eval (calculate_kb_confidence kb_results query);
  set_confidence_score "knowledge_base" kb_confidence;;
  route ← (if ge kb_confidence settings.confidence_threshold then
             set_reasoning ("High confidence match in knowledge base (score: "
                            +:+ format_3f kb_confidence +:+ ")");;
             ret KNOWLEDGE_BASE
           else
             web_search_score ← eval (should_use_web_search query metadata);
             set_confidence_score "web_search" web_search_score;;
             if ge web_search_score 0.5 then
               if gt kb_confidence 0.3 then
                 set_reasoning "Using hybrid approach - combining KB and web search";;
                 ret HYBRID
               else
                 set_reasoning ("Using web search due to low KB confidence ("
                                +:+ format_3f kb_confidence +:+ ")");;
                 ret WEB_SEARCH
             else
               set_reasoning "Using fallback to math solver";;
               set_fallback_used;;
               ret FALLBACK);
  set_route_used (value route);;
  log_routing_decision query route;;
  ret route.

(** The [except Exception as e] clause of [route_query]. *)
Definition route_query_except (e : string) : M route_frame RouteDecision :=
  set_reasoning ("Error occurred, using fallback: " +:+ e);;
  set_fallback_used;;
  set_route_used (value FALLBACK);;
  ret FALLBACK.

Definition route_query_with (query : string) (metadata : Metadata)
    : M agent_state (RouteDecision * routing_metadata) :=
  λ st,
    let routing_metadata := {| md_query := query;
                               md_confidence_scores := [];
                               md_reasoning := "";
                               md_fallback_used := false;
                               md_route_used := None |} in
    let '(r, fr) := try_except (route_query_try query metadata) route_query_except
                      {| frame_agent := st; frame_metadata := routing_metadata |} in
    (match r with
     | Ok route => Ok (route, frame_metadata fr)
     | Raise e => Raise e
     end, frame_agent fr).
End RouteSelector.

Definition route_query (query : string) (metadata : Metadata)
    : M agent_state (RouteDecision * routing_metadata) :=
  route_query_with (λ results q, Ok (_calculate_kb_confidence results q))
                   (λ q md, Ok (_should_use_web_search q md))
                   query metadata.

(** *** Dispatch *)

(** An entry of a ["sources"] list. *)
Inductive source : Type :=
| Source_knowledge_base (content : kb_result)
| Source_web_search (results : list WebResult)
| Source_direct_solver (method : string).

(** What [_process_knowledge_base], [_process_web_search],
    [_process_fallback] and [_combine_results] return; the ["error"] key is
    present on the failure paths only. *)
Record source_result : Type := {
  solution : string;
  steps : list string;
  sources : list source;
  confidence : float;
  error : option string
}.

(** The ["routing_metadata"] entry of the envelope: the dictionary of
    [route_query], or [{"route_used": "error"}]. *)
Inductive envelope_metadata : Type :=
| Metadata_of_route (md : routing_metadata)
| Metadata_route_used_only (route_used : string).

(** The response envelope; [resp_error = None] is [None] in Python. *)
Record response : Type := {
  resp_query : string;
  resp_route_used : string;
  resp_routing_metadata : envelope_metadata;
  resp_solution : string;
  resp_steps : list string;
  resp_sources : list source;
  resp_confidence : float;
  resp_error : option string
}.

(** [response.update(result)]. *)
Definition update (r : response) (result : source_result) : response :=
  {| resp_query := resp_query r;
     resp_route_used := resp_route_used r;
     resp_routing_metadata := resp_routing_metadata r;
     resp_solution := solution result;
     resp_steps := steps result;
     resp_sources := sources result;
     resp_confidence := confidence result;
     resp_error := match error result with
                   | Some e => Some e
                   | None => resp_error r
                   end |}.

(** The two-character string ["\n\n"]. *)
Definition blank_line : string := String "010" (String "010" "").

Definition _process_knowledge_base (query : string) : M agent_state source_result :=
  try_except
    (results ← call (kb_search query 3);
     match results with
     | best_result :: _ =>
         solution ← call (solve_from_knowledge best_result query);
         solution_text ← eval (getitem "solution" (out_solution solution));
         solution_steps ← eval (getitem "steps" (out_steps solution));
         ret {| solution := solution_text;
                steps := solution_steps;
                sources := [Source_knowledge_base best_result];
                confidence := get (score best_result) 0.0%float;
                error := None |}
     | [] =>
         ret {| solution := "No relevant information found in knowledge base.";
                steps := [];
                sources := [];
                confidence := 0.0%float;
                error := None |}
     end)
    (λ e,
     ret {| solution := "Error accessing knowledge base: " +:+ e;
            steps := [];
            sources := [];
            confidence := 0.0%float;
            error := Some e |}).

Definition _process_web_search (query : string) : M agent_state source_result :=
  try_except
    (results ← call (web_search query);
     match results with
     | _ :: _ =>
         solution ← call (solve_from_web_search results query);
         solution_text ← eval (getitem "solution" (out_solution solution));
         solution_steps ← eval (getitem "steps" (out_steps solution));
         ret {| solution := solution_text;
                steps := solution_steps;
                sources := [Source_web_search (take 3 results)];
                confidence := get (out_confidence solution) 0.5%float;
                error := None |}
     | [] =>
         ret {| solution := "No relevant information found through web search.";
                steps := [];
                sources := [];
                confidence := 0.0%float;
                error := None |}
     end)
    (λ e,
     ret {| solution := "Error during web search: " +:+ e;
            steps := [];
            sources := [];
            confidence := 0.0%float;
            error := Some e |}).

Definition _process_fallback (query : string) (metadata : Metadata)
    : M agent_state source_result :=
  try_except
    (solution ← call (solve_direct query metadata);
     solution_text ← eval (getitem "solution" (out_solution solution));
     solution_steps ← eval (getitem "steps" (out_steps solution));
     ret {| solution := solution_text;
            steps := solution_steps;
            sources := [Source_direct_solver "mathematical_analysis"];
            confidence := get (out_confidence solution) 0.3%float;
            error := None |})
    (λ e,
     ret {| solution := "I'm having trouble solving this problem. Could you please rephrase your question or provide more context?";
            steps := ["Unable to process the query with available methods"];
            sources := [];
            confidence := 0.0%float;
            error := Some e |}).

(** A string is true when it is not empty. *)
Definition truthy (s : string) : bool := negb (String.eqb s "").

Definition _combine_results (kb_result web_result : source_result) : source_result :=
  let combined_solution :=
    "Based on my knowledge base: " +:+ solution kb_result +:+ blank_line in
  let combined_solution :=
    if truthy (solution web_result)
       && negb (String.eqb (solution web_result) (solution kb_result))
    then combined_solution +:+ "Additional information from web search: "
           +:+ solution web_result
    else combined_solution in
  let combined_steps := steps kb_result ++ steps web_result in
  let combined_sources := sources kb_result ++ sources web_result in
  let avg_confidence := ((confidence kb_result + confidence web_result) / 2)%float in
  {| solution := combined_solution;
     steps := combined_steps;
     sources := combined_sources;
     confidence := avg_confidence;
     error := None |}.

Definition process_query (query : string) (metadata : Metadata) : M agent_state response :=
  try_except
    (decision ← route_query query metadata;
     let '(route_decision, routing_metadata) := decision in
     let routing_metadata := with_route_used (value route_decision) routing_metadata in
     let response := {| resp_query := query;
                        resp_route_used := value route_decision;
                        resp_routing_metadata := Metadata_of_route routing_metadata;
                        resp_solution := "";
                        resp_steps := [];
                        resp_sources := [];
                        resp_confidence := 0.0%float;
                        resp_error := None |} in
     match route_decision with
     | KNOWLEDGE_BASE =>
         result ← _process_knowledge_base query;
         ret (update response result)
     | WEB_SEARCH =>
         result ← _process_web_search query;
         ret (update response result)
     | HYBRID =>
         kb_result ← _process_knowledge_base query;
         web_result ← _process_web_search query;
         let result := _combine_results kb_result web_result in
         ret (update response result)
     | FALLBACK =>
         result ← _process_fallback query metadata;
         ret (update response result)
     end)
    (λ e,
     ret {| resp_query := query;
            resp_route_used := "error";
            resp_routing_metadata := Metadata_route_used_only "error";
            resp_solution := "An error occurred while processing your query.";
            resp_steps := [];
            resp_sources := [];
            resp_confidence := 0.0%float;
            resp_error := Some e |}).

End RoutingAgent.

(** ** The feedback agent ([backend/app/agents/feedback_agent.py]) *)

(** The [feedback_data] dictionary a caller passes to [collect_feedback].
    Every entry that is present holds a value of the type the code expects. *)
Record feedback_data : Type := {
  fd_rating : option Z;
  fd_helpful : option bool;
  fd_correct : option bool;
  fd_clear : option bool;
  fd_complete : option bool;
  fd_comments : option string;
  fd_suggested_improvement : option string;
  fd_alternative_solution : option string
}.

(** The entry ['routing_metadata'] of a response, when it is present:
    Python's [None], which is what the request schema fills in when the caller
    leaves the field out, or a dictionary, read as its optional
    ['confidence_scores'] entry. *)
Inductive routing_metadata_entry : Type :=
| Metadata_null
| Metadata_dict (confidence_scores : option (list (string * float))).

(** The [response] dictionary a caller passes to [collect_feedback]. *)
Record response_data : Type := {
  rsp_solution : option string;
  rsp_steps : option (list string);
  rsp_route_used : option string;
  rsp_confidence : option float;
  rsp_processing_time : option float;
  rsp_routing_metadata : option routing_metadata_entry
}.

(** The three dictionaries of a stored feedback entry. *)
Record entry_response : Type := {
  er_solution : string;
  er_steps : list string;
  er_route_used : string;
  er_confidence : float
}.

Record entry_feedback : Type := {
  ef_rating : Z;
  ef_helpful : bool;
  ef_correct : bool;
  ef_clear : bool;
  ef_complete : bool;
  ef_comments : string;
  ef_suggested_improvement : string;
  ef_alternative_solution : string
}.

Record entry_metadata : Type := {
  em_response_time : float;
  em_route_confidence : list (string * float);
  em_user_satisfaction : Z
}.

Record feedback_entry : Type := {
  fe_id : string;
  fe_timestamp : string;
  fe_query : string;
  fe_response : entry_response;
  fe_feedback : entry_feedback;
  fe_metadata : entry_metadata
}.

(** An improvement suggestion; ["user_correction"] is present on the
    correctness rule only. *)
Record improvement : Type := {
  imp_type : string;
  imp_route : string;
  imp_issue : string;
  imp_suggestion : string;
  imp_priority : string;
  imp_user_correction : option string
}.

(** The mutable attributes of a [FeedbackAgent]: [feedback_storage] is a
    dictionary keyed by feedback id, in insertion order; [feedback_stats] is
    a [defaultdict(int)]. *)
Record FeedbackAgent : Type := {
  feedback_storage : list (string * feedback_entry);
  feedback_stats : gmap string Z;
  improvement_suggestions : list improvement
}.

(** The agent [__init__] builds when no feedback file exists. *)
Definition fresh_agent : FeedbackAgent :=
  {| feedback_storage := []; feedback_stats := ∅; improvement_suggestions := [] |}.

(** The two readings of [datetime.now()] that one call of [collect_feedback]
    takes: [strftime("%Y%m%d_%H%M%S")] for the id and [isoformat()] for the
    entry. *)
Record clock : Type := {
  now_strftime : string;
  now_isoformat : string
}.

(** What [collect_feedback] returns: the ["collected"] dictionary or the
    ["error"] one. *)
Inductive feedback_result : Type :=
| Collected (feedback_id : string) (improvements_identified : nat)
            (suggestions : list improvement)
| Feedback_error (error : string).

Section FeedbackAgentMethods.
Local Open Scope py_scope.
Local Open Scope Z_scope.

(** [stats[key]] on the [defaultdict(int)]. *)
Definition stat (stats : gmap string Z) (key : string) : Z :=
  default 0 (stats !! key).

(** [stats[key] += 1]. *)
Definition incr (key : string) (stats : gmap string Z) : gmap string Z :=
  <[key := stat stats key + 1]> stats.

Definition update_stats (f : gmap string Z → gmap string Z) : M FeedbackAgent unit :=
  modify (λ self,
    {| feedback_storage := feedback_storage self;
       feedback_stats := f (feedback_stats self);
       improvement_suggestions := improvement_suggestions self |}).

Definition _generate_feedback_id (now : clock) : M FeedbackAgent string :=
  timestamp ← ret (now_strftime now);
  counter ← gets (λ self, (length (feedback_storage self) + 1)%nat);
  ret ("feedback_" +:+ timestamp +:+ "_" +:+ format_04d counter).

Definition _update_feedback_stats (feedback_entry : feedback_entry) : M FeedbackAgent unit :=
  let feedback := fe_feedback feedback_entry in
  let route := er_route_used (fe_response feedback_entry) in
  update_stats (incr "total_feedback");;
  update_stats (incr ("rating_" +:+ str_of_Z (ef_rating feedback)));;
  update_stats (incr ("route_" +:+ route +:+ "_total"));;
  (if ef_helpful feedback
   then update_stats (incr ("route_" +:+ route +:+ "_helpful")) else ret tt);;
  (if ef_correct feedback
   then update_stats (incr ("route_" +:+ route +:+ "_correct")) else ret tt);;
  (if 4 <=? ef_rating feedback then update_stats (incr "high_satisfaction")
   else if ef_rating feedback <=? 2 then update_stats (incr "low_satisfaction")
   else ret tt);;
  (if negb (ef_clear feedback) then update_stats (incr "clarity_issues") else ret tt);;
  (if negb (ef_complete feedback)
   then update_stats (incr "completeness_issues") else ret tt).

Definition _process_feedback_for_improvements (feedback_entry : feedback_entry)
    : M FeedbackAgent (list improvement) :=
  let improvements := [] in
  let feedback := fe_feedback feedback_entry in
  let response := fe_response feedback_entry in
  let improvements :=
    if ef_rating feedback <=? 2 then
      improvements ++ [{| imp_type := "low_satisfaction";
                          imp_route := er_route_used response;
                          imp_issue := "User gave low rating";
                          imp_suggestion := "Review solution quality and approach";
                          imp_priority := "high";
                          imp_user_correction := None |}]
    else improvements in
  let improvements :=
    if negb (ef_correct feedback) then
      improvements ++ [{| imp_type := "correctness";
                          imp_route := er_route_used response;
                          imp_issue := "Solution marked as incorrect";
                          imp_suggestion := "Verify computational accuracy and logic";
                          imp_priority := "critical";
                          imp_user_correction := Some (ef_alternative_solution feedback) |}]
    else improvements in
  let improvements :=
    if negb (ef_clear feedback) then
      improvements ++ [{| imp_type := "clarity";
                          imp_route := er_route_used response;
                          imp_issue := "Solution not clear to user";
                          imp_suggestion := "Improve explanation and step-by-step breakdown";
                          imp_priority := "medium";
                          imp_user_correction := None |}]
    else improvements in
  let improvements :=
    if negb (ef_complete feedback) then
      improvements ++ [{| imp_type := "completeness";
                          imp_route := er_route_used response;
                          imp_issue := "Solution incomplete";
                          imp_suggestion := "Provide more comprehensive solution steps";
                          imp_priority := "medium";
                          imp_user_correction := None |}]
    else improvements in
  let improvements :=
    if Py.lt (er_confidence response) 0.5 && (ef_rating feedback <=? 3) then
      improvements ++ [{| imp_type := "confidence_accuracy";
                          imp_route := er_route_used response;
                          imp_issue := "Low confidence correlated with poor user experience";
                          imp_suggestion := "Improve routing decision accuracy";
                          imp_priority := "high";
                          imp_user_correction := None |}]
    else improvements in
  modify (λ self,
    {| feedback_storage := feedback_storage self;
       feedback_stats := feedback_stats self;
       improvement_suggestions := improvement_suggestions self ++ improvements |});;
  ret improvements.

(** The write to the feedback file; a failure is caught and logged inside
    the method, and the attributes of the agent are not touched. *)
Definition _save_feedback_data : M FeedbackAgent unit := ret tt.

(** [response.get('routing_metadata', {}).get('confidence_scores', {})]:
    the second [get] is an attribute of the entry, which [None] does not
    have. *)
Definition route_confidence_of (response : response_data)
    : result (list (string * float)) :=
  match rsp_routing_metadata response with
  | None => Ok []
  | Some Metadata_null => Raise "'NoneType' object has no attribute 'get'"
  | Some (Metadata_dict confidence_scores) => Ok (get confidence_scores [])
  end.

(** The dictionary [feedback_entry] that [collect_feedback] builds, given
    the value of its ['route_confidence'] entry; the other entries are read
    with defaults and cannot raise. *)
Definition feedback_entry_with (route_confidence : list (string * float))
    (feedback_id : string) (now : clock) (query : string) (response : response_data)
    (feedback_data : feedback_data) : feedback_entry :=
  {| fe_id := feedback_id;
     fe_timestamp := now_isoformat now;
     fe_query := query;
     fe_response :=
       {| er_solution := get (rsp_solution response) "";
          er_steps := get (rsp_steps response) [];
          er_route_used := get (rsp_route_used response) "";
          er_confidence := get (rsp_confidence response) 0.0%float |};
     fe_feedback :=
       {| ef_rating := get (fd_rating feedback_data) 0;
          ef_helpful := get (fd_helpful feedback_data) false;
          ef_correct := get (fd_correct feedback_data) true;
          ef_clear := get (fd_clear feedback_data) true;
          ef_complete := get (fd_complete feedback_data) true;
          ef_comments := get (fd_comments feedback_data) "";
          ef_suggested_improvement := get (fd_suggested_improvement feedback_data) "";
          ef_alternative_solution := get (fd_alternative_solution feedback_data) "" |};
     fe_metadata :=
       {| em_response_time := get (rsp_processing_time response) 0%float;
          em_route_confidence := route_confidence;
          em_user_satisfaction := get (fd_rating feedback_data) 0 |} |}.

Definition structure_feedback_entry (feedback_id : string) (now : clock)
    (query : string) (response : response_data) (feedback_data : feedback_data)
    : result feedback_entry :=
  match route_confidence_of response with
  | Ok route_confidence =>
      Ok (feedback_entry_with route_confidence feedback_id now query response
            feedback_data)
  | Raise e => Raise e
  end.

Definition collect_feedback (now : clock) (query : string) (response : response_data)
    (feedback_data : feedback_data) : M FeedbackAgent feedback_result :=
  try_except
    (feedback_id ← _generate_feedback_id now;
     feedback_entry ←
       eval (structure_feedback_entry feedback_id now query response feedback_data);
     modify (λ self,
       {| feedback_storage := dict_set feedback_id feedback_entry (feedback_storage self);
          feedback_stats := feedback_stats self;
          improvement_suggestions := improvement_suggestions self |});;
     _update_feedback_stats feedback_entry;;
     improvements ← _process_feedback_for_improvements feedback_entry;
     _save_feedback_data;;
     ret (Collected feedback_id (length improvements) improvements))
    (λ e, ret (Feedback_error e)).

(** *** Analysis *)

(** One row of [_analyze_route_performance]. *)
Record route_performance : Type := {
  rp_total_usage : Z;
  rp_helpful_rate : float;
  rp_correct_rate : float;
  rp_effectiveness_score : float
}.

(** One row of [_prioritize_improvements]. *)
Record priority_row : Type := {
  pr_type : string;
  pr_priority : string;
  pr_frequency : nat;
  pr_recommended_action : string
}.

(** What [_analyze_recent_trends] returns. *)
Inductive recent_trends : Type :=
| Trends_message (message : string)
| Trends_report (recent_average_rating overall_average_rating : float)
                (trend : string) (recent_feedback_count : nat).

(** What [get_feedback_analysis] returns: the empty-state dictionary
    [{"message": ...}], the report, or [{"error": ...}]. *)
Inductive feedback_analysis : Type :=
| Analysis_message (message : string)
| Analysis_report
    (total_feedback_entries : Z)
    (average_rating high_satisfaction_rate low_satisfaction_rate : float)
    (route_performance : list (string * route_performance))
    (clarity_rate completeness_rate : float)
    (improvement_priorities : list priority_row)
    (recent_trends : recent_trends)
| Analysis_error (error : string).

(** The sums of the loop [for i in range(1, 6)] of
    [_calculate_average_rating]: [(total_ratings, total_count)]. *)
Definition rating_totals (stats : gmap string Z) : Z * Z :=
  fold_left (λ acc i,
               let count := stat stats ("rating_" +:+ str_of_Z i) in
               (acc.1 + i * count, acc.2 + count))
            [1; 2; 3; 4; 5] (0, 0).

Definition _calculate_average_rating (self : FeedbackAgent) : result float :=
  let '(total_ratings, total_count) := rating_totals (feedback_stats self) in
  if 0 <? total_count then truediv total_ratings total_count else Ok 0.0%float.

Definition routes : list string := ["knowledge_base"; "web_search"; "hybrid"; "fallback"].

Fixpoint route_performance_of (stats : gmap string Z) (routes : list string)
    : result (list (string * route_performance)) :=
  match routes with
  | [] => Ok []
  | route :: routes' =>
      let total := stat stats ("route_" +:+ route +:+ "_total") in
      let row :=
        if 0 <? total then
          let helpful := stat stats ("route_" +:+ route +:+ "_helpful") in
          let correct := stat stats ("route_" +:+ route +:+ "_correct") in
          match truediv helpful total, truediv correct total,
                truediv (helpful + correct) (2 * total) with
          | Ok h, Ok c, Ok e =>
              Ok [(route, {| rp_total_usage := total; rp_helpful_rate := h;
                             rp_correct_rate := c; rp_effectiveness_score := e |})]
          | Raise e, _, _ | _, Raise e, _ | _, _, Raise e => Raise e
          end
        else Ok [] in
      match row, route_performance_of stats routes' with
      | Ok r, Ok rest => Ok (r ++ rest)
      | Raise e, _ | _, Raise e => Raise e
      end
  end.

Definition _analyze_route_performance (self : FeedbackAgent)
    : result (list (string * route_performance)) :=
  route_performance_of (feedback_stats self) routes.

Definition _get_recommended_action (improvement_type : string) : string :=
  if String.eqb improvement_type "correctness" then
    "Review mathematical computation logic and verify solutions against known answers"
  else if String.eqb improvement_type "clarity" then
    "Improve step-by-step explanations and use simpler language"
  else if String.eqb improvement_type "completeness" then
    "Ensure all solution steps are included and properly explained"
  else if String.eqb improvement_type "low_satisfaction" then
    "Conduct detailed review of user experience and solution quality"
  else if String.eqb improvement_type "confidence_accuracy" then
    "Calibrate routing confidence scores and improve decision thresholds"
  else "Investigate specific issues and implement targeted improvements".

(** [type_counts[item['type']] += 1] on a [defaultdict(int)] whose order of
    insertion is read by [items()]. *)
Fixpoint count_type (t : string) (counts : list (string * nat)) : list (string * nat) :=
  match counts with
  | [] => [(t, 1%nat)]
  | (t', n) :: counts' =>
      if String.eqb t' t then (t', S n) :: counts' else (t', n) :: count_type t counts'
  end.

(** [sorted(counts, key=lambda x: x[1], reverse=True)]: stable, greatest
    count first. *)
Fixpoint insert_by_count (x : string * nat) (l : list (string * nat)) : list (string * nat) :=
  match l with
  | [] => [x]
  | y :: l' => if (y.2 <=? x.2)%nat then x :: y :: l' else y :: insert_by_count x l'
  end.

Definition sorted_by_count (l : list (string * nat)) : list (string * nat) :=
  foldr insert_by_count [] l.

Definition _prioritize_improvements (self : FeedbackAgent) : list priority_row :=
  let prioritized :=
    flat_map (λ priority,
      let items := filter (λ i, imp_priority i = priority) (improvement_suggestions self) in
      let type_counts := fold_left (λ counts item, count_type (imp_type item) counts) items [] in
      map (λ tc, {| pr_type := tc.1; pr_priority := priority; pr_frequency := tc.2;
                    pr_recommended_action := _get_recommended_action tc.1 |})
          (sorted_by_count type_counts))
      ["critical"; "high"; "medium"; "low"] in
  take 10 prioritized.

(** [xs[-n:]]. *)
Definition last_n {A} (n : nat) (xs : list A) : list A := drop (length xs - n) xs.

(** The ratings are the integers the callers gave, of any size. *)
Definition _analyze_recent_trends (self : FeedbackAgent) : result recent_trends :=
  let recent_feedback := last_n 20 (dict_values (feedback_storage self)) in
  match recent_feedback with
  | [] => Ok (Trends_message "No recent feedback available")
  | _ :: _ =>
      let recent_ratings := map (λ f, ef_rating (fe_feedback f)) recent_feedback in
      match long_true_divide (fold_left Z.add recent_ratings 0)
                             (Z.of_nat (length recent_ratings)),
            _calculate_average_rating self with
      | Ok recent_avg, Ok overall_avg =>
          let trend := if Py.gt recent_avg overall_avg then "improving"
                       else if Py.lt recent_avg overall_avg then "declining"
                       else "stable" in
          Ok (Trends_report recent_avg overall_avg trend (length recent_feedback))
      | Raise e, _ | _, Raise e => Raise e
      end
  end.

Definition get_feedback_analysis : M FeedbackAgent feedback_analysis :=
  try_except
    (total_feedback ← gets (λ self, stat (feedback_stats self) "total_feedback");
     if total_feedback =? 0 then
       ret (Analysis_message "No feedback data available yet")
     else
       self ← gets id;
       avg_rating ← eval (_calculate_average_rating self);
       route_performance ← eval (_analyze_route_performance self);
       let improvement_priorities := _prioritize_improvements self in
       high_satisfaction_rate ←
         eval (truediv (stat (feedback_stats self) "high_satisfaction") total_feedback);
       low_satisfaction_rate ←
         eval (truediv (stat (feedback_stats self) "low_satisfaction") total_feedback);
       clarity_rate ←
         eval (truediv (stat (feedback_stats self) "clarity_issues") total_feedback);
       completeness_rate ←
         eval (truediv (stat (feedback_stats self) "completeness_issues") total_feedback);
       recent ← eval (_analyze_recent_trends self);
       ret (Analysis_report total_feedback avg_rating
              high_satisfaction_rate low_satisfaction_rate
              route_performance clarity_rate completeness_rate
              improvement_priorities recent))
    (λ e, ret (Analysis_error e)).

End FeedbackAgentMethods.

(** ** Notions used to state the properties *)

(** *** Floats *)

(** [0.0 <= x <= 1.0]. *)
Definition in_unit_interval (x : float) : bool :=
  (0 <=? x)%float && (x <=? 1)%float.

(** [x] is not NaN. *)
Definition is_number (x : float) : bool := (x =? x)%float.

(** NaN, read on the specification. *)
Definition sf_is_nan (f : spec_float) : bool :=
  match f with S754_nan => true | _ => false end.

(** Zero or a finite float, read on the specification. *)
Definition sf_finite (f : spec_float) : bool :=
  match f with
  | S754_zero _ | S754_finite _ _ _ => true
  | S754_infinity _ | S754_nan => false
  end.

(** A float that is not NaN and not below zero, read on its specification. *)
Definition sf_nonneg (f : spec_float) : bool :=
  match f with
  | S754_zero _ => true
  | S754_infinity s | S754_finite s _ _ => negb s
  | S754_nan => false
  end.

(** A key whose lexicographic order is the order of the floats that are not
    NaN: the class (minus infinity, negative, zero, positive, infinity), then
    the exponent and the mantissa, negated for a negative float. *)
Definition sf_key (f : spec_float) : Z * Z * Z :=
  match f with
  | S754_zero _ | S754_nan => (0, 0, 0)%Z
  | S754_infinity s => (if s then -2 else 2, 0, 0)%Z
  | S754_finite false m e => (1, e, Z.pos m)%Z
  | S754_finite true m e => (-1, - e, Z.neg m)%Z
  end.

(** The strict lexicographic order on keys, and its reflexive closure. *)
Definition key_lt (a b : Z * Z * Z) : Prop :=
  (a.1.1 < b.1.1 ∨ (a.1.1 = b.1.1 ∧ (a.1.2 < b.1.2 ∨ (a.1.2 = b.1.2 ∧ a.2 < b.2))))%Z.

Definition key_le (a b : Z * Z * Z) : Prop :=
  key_lt a b ∨ (a.1.1 = b.1.1 ∧ a.1.2 = b.1.2 ∧ a.2 = b.2).

(** *** Route selection and scores *)

(** The transition table of the route selector, as the specification words
    it: the first line that applies decides. *)
Definition transition_table (kb_conf web_need : float) : RouteDecision :=
  if ge kb_conf 0.7 then KNOWLEDGE_BASE
  else if ge web_need 0.5 && gt kb_conf 0.3 then HYBRID
  else if ge web_need 0.5 then WEB_SEARCH
  else FALLBACK.

(** The raw relevance scores of a candidate list; a candidate without score
    counts as 0.0. *)
Definition scores_of {collab : Collaborators} (results : list kb_result) : list float :=
  map (λ result, get (score result) 0.0%float) results.

(** The number of keywords that occur in a text. *)
Definition count_matches (keywords : list string) (text : string) : nat :=
  length (List.filter (λ kw, contains kw text) keywords).

(** [n] additions of [0.1] to [0.0], as an accumulator [+= 0.1] makes them. *)
Definition tenths (n : nat) : float := Nat.iter n (λ b, (b + 0.1)%float) 0.0%float.

(** The knowledge-base confidence as the specification words it:
    [min(1.0, M + B + C)], where [M] is the greatest raw relevance score, [B] is
    0.1 per math-topic keyword of the lowercased query and [C] is 0.1 when a
    computational-intent word occurs.  The sum is taken as [M + (B + C)] and
    the arguments of [min] in the order of the code, which matters for the
    rounding and for NaN only. *)
Definition kb_confidence_formula (M : float) (query : string) : float :=
  let B := tenths (count_matches math_topics (lower query)) in
  let C := if any_in computational_words (lower query) then 0.1%float else 0.0%float in
  Py.min (M + (B + C))%float 1.0%float.

(** An exception with text [e] is raised while [route_query_with] computes the
    scores: by the knowledge-base search, by the knowledge-base scorer, or by
    the web-search scorer when the knowledge-base score is below the
    threshold.  [w] is the world the search leaves behind. *)
Inductive scoring_raises {collab : Collaborators}
    (calc : list kb_result → string → result float)
    (web : string → Metadata → result float)
    (query : string) (metadata : Metadata) (st : agent_state)
    (e : string) (w : World) : Prop :=
| search_raises :
    kb_search query 3 (world st) = (Raise e, w) →
    scoring_raises calc web query metadata st e w
| kb_scorer_raises results :
    kb_search query 3 (world st) = (Ok results, w) →
    calc results query = Raise e →
    scoring_raises calc web query metadata st e w
| web_scorer_raises results kb_conf :
    kb_search query 3 (world st) = (Ok results, w) →
    calc results query = Ok kb_conf →
    ge kb_conf settings.confidence_threshold = false →
    web query metadata = Raise e →
    scoring_raises calc web query metadata st e w.

(** *** Dispatch *)

(** The text every combined solution starts with. *)
Definition combined_preamble {collab : Collaborators} (kb_result : source_result)
    : string :=
  "Based on my knowledge base: " +:+ solution kb_result +:+ blank_line.

(** The envelope of [process_query] before the result of the route is merged
    into it. *)
Definition initial_response {collab : Collaborators} (query : string)
    (route : RouteDecision) (md : routing_metadata) : response :=
  {| resp_query := query;
     resp_route_used := value route;
     resp_routing_metadata := Metadata_of_route (with_route_used (value route) md);
     resp_solution := "";
     resp_steps := [];
     resp_sources := [];
     resp_confidence := 0.0%float;
     resp_error := None |}.

(** The text of the [KeyError] that reading ["solution"] and then ["steps"]
    in a solver's answer raises, if any. *)
Definition missing_key (out : solver_output) : option string :=
  match out_solution out, out_steps out with
  | None, _ => Some "'solution'"
  | Some _, None => Some "'steps'"
  | Some _, Some _ => None
  end.

(** A collaborator of [_process_knowledge_base] fails with text [e]: the
    search raises, the solver raises, or the solver's answer lacks an entry
    the method reads. *)
Inductive kb_collaborator_fails {collab : Collaborators}
    (query : string) (st : agent_state) (e : string) : Prop :=
| kb_search_fails w :
    kb_search query 3 (world st) = (Raise e, w) →
    kb_collaborator_fails query st e
| kb_solver_fails best rest w w' :
    kb_search query 3 (world st) = (Ok (best :: rest), w) →
    solve_from_knowledge best query w = (Raise e, w') →
    kb_collaborator_fails query st e
| kb_solver_incomplete best rest w out w' :
    kb_search query 3 (world st) = (Ok (best :: rest), w) →
    solve_from_knowledge best query w = (Ok out, w') →
    missing_key out = Some e →
    kb_collaborator_fails query st e.

(** The same for [_process_web_search]. *)
Inductive web_collaborator_fails {collab : Collaborators}
    (query : string) (st : agent_state) (e : string) : Prop :=
| web_search_fails w :
    web_search query (world st) = (Raise e, w) →
    web_collaborator_fails query st e
| web_solver_fails r rest w w' :
    web_search query (world st) = (Ok (r :: rest), w) →
    solve_from_web_search (r :: rest) query w = (Raise e, w') →
    web_collaborator_fails query st e
| web_solver_incomplete r rest w out w' :
    web_search query (world st) = (Ok (r :: rest), w) →
    solve_from_web_search (r :: rest) query w = (Ok out, w') →
    missing_key out = Some e →
    web_collaborator_fails query st e.

(** The same for [_process_fallback]. *)
Inductive direct_solver_fails {collab : Collaborators}
    (query : string) (metadata : Metadata) (st : agent_state) (e : string) : Prop :=
| direct_solver_raises w :
    solve_direct query metadata (world st) = (Raise e, w) →
    direct_solver_fails query metadata st e
| direct_solver_incomplete out w :
    solve_direct query metadata (world st) = (Ok out, w) →
    missing_key out = Some e →
    direct_solver_fails query metadata st e.

(** The explanations of the three methods. *)
Definition kb_explanation (e : string) : string :=
  "Error accessing knowledge base: " +:+ e.
Definition web_explanation (e : string) : string :=
  "Error during web search: " +:+ e.
Definition fallback_explanation : string :=
  "I'm having trouble solving this problem. Could you please rephrase your question or provide more context?".

(** A source result that reports the failure [e]: confidence 0.0, the
    explanation as solution, no source. *)
Definition degraded {collab : Collaborators} (explanation e : string)
    (r : source_result) : Prop :=
  confidence r = 0.0%float ∧ solution r = explanation
  ∧ sources r = [] ∧ error r = Some e.

(** The envelope that carries such a result for the route [route]. *)
Definition degraded_envelope {collab : Collaborators} (route : RouteDecision)
    (explanation e : string) (envelope : response) : Prop :=
  resp_route_used envelope = value route
  ∧ resp_confidence envelope = 0.0%float ∧ resp_solution envelope = explanation
  ∧ resp_sources envelope = [] ∧ resp_error envelope = Some e.

(** *** Feedback *)

(** The suggestion of the rule on low confidence. *)
Definition confidence_accuracy_suggestion (route : string) : improvement :=
  {| imp_type := "confidence_accuracy";
     imp_route := route;
     imp_issue := "Low confidence correlated with poor user experience";
     imp_suggestion := "Improve routing decision accuracy";
     imp_priority := "high";
     imp_user_correction := None |}.

(** The ['routing_metadata'] entry of a response is present and [None]. *)
Definition routing_metadata_is_null (response : response_data) : bool :=
  match rsp_routing_metadata response with
  | Some Metadata_null => true
  | _ => false
  end.

(** What [str(e)] gives for the [AttributeError] that reading an entry of
    [None] raises. *)
Definition none_has_no_get : string := "'NoneType' object has no attribute 'get'".

(** The entry [collect_feedback] builds from its arguments when the
    ['routing_metadata'] entry of the response can be read. *)
Definition entry_for (feedback_id : string) (now : clock) (query : string)
    (response : response_data) (feedback_data : feedback_data) : feedback_entry :=
  feedback_entry_with
    (match rsp_routing_metadata response with
     | Some (Metadata_dict confidence_scores) => get confidence_scores []
     | _ => []
     end) feedback_id now query response feedback_data.

(** One call of [collect_feedback]: the clock readings and the arguments. *)
Record submission : Type := {
  sub_now : clock;
  sub_query : string;
  sub_response : response_data;
  sub_feedback : feedback_data
}.

(** The submissions whose response has a ['routing_metadata'] entry that
    can be read: it is absent or a dictionary. *)
Definition accepted (sub : submission) : bool :=
  negb (routing_metadata_is_null (sub_response sub)).

(** A sequence of calls of [collect_feedback] on one agent, with what each
    call returns. *)
Fixpoint collect_all (subs : list submission) (self : FeedbackAgent)
    : list (result feedback_result) * FeedbackAgent :=
  match subs with
  | [] => ([], self)
  | sub :: subs' =>
      let '(r, self') := collect_feedback (sub_now sub) (sub_query sub)
                           (sub_response sub) (sub_feedback sub) self in
      let '(rs, self'') := collect_all subs' self' in
      (r :: rs, self'')
  end.

(** The feedback ids among what a sequence of calls returned. *)
Definition returned_ids (rs : list (result feedback_result)) : list string :=
  flat_map (λ r, match r with
                 | Ok (Collected feedback_id _ _) => [feedback_id]
                 | _ => []
                 end) rs.

(** The id [_generate_feedback_id] builds from a timestamp and a counter. *)
Definition feedback_id_of (timestamp : string) (counter : nat) : string :=
  "feedback_" +:+ timestamp +:+ "_" +:+ format_04d counter.

(** [c] occurs in [s]. *)
Fixpoint char_in (c : ascii) (s : string) : bool :=
  match s with
  | EmptyString => false
  | String a s' => Ascii.eqb a c || char_in c s'
  end.

(** The part of [s] after the last occurrence of [c]. *)
Fixpoint after_last (c : ascii) (s : string) : string :=
  match s with
  | EmptyString => EmptyString
  | String a s' =>
      if char_in c s' then after_last c s'
      else if Ascii.eqb a c then s' else String a s'
  end.

(** The counter an id ends with: the number written after its last
    underscore. *)
Definition counter_of_id (id : string) : option nat :=
  Nat.of_uint <$> NilEmpty.uint_of_string (after_last "_" id).

(** What holds of the store of an agent that started empty: every key ends
    with a counter that is at most the number of entries. *)
Definition counters_bounded (self : FeedbackAgent) : Prop :=
  Forall (λ id, ∃ n, counter_of_id id = Some n ∧ n ≤ length (feedback_storage self))
         (dict_keys (feedback_storage self)).

(** The counters [_update_feedback_stats] increments for an entry, in the
    order of the increments. *)
Definition counted_keys (entry : feedback_entry) : list string :=
  let feedback := fe_feedback entry in
  let route := er_route_used (fe_response entry) in
  ["total_feedback"; "rating_" +:+ str_of_Z (ef_rating feedback);
   "route_" +:+ route +:+ "_total"]
  ++ (if ef_helpful feedback then ["route_" +:+ route +:+ "_helpful"] else [])
  ++ (if ef_correct feedback then ["route_" +:+ route +:+ "_correct"] else [])
  ++ (if (4 <=? ef_rating feedback)%Z then ["high_satisfaction"]
      else if (ef_rating feedback <=? 2)%Z then ["low_satisfaction"] else [])
  ++ (if ef_clear feedback then [] else ["clarity_issues"])
  ++ (if ef_complete feedback then [] else ["completeness_issues"]).

(** How many times a key occurs in a list of keys. *)
Definition occurrences (key : string) (keys : list string) : nat :=
  length (List.filter (String.eqb key) keys).

(** *** Inputs on which the agents are run *)

(** Collaborators that answer every call with a scripted outcome; they serve
    to run the agent on concrete inputs. *)
Definition scripted (kb : result (list (option float * string)))
    (web : result (list string)) (solver : result solver_output) : Collaborators :=
  {| World := unit;
     Metadata := unit;
     Document := string;
     WebResult := string;
     kb_search := λ _ _, eval kb;
     web_search := λ _, eval web;
     solve_from_knowledge := λ _ _, eval solver;
     solve_from_web_search := λ _ _, eval solver;
     solve_direct := λ _ _, eval solver;
     format_3f := λ _, "" |}.

(** Collaborators that find nothing and cannot solve. *)
Definition idle : Collaborators := scripted (Ok []) (Ok []) (Raise "unavailable").

(** A knowledge base that finds one candidate of relevance 0.85, with a web
    search that finds nothing and a solver that raises. *)
Definition kb_knows_quadratics : Collaborators :=
  scripted (Ok [(Some 0.85%float, "quadratic equations")]) (Ok []) (Raise "solver down").

(** A knowledge base whose search raises. *)
Definition kb_unavailable : Collaborators :=
  scripted (Raise "index unavailable") (Ok []) (Raise "solver down").

(** The state of a routing agent that has routed nothing yet. *)
Definition new_agent (collab : Collaborators) (w : World) : agent_state :=
  {| world := w; routing_history := [] |}.

(** The clock readings of a call at noon. *)
Definition noon : clock :=
  {| now_strftime := "20240101_120000"; now_isoformat := "2024-01-01T12:00:00" |}.

(** A submission that fills in nothing, and one that rates 1 and marks the
    solution as incorrect. *)
Definition no_feedback_data : feedback_data :=
  {| fd_rating := None; fd_helpful := None; fd_correct := None; fd_clear := None;
     fd_complete := None; fd_comments := None; fd_suggested_improvement := None;
     fd_alternative_solution := None |}.

Definition poor_and_wrong : feedback_data :=
  {| fd_rating := Some 1%Z; fd_helpful := None; fd_correct := Some false;
     fd_clear := None; fd_complete := None; fd_comments := None;
     fd_suggested_improvement := None; fd_alternative_solution := None |}.

(** The response the route handler passes to [collect_feedback] for the
    example of the request schema: [response.dict()] holds [None] under
    ['routing_metadata'] when the caller sends none. *)
Definition response_as_posted : response_data :=
  {| rsp_solution := Some "The quadratic formula is x = (-b +- sqrt(b^2-4ac)) / (2a)";
     rsp_steps := Some ["Step 1: Identify quadratic equation"; "Step 2: Apply formula"];
     rsp_route_used := Some "knowledge_base"; rsp_confidence := Some 0.9%float;
     rsp_processing_time := Some 0.25%float;
     rsp_routing_metadata := Some Metadata_null |}.

(** A response of the knowledge-base route with the given ['confidence']
    entry. *)
Definition response_with_confidence (c : option float) : response_data :=
  {| rsp_solution := Some "x = 2 or x = 3"; rsp_steps := None;
     rsp_route_used := Some "knowledge_base"; rsp_confidence := c;
     rsp_processing_time := None; rsp_routing_metadata := None |}.

(** ** Python runtime notions, continued *)

(** [xs[:n]] for an integer [n]: a negative [n] counts from the end. *)
Definition slice_to {A} (n : Z) (xs : list A) : list A :=
  if (n <? 0)%Z then take (length xs - Z.to_nat (- n)) xs else take (Z.to_nat n) xs.

(** [xs.sort(key=..., reverse=True)] on keys that are totally ordered:
    stable, greatest key first.  [le a b] tells whether the key of [a] is at
    most the key of [b]; an item goes before the first item whose key is at
    most its own. *)
Fixpoint insert_descending {A} (le : A → A → bool) (x : A) (l : list A) : list A :=
  match l with
  | [] => [x]
  | y :: l' => if le y x then x :: y :: l' else y :: insert_descending le x l'
  end.

Definition sort_descending {A} (le : A → A → bool) (l : list A) : list A :=
  foldr (insert_descending le) [] l.

(** ** The routing agent, continued: statistics *)

(** What [get_routing_stats] returns: [{"total_queries": 0}] alone, or the
    report; the two dictionaries of the report are in insertion order. *)
Inductive routing_stats : Type :=
| Stats_total_queries_only (total_queries : nat)
| Stats_report (total_queries : nat)
               (route_distribution : list (string * nat))
               (average_confidence_by_route : list (string * float))
               (recent_queries : list history_entry).

Section RoutingStats.
Context {collab : Collaborators}.
(** The built-in [sum] on a list of floats; how it rounds depends on the
    interpreter (its additions are compensated from CPython 3.12 on). *)
Variable float_sum : list float → float.

(** The body of the loop [for entry in self.routing_history]. *)
Definition routing_stats_step
    (acc : list (string * nat) * list (string * list float)) (entry : history_entry)
    : list (string * nat) * list (string * list float) :=
  let '(route_counts, avg_confidences) := acc in
  let route := h_route entry in
  let route_counts :=
    dict_set route (get (dict_get route route_counts) 0 + 1) route_counts in
  let avg_confidences :=
    match dict_get route avg_confidences with
    | None => dict_set route [] avg_confidences
    | Some _ => avg_confidences
    end in
  let confidence_scores := h_confidence entry in
  let avg_confidences :=
    match dict_values confidence_scores with
    | primary_score :: _ =>
        dict_set route (get (dict_get route avg_confidences) [] ++ [primary_score])
                 avg_confidences
    | [] => avg_confidences
    end in
  (route_counts, avg_confidences).

(** The body of the loop [for route in avg_confidences], on one value. *)
Definition average_of (scores : list float) : float :=
  match scores with
  | _ :: _ => (float_sum scores / float_of_Z (Z.of_nat (length scores)))%float
  | [] => 0.0%float
  end.

Definition get_routing_stats (self : agent_state) : routing_stats :=
  match routing_history self with
  | [] => Stats_total_queries_only 0
  | _ :: _ =>
      let '(route_counts, avg_confidences) :=
        fold_left routing_stats_step (routing_history self) ([], []) in
      let avg_confidences := map (λ kv, (kv.1, average_of kv.2)) avg_confidences in
      Stats_report (length (routing_history self)) route_counts avg_confidences
        (if (5 <=? length (routing_history self))%nat
         then last_n 5 (routing_history self) else routing_history self)
  end.
End RoutingStats.

(** ** The feedback agent, continued *)

(** One entry of the list [apply_feedback_improvements] builds. *)
Record applied_improvement : Type := {
  ai_type : string;
  ai_action : string;
  ai_recommendation : string
}.

(** What [apply_feedback_improvements] returns. *)
Inductive improvements_result : Type :=
| Improvements_identified (applied_count : nat) (improvements : list applied_improvement)
| Improvements_error (error : string).

(** One entry of the list [update_knowledge_base_from_feedback] builds. *)
Inductive kb_update : Type :=
| Update_correction (original_query incorrect_solution corrected_solution
                     user_comments : string)
| Update_improvement (query current_solution suggested_improvement : string).

(** What [update_knowledge_base_from_feedback] returns. *)
Inductive kb_updates_result : Type :=
| Updates_identified (potential_updates : nat) (updates : list kb_update)
| Updates_error (error : string).

(** One row of ["rating_distribution"]. *)
Record rating_share : Type := {
  rs_count : Z;
  rs_percentage : float
}.

Record quality_metrics : Type := {
  qm_helpfulness : float;
  qm_correctness : float;
  qm_clarity : float;
  qm_completeness : float
}.

(** What [get_user_satisfaction_metrics] returns. *)
Inductive satisfaction_metrics : Type :=
| Metrics_message (message : string)
| Metrics_report (average_rating : float)
                 (rating_distribution : list (string * rating_share))
                 (quality_metrics : quality_metrics)
                 (satisfaction_trend : recent_trends)
| Metrics_error (error : string).

Section FeedbackAgentQueries.
Local Open Scope py_scope.
Local Open Scope Z_scope.

Definition apply_feedback_improvements : M FeedbackAgent improvements_result :=
  try_except
    (self ← gets id;
     let priorities := _prioritize_improvements self in
     let improvements_applied :=
       flat_map (λ priority_item,
         let improvement_type := pr_type priority_item in
         if String.eqb improvement_type "confidence_accuracy" then
           [{| ai_type := "confidence_threshold";
               ai_action := "Adjust routing confidence thresholds";
               ai_recommendation := "Lower threshold for knowledge base routing to 0.6" |}]
         else if String.eqb improvement_type "clarity" then
           [{| ai_type := "explanation_enhancement";
               ai_action := "Enhance step-by-step explanations";
               ai_recommendation := "Add more detailed intermediate steps" |}]
         else if String.eqb improvement_type "completeness" then
           [{| ai_type := "solution_completeness";
               ai_action := "Ensure complete solutions";
               ai_recommendation := "Add verification steps to all solutions" |}]
         else [])
         (take 5 priorities) in
     ret (Improvements_identified (length improvements_applied) improvements_applied))
    (λ e, ret (Improvements_error e)).

Definition get_feedback_by_id (self : FeedbackAgent) (feedback_id : string)
    : option feedback_entry :=
  dict_get feedback_id (feedback_storage self).

Definition get_feedback_by_query (self : FeedbackAgent) (query : string) (limit : Z)
    : list feedback_entry :=
  let query_lower := lower query in
  let matching_feedback :=
    List.filter (λ feedback_entry, contains query_lower (lower (fe_query feedback_entry)))
                (dict_values (feedback_storage self)) in
  let matching_feedback :=
    sort_descending (λ a b, String.leb (fe_timestamp a) (fe_timestamp b))
                    matching_feedback in
  slice_to limit matching_feedback.

Definition update_knowledge_base_from_feedback : M FeedbackAgent kb_updates_result :=
  try_except
    (self ← gets id;
     let updates :=
       flat_map (λ feedback_entry,
         let feedback := fe_feedback feedback_entry in
         if truthy (ef_alternative_solution feedback) && negb (ef_correct feedback) then
           [Update_correction (fe_query feedback_entry)
              (er_solution (fe_response feedback_entry))
              (ef_alternative_solution feedback) (ef_comments feedback)]
         else if truthy (ef_suggested_improvement feedback) then
           [Update_improvement (fe_query feedback_entry)
              (er_solution (fe_response feedback_entry))
              (ef_suggested_improvement feedback)]
         else [])
         (dict_values (feedback_storage self)) in
     ret (Updates_identified (length updates) (take 10 updates)))
    (λ e, ret (Updates_error e)).

(** [sum(1 for entry in self.feedback_storage.values() if flag(entry))]. *)
Definition count_entries (flag : entry_feedback → bool) (self : FeedbackAgent) : Z :=
  Z.of_nat (length (List.filter (λ entry, flag (fe_feedback entry))
                                (dict_values (feedback_storage self)))).

(** The loop [for i in range(1, 6)] of [get_user_satisfaction_metrics]. *)
Fixpoint rating_distribution_of (stats : gmap string Z) (total_feedback : Z)
    (ratings : list Z) (rating_dist : list (string * rating_share))
    : result (list (string * rating_share)) :=
  match ratings with
  | [] => Ok rating_dist
  | i :: ratings' =>
      let key := "rating_" +:+ str_of_Z i in
      match truediv (stat stats key) total_feedback with
      | Ok share =>
          rating_distribution_of stats total_feedback ratings'
            (dict_set key {| rs_count := stat stats key;
                             rs_percentage := (share * 100)%float |} rating_dist)
      | Raise e => Raise e
      end
  end.

Definition get_user_satisfaction_metrics : M FeedbackAgent satisfaction_metrics :=
  try_except
    (total_feedback ← gets (λ self, stat (feedback_stats self) "total_feedback");
     if total_feedback =? 0 then
       ret (Metrics_message "No feedback data available")
     else
       self ← gets id;
       rating_dist ←
         eval (rating_distribution_of (feedback_stats self) total_feedback
                 [1; 2; 3; 4; 5] []);
       helpfulness ← eval (truediv (count_entries ef_helpful self) total_feedback);
       correctness ← eval (truediv (count_entries ef_correct self) total_feedback);
       clarity ← eval (truediv (count_entries ef_clear self) total_feedback);
       completeness ← eval (truediv (count_entries ef_complete self) total_feedback);
       average_rating ← eval (_calculate_average_rating self);
       satisfaction_trend ← eval (_analyze_recent_trends self);
       ret (Metrics_report average_rating rating_dist
              {| qm_helpfulness := helpfulness; qm_correctness := correctness;
                 qm_clarity := clarity; qm_completeness := completeness |}
              satisfaction_trend))
    (λ e, ret (Metrics_error e)).

End FeedbackAgentQueries.

(** ** The knowledge base ([backend/app/services/knowledge_base.py]) *)

(** A document of the knowledge base, with the entries the service reads. *)
Record document : Type := {
  doc_id : string;
  doc_question : string;
  doc_answer : string;
  doc_explanation : string;
  doc_topic : string;
  doc_difficulty : string;
  doc_keywords : list string
}.

(** A search result: a copy of a document with its ['score'] and, on the
    vector path, its ['rank']. *)
Record hit : Type := {
  hit_document : document;
  hit_score : float;
  hit_rank : option nat
}.

(** The attributes of a [KnowledgeBaseService] that [search] reads.  The
    embedding model and the FAISS index are external: when both are loaded,
    [vector_index] stands for encoding the query, normalising it and asking
    the index for a number of neighbours; it gives the pairs of
    [zip(scores[0], indices[0])], the scores as [float(score)] reads them, or
    raises. *)
Record KnowledgeBaseService : Type := {
  documents : list document;
  vector_index : option (string → Z → result (list (float * Z)))
}.

Section KnowledgeBaseSearch.

(** The score [_keyword_search] gives a document.  [query_words] is a set:
    each of its words adds the same 0.2, whatever the order. *)
Definition keyword_score (query_lower : string) (query_words : list string)
    (doc : document) : float :=
  let score := 0.0%float in
  let score := add_per_match 0.5 (map lower (doc_keywords doc)) query_lower score in
  let doc_text := lower (doc_question doc +:+ " " +:+ doc_answer doc) in
  let score := add_per_match 0.2 query_words doc_text score in
  score.

Definition _keyword_search (self : KnowledgeBaseService) (query : string) (top_k : Z)
    : list hit :=
  let query_lower := lower query in
  let query_words := remove_dups (split query_lower) in
  let results :=
    flat_map (λ doc,
      let score := keyword_score query_lower query_words doc in
      if Py.gt score 0 then
        [{| hit_document := doc; hit_score := score; hit_rank := None |}]
      else [])
      (documents self) in
  let results :=
    sort_descending (λ a b, (hit_score a <=? hit_score b)%float) results in
  slice_to top_k results.

(** The loop over [enumerate(zip(scores[0], indices[0]))]. *)
Definition vector_hits (self : KnowledgeBaseService) (neighbours : list (float * Z))
    : list hit :=
  mjoin (imap (λ i neighbour,
                 let '(score, idx) := neighbour in
                 if (0 <=? idx)%Z && (idx <? Z.of_nat (length (documents self)))%Z then
                   match documents self !! Z.to_nat idx with
                   | Some doc =>
                       [{| hit_document := doc; hit_score := score;
                           hit_rank := Some (i + 1) |}]
                   | None => []
                   end
                 else [])
              neighbours).

Definition search (self : KnowledgeBaseService) (query : string) (top_k : Z) : list hit :=
  match vector_index self with
  | None => _keyword_search self query top_k
  | Some index =>
      match index query (Z.min top_k (Z.of_nat (length (documents self)))) with
      | Ok neighbours =>
          let results := vector_hits self neighbours in
          List.filter (λ r, Py.gt (hit_score r) 0.3) results
      | Raise _ => _keyword_search self query top_k
      end
  end.

End KnowledgeBaseSearch.

(** ** The web search ([backend/app/services/web_search.py]) *)

(** A search result as [_filter_math_results] reads it, with the entries it
    gets by [result.get(key, '')]. *)
Record web_result : Type := {
  wr_url : option string;
  wr_title : option string;
  wr_snippet : option string
}.

(** A result with the ['relevance_score'] that [_filter_math_results] writes
    into it. *)
Definition scored_result : Type := float * web_result.

Section WebSearchService.

Definition math_domains : list string :=
  ["mathworld.wolfram.com"; "en.wikipedia.org"; "khanacademy.org";
   "mathstackexchange.com"; "brilliant.org"; "mit.edu"; "stanford.edu"].

Definition _enhance_math_query (query : string) : string :=
  let query_lower := lower query in
  if negb (any_in ["math"; "formula"; "equation"; "solve"] query_lower) then
    if any_in ["what is"; "define"; "explain"] query_lower
    then query +:+ " mathematics" else query
  else query.

(** The score [_filter_math_results] gives a result; it raises when the
    query has no word. *)
Definition relevance (query_lower : string) (result : web_result) : Py.result float :=
  let score := 0.0%float in
  let url := lower (get (wr_url result) "") in
  let score := if any_in math_domains url then (score + 2.0)%float else score in
  let title := lower (get (wr_title result) "") in
  let score :=
    if any_in ["math"; "formula"; "equation"; "theorem"; "proof"] title
    then (score + 1.0)%float else score in
  let snippet := lower (get (wr_snippet result) "") in
  let score :=
    if any_in ["solve"; "formula"; "equation"; "calculate"] snippet
    then (score + 0.5)%float else score in
  let query_words := split query_lower in
  let content := lower (title +:+ " " +:+ snippet) in
  let matching_words :=
    length (List.filter (λ word, contains word content) query_words) in
  match truediv (Z.of_nat matching_words) (Z.of_nat (length query_words)) with
  | Ok share =>
      let score := (score + share * 1.5)%float in
      let score :=
        if any_in ["shopping"; "buy"; "price"; "sale"] content
        then (score - 1.0)%float else score in
      Ok score
  | Raise e => Raise e
  end.

(** The loop [for result in results] of [_filter_math_results]. *)
Fixpoint scored_web_results (query_lower : string) (results : list web_result)
    : Py.result (list scored_result) :=
  match results with
  | [] => Ok []
  | result :: results' =>
      match relevance query_lower result with
      | Ok score =>
          let scored := if Py.gt score 0.5 then [(score, result)] else [] in
          match scored_web_results query_lower results' with
          | Ok rest => Ok (scored ++ rest)
          | Raise e => Raise e
          end
      | Raise e => Raise e
      end
  end.

Definition _filter_math_results (results : list web_result) (query : string)
    : Py.result (list scored_result) :=
  let query_lower := lower query in
  match scored_web_results query_lower results with
  | Ok scored_results =>
      Ok (sort_descending (λ a b, (a.1 <=? b.1)%float) scored_results)
  | Raise e => Raise e
  end.

End WebSearchService.

(** ** The solver ([backend/app/agents/math_solver.py]) *)

Module MathSolverAgent.

(** The one-character string ["\n"]. *)
Definition newline : string := String "010" "".

Definition _generate_steps_from_kb (kb_result : hit) (query : string) : list string :=
  let question := doc_question (hit_document kb_result) in
  let topic := doc_topic (hit_document kb_result) in
  let steps := ["Problem Type: This is a " +:+ topic +:+ " problem."] in
  if contains "quadratic" (lower question) && contains "formula" (lower question) then
    steps ++ ["Step 1: Identify the quadratic equation in the form ax² + bx + c = 0";
              "Step 2: Apply the quadratic formula: x = (-b ± √(b²-4ac)) / (2a)";
              "Step 3: Substitute the values of a, b, and c";
              "Step 4: Simplify to find the solutions"]
  else if contains "derivative" (lower question) then
    steps ++ ["Step 1: Identify the function to differentiate";
              "Step 2: Apply appropriate differentiation rules";
              "Step 3: Simplify the result"]
  else if contains "solve" (lower query) then
    steps ++ ["Step 1: Write the equation in standard form";
              "Step 2: Apply appropriate solving technique";
              "Step 3: Verify the solution"]
  else
    steps ++ ["Step 1: Understand the problem requirements";
              "Step 2: Apply relevant mathematical principles";
              "Step 3: Calculate the result"].

Definition _format_solution (answer explanation : string) (steps : list string) : string :=
  let solution_parts := [] in
  let solution_parts :=
    if truthy answer then solution_parts ++ ["Answer: " +:+ answer]
    else solution_parts in
  let solution_parts :=
    if truthy explanation
    then solution_parts ++ [newline +:+ "Explanation: " +:+ explanation]
    else solution_parts in
  let solution_parts :=
    match steps with
    | _ :: _ =>
        solution_parts
        ++ [(newline +:+ "Detailed Steps:" +:+ newline) +:+ String.concat newline steps]
    | [] => solution_parts
    end in
  String.concat newline solution_parts.

(** [solve_from_knowledge], on a result of the search; the entries
    ["topic"] and ["method"] of its answer are not read by the router. *)
Definition solve_from_knowledge (kb_result : hit) (query : string) : solver_output :=
  let answer := doc_answer (hit_document kb_result) in
  let explanation := doc_explanation (hit_document kb_result) in
  let steps := _generate_steps_from_kb kb_result query in
  let solution := _format_solution answer explanation steps in
  {| out_solution := Some solution;
     out_steps := Some steps;
     out_confidence := Some (hit_score kb_result) |}.

End MathSolverAgent.

(** The collaborators of a routing agent whose knowledge base is [kb] and
    whose knowledge-base solver is [solve_from_knowledge]; the web search
    and the other solvers are those of [others]. *)
Definition with_knowledge_base (kb : KnowledgeBaseService) (others : Collaborators)
    : Collaborators :=
  {| World := @World others;
     Metadata := @Metadata others;
     Document := hit;
     WebResult := @WebResult others;
     kb_search := λ query top_k,
       ret (map (λ h, (Some (hit_score h), h)) (search kb query (Z.of_nat top_k)));
     web_search := @web_search others;
     solve_from_knowledge := λ kb_result query,
       ret (MathSolverAgent.solve_from_knowledge kb_result.2 query);
     solve_from_web_search := @solve_from_web_search others;
     solve_direct := @solve_direct others;
     format_3f := @format_3f others |}.

(** ** Notions used to state the further properties *)

(** *** Routing statistics *)

(** The entries of a history that took a route, and the primary scores
    among them: the first value of each non-empty ["confidence"]
    dictionary. *)
Definition entries_of_route (route : string) (history : list history_entry)
    : list history_entry :=
  List.filter (λ entry, String.eqb (h_route entry) route) history.

Definition primary_scores (route : string) (history : list history_entry) : list float :=
  flat_map (λ entry, take 1 (dict_values (h_confidence entry)))
           (entries_of_route route history).

(** *** Feedback, continued *)

(** The types and priorities of the suggestions, in the order of the rules of
    [_process_feedback_for_improvements]. *)
Definition suggestion_kinds : list (string * string) :=
  [("low_satisfaction", "high"); ("correctness", "critical"); ("clarity", "medium");
   ("completeness", "medium"); ("confidence_accuracy", "high")].

Definition kind (i : improvement) : string * string := (imp_type i, imp_priority i).

(** How many times the counter [key] is incremented for a list of entries. *)
Definition times_counted (key : string) (entries : list feedback_entry) : nat :=
  occurrences key (flat_map counted_keys entries).

(** What a call of [collect_feedback] on a store of [n] entries stores for
    an accepted submission: the entry, under the id of counter [n + 1]. *)
Definition stored_as (n : nat) (sub : submission) : string * feedback_entry :=
  let feedback_id := feedback_id_of (now_strftime (sub_now sub)) (n + 1) in
  (feedback_id,
   entry_for feedback_id (sub_now sub) (sub_query sub)
     (sub_response sub) (sub_feedback sub)).

(** The agent after a sequence of calls of [collect_feedback] on a new
    agent, and its entries in the order of their insertion. *)
Definition agent_after (subs : list submission) : FeedbackAgent :=
  (collect_all subs fresh_agent).2.

Definition entries_after (subs : list submission) : list feedback_entry :=
  dict_values (feedback_storage (agent_after subs)).

(** The ratings from 1 to 5 among the ratings of a list of entries. *)
Definition ratings_in_range (entries : list feedback_entry) : list Z :=
  List.filter (λ r, (1 <=? r)%Z && (r <=? 5)%Z)
              (map (λ entry, ef_rating (fe_feedback entry)) entries).

(** The place of a priority in the order critical, high, medium, low. *)
Definition priority_rank (priority : string) : nat :=
  if String.eqb priority "critical" then 0
  else if String.eqb priority "high" then 1
  else if String.eqb priority "medium" then 2
  else if String.eqb priority "low" then 3
  else 4.

(** How many suggestions have a type and a priority. *)
Definition count_suggestions (type priority : string) (suggestions : list improvement)
    : nat :=
  length (List.filter (λ i, String.eqb (imp_type i) type
                            && String.eqb (imp_priority i) priority) suggestions).

(** The priorities [_prioritize_improvements] goes through, in its order. *)
Definition priorities : list string := ["critical"; "high"; "medium"; "low"].

(** A row comes before another one: its priority comes first in the order
    critical, high, medium, low, or the priorities are the same and its
    frequency is at least as great. *)
Definition precedes (a b : priority_row) : Prop :=
  priority_rank (pr_priority a) < priority_rank (pr_priority b)
  ∨ (pr_priority a = pr_priority b ∧ pr_frequency b ≤ pr_frequency a).

(** The type and the priority of a row. *)
Definition row_kind (row : priority_row) : string * string :=
  (pr_type row, pr_priority row).

(** The suggestion types [apply_feedback_improvements] acts on, each with the
    type of the improvement it lists for it. *)
Definition applied_types : list (string * string) :=
  [("confidence_accuracy", "confidence_threshold");
   ("clarity", "explanation_enhancement");
   ("completeness", "solution_completeness")].

(** *** Further inputs *)

(** A knowledge base that finds one candidate of moderate relevance, a web
    search that finds a page, and a solver that raises. *)
Definition half_known : Collaborators :=
  scripted (Ok [(Some 0.5%float, "prime numbers")])
           (Ok ["https://example.org/riemann"]) (Raise "solver down").

(** Three submissions at noon: one that rates 1 and marks the solution as
    incorrect, one whose response holds [None] under ['routing_metadata'],
    and one that fills in nothing. *)
Definition three_submissions : list submission :=
  [ {| sub_now := noon; sub_query := "Solve x^2 - 5x + 6 = 0";
       sub_response := response_with_confidence (Some 0.9%float);
       sub_feedback := poor_and_wrong |};
    {| sub_now := noon; sub_query := "What is the quadratic formula?";
       sub_response := response_as_posted;
       sub_feedback := poor_and_wrong |};
    {| sub_now := noon; sub_query := "What is the derivative of x^2?";
       sub_response := response_with_confidence None;
       sub_feedback := no_feedback_data |} ].

(** A knowledge base of two documents without vector index. *)
Definition two_documents : KnowledgeBaseService :=
  {| documents :=
       [ {| doc_id := "quad_formula";
            doc_question := "What is the quadratic formula?";
            doc_answer := "x = (-b +- sqrt(b^2-4ac)) / (2a)";
            doc_explanation := "It solves ax^2 + bx + c = 0";
            doc_topic := "algebra"; doc_difficulty := "intermediate";
            doc_keywords := ["quadratic"; "formula"; "equation"; "roots"] |};
         {| doc_id := "solve_quadratic";
            doc_question := "How to solve x^2 - 5x + 6 = 0?";
            doc_answer := "x = 2 or x = 3";
            doc_explanation := "Factor as (x-2)(x-3) = 0 or use quadratic formula";
            doc_topic := "algebra"; doc_difficulty := "intermediate";
            doc_keywords := ["quadratic"; "solve"; "factoring"; "equation"] |} ];
     vector_index := None |}.

(** * Facts about binary64 arithmetic *)

Section FloatFacts.

Lemma shr_1_nonneg mrs : (0 <= shr_m mrs)%Z → (0 <= shr_m (shr_1 mrs))%Z.
Proof.
  destruct mrs as [m r s]; simpl.
  destruct m as [|p|p]; [done| |lia].
  intros _. by destruct p.
Qed.

Lemma iter_pos_shr_1_nonneg p mrs :
  (0 <= shr_m mrs)%Z → (0 <= shr_m (SpecFloat.iter_pos shr_1 p mrs))%Z.
Proof.
  revert mrs. induction p as [p IH|p IH|]; intros mrs Hm; simpl.
  - apply IH, IH. by apply shr_1_nonneg.
  - by apply IH, IH.
  - by apply shr_1_nonneg.
Qed.

Lemma shr_fexp_nonneg m e l :
  (0 <= m)%Z → (0 <= shr_m (shr_fexp prec emax m e l).1)%Z.
Proof.
  intros Hm. unfold shr_fexp, shr.
  assert (0 <= shr_m (shr_record_of_loc m l))%Z as H0
    by (destruct l as [|[]]; done).
  destruct (fexp prec emax (Zdigits2 m + e) - e)%Z; simpl; try done.
  by apply iter_pos_shr_1_nonneg.
Qed.

Lemma round_nearest_even_nonneg m l :
  (0 <= m)%Z → (0 <= round_nearest_even m l)%Z.
Proof.
  intros Hm. destruct l as [|[]]; simpl; try done; [|lia].
  destruct (Z.even m); lia.
Qed.

(** Rounding a positive mantissa gives a float of the sign asked for, and
    never NaN. *)
Lemma binary_round_aux_sign s m e l :
  match binary_round_aux prec emax s (Zpos m) e l with
  | S754_nan => False
  | S754_zero s' | S754_infinity s' | S754_finite s' _ _ => s' = s
  end.
Proof.
  unfold binary_round_aux.
  pose proof (shr_fexp_nonneg (Zpos m) e l ltac:(done)) as H1.
  destruct (shr_fexp prec emax (Z.pos m) e l) as [mrs' e'].
  pose proof (shr_fexp_nonneg
                (round_nearest_even (shr_m mrs') (loc_of_shr_record mrs')) e' loc_Exact
                (round_nearest_even_nonneg _ _ H1)) as H2.
  destruct (shr_fexp prec emax _ e' loc_Exact) as [mrs'' e''].
  simpl in H2. destruct (shr_m mrs''); [done| |lia].
  by destruct (e'' <=? emax - prec)%Z.
Qed.

Lemma binary_normalize_number z e :
  sf_is_nan (binary_normalize prec emax z e false) = false
  ∧ ((0 <= z)%Z → sf_nonneg (binary_normalize prec emax z e false) = true).
Proof.
  unfold binary_normalize, binary_round.
  destruct z as [|p|p]; [done| |].
  - destruct (shl_align _ _ _) as [mz ez].
    pose proof (binary_round_aux_sign false mz ez loc_Exact) as Hs.
    destruct (binary_round_aux _ _ _ _ _ _); [..|done|]; by subst.
  - destruct (shl_align _ _ _) as [mz ez].
    pose proof (binary_round_aux_sign true mz ez loc_Exact) as Hs.
    destruct (binary_round_aux _ _ _ _ _ _); [..|done|]; (split; [done|lia]).
Qed.

Lemma SFadd_nonneg x y :
  sf_nonneg x = true → sf_nonneg y = true → sf_nonneg (SF64add x y) = true.
Proof.
  destruct x as [sx|sx| |sx mx ex], y as [sy|sy| |sy my ey]; simpl; try done.
  - by destruct sx, sy.
  - by destruct sx, sy.
  - destruct sx, sy; try done. intros _ _.
    by apply binary_normalize_number.
Qed.

(** A sum is NaN only when a term is, or when the terms are the two
    infinities. *)
Lemma SFadd_number x y :
  sf_is_nan x = false → sf_finite y = true → sf_is_nan (SF64add x y) = false.
Proof.
  destruct x as [sx|sx| |sx mx ex], y as [sy|sy| |sy my ey]; simpl; try done.
  - by destruct sx, sy.
  - intros _ _. apply binary_normalize_number.
Qed.

Lemma leb_zero_nonneg x : (0 <=? x)%float = sf_nonneg (Prim2SF x).
Proof.
  rewrite leb_spec. change (Prim2SF 0) with (S754_zero false).
  by destruct (Prim2SF x) as [s|[]| |[] m e].
Qed.

(** Adding two floats that are at least zero gives one that is. *)
Lemma add_nonneg x y :
  (0 <=? x)%float = true → (0 <=? y)%float = true → (0 <=? x + y)%float = true.
Proof.
  rewrite !leb_zero_nonneg, add_spec. apply SFadd_nonneg.
Qed.

(** *** The order of the floats that are not NaN *)

Lemma SFcompare_key x y :
  sf_is_nan x = false → sf_is_nan y = false →
  (SFltb x y = true ↔ key_lt (sf_key x) (sf_key y))
  ∧ (SFleb x y = true ↔ key_le (sf_key x) (sf_key y)).
Proof.
  unfold SFltb, SFleb, key_le, key_lt.
  destruct x as [sx|[]| |[] mx ex], y as [sy|[]| |[] my ey]; try done;
    intros _ _; cbn [SFcompare sf_key fst snd].
  all: repeat match goal with
         | |- context [Z.compare ?a ?b] => destruct (Z.compare_spec a b)
         | |- context [PosDef.Pos.compare_cont Eq ?a ?b] =>
             change (PosDef.Pos.compare_cont Eq a b) with (Pos.compare a b);
             destruct (Pos.compare_spec a b)
         end; cbn [CompOpp].
  all: split; (split; [intros Hc; try discriminate Hc; lia|intros Hk; try reflexivity; exfalso; lia]).
Qed.

Lemma is_number_spec x : is_number x = negb (sf_is_nan (Prim2SF x)).
Proof.
  unfold is_number. rewrite FloatAxioms.eqb_spec. unfold SFeqb.
  destruct (Prim2SF x) as [s|[]| |[] m e]; try done; cbn [SFcompare sf_is_nan negb];
    by rewrite Z.compare_refl, Pos.compare_cont_refl.
Qed.

Lemma ltb_key x y :
  is_number x = true → is_number y = true →
  (x <? y)%float = true ↔ key_lt (sf_key (Prim2SF x)) (sf_key (Prim2SF y)).
Proof.
  rewrite !is_number_spec, ltb_spec. intros Hx%negb_true_iff Hy%negb_true_iff.
  apply (SFcompare_key _ _ Hx Hy).
Qed.

Lemma leb_key x y :
  is_number x = true → is_number y = true →
  (x <=? y)%float = true ↔ key_le (sf_key (Prim2SF x)) (sf_key (Prim2SF y)).
Proof.
  rewrite !is_number_spec, leb_spec. intros Hx%negb_true_iff Hy%negb_true_iff.
  apply (SFcompare_key _ _ Hx Hy).
Qed.

Lemma leb_refl x : is_number x = true → (x <=? x)%float = true.
Proof. intros Hx. apply leb_key; [done..|]. unfold key_le. lia. Qed.

Lemma leb_trans x y z :
  is_number x = true → is_number y = true → is_number z = true →
  (x <=? y)%float = true → (y <=? z)%float = true → (x <=? z)%float = true.
Proof.
  intros Hx Hy Hz. rewrite !leb_key by done. unfold key_le, key_lt. lia.
Qed.

Lemma ltb_leb x y :
  is_number x = true → is_number y = true →
  (x <? y)%float = true → (x <=? y)%float = true.
Proof.
  intros Hx Hy. rewrite ltb_key, leb_key by done. unfold key_le. tauto.
Qed.

Lemma not_ltb_leb x y :
  is_number x = true → is_number y = true →
  (y <? x)%float = false → (x <=? y)%float = true.
Proof.
  intros Hx Hy Hlt%not_true_iff_false. rewrite ltb_key in Hlt by done.
  rewrite leb_key by done. unfold key_le, key_lt in *. lia.
Qed.

Lemma nonneg_number x : (0 <=? x)%float = true → is_number x = true.
Proof.
  rewrite leb_zero_nonneg, is_number_spec.
  by destruct (Prim2SF x) as [s|s| |s m e].
Qed.

(** Adding a finite float to a float that is not NaN gives one that is not. *)
Lemma add_number x b :
  is_number x = true → sf_finite (Prim2SF b) = true → is_number (x + b) = true.
Proof.
  rewrite !is_number_spec, add_spec. intros Hx%negb_true_iff Hb.
  by rewrite SFadd_number.
Qed.

Lemma max_upper_bound xs : ∀ m,
  is_number m = true → Forall (λ x, is_number x = true) xs →
  is_number (Py.max m xs) = true
  ∧ (m <=? Py.max m xs)%float = true
  ∧ Forall (λ x, (x <=? Py.max m xs)%float = true) xs.
Proof.
  unfold Py.max, Py.gt.
  induction xs as [|x xs IH]; intros m Hm Hxs; simpl.
  - by rewrite leb_refl.
  - apply Forall_cons_1 in Hxs as [Hx Hxs].
    set (m' := if (m <? x)%float then x else m).
    assert (is_number m' = true) as Hm' by (subst m'; by destruct (m <? x)%float).
    assert ((m <=? m')%float = true ∧ (x <=? m')%float = true) as [Hmm' Hxm'].
    { subst m'. destruct (m <? x)%float eqn:Hlt.
      - split; [by apply ltb_leb|by apply leb_refl].
      - split; [by apply leb_refl|by apply not_ltb_leb]. }
    destruct (IH m' Hm' Hxs) as (HM & Hle & Hall).
    split; [done|]. split; [by apply (leb_trans m m')|].
    apply Forall_cons. split; [by apply (leb_trans x m')|done].
Qed.

End FloatFacts.

(** * Facts about strings *)

Section StringFacts.

Lemma append_nil_l (t : string) : "" +:+ t = t.
Proof. reflexivity. Qed.

Lemma append_cons c (s t : string) : String c s +:+ t = String c (s +:+ t).
Proof. reflexivity. Qed.

Lemma append_assoc (s t u : string) : (s +:+ t) +:+ u = s +:+ (t +:+ u).
Proof.
  induction s as [|c s IH]; [done|]. by rewrite !append_cons, IH.
Qed.

End StringFacts.

(** * Route selection *)

Section RouteSelection.
Context {collab : Collaborators}.

(** The frame in which the [try] block of [route_query] starts. *)
Lemma route_query_with_unfold calc web query metadata st :
  route_query_with calc web query metadata st =
  let '(r, fr) :=
    try_except (route_query_try calc web query metadata) route_query_except
      {| frame_agent := st;
         frame_metadata := {| md_query := query; md_confidence_scores := [];
                              md_reasoning := ""; md_fallback_used := false;
                              md_route_used := None |} |} in
  (match r with Ok route => Ok (route, frame_metadata fr) | Raise e => Raise e end,
   frame_agent fr).
Proof. reflexivity. Qed.

(** C1: when the knowledge-base search returns its candidates, [route_query]
    decides by the transition table on the two scores it computes: the
    knowledge base when [kb_conf >= 0.7], whatever [web_need] is; otherwise
    hybrid when [web_need >= 0.5] and [kb_conf > 0.3]; otherwise web search
    when [web_need >= 0.5]; otherwise fallback.  The route is recorded in
    ["route_used"], and ["fallback_used"] is set exactly on fallback. *)
Theorem C1_route_query_transition_table query metadata st results w :
  kb_search query 3 (world st) = (Ok results, w) →
  let kb_conf := _calculate_kb_confidence results query in
  let web_need := _should_use_web_search query metadata in
  let route := transition_table kb_conf web_need in
  ∃ md st',
    route_query query metadata st = (Ok (route, md), st')
    ∧ md_route_used md = Some (value route)
    ∧ md_fallback_used md = match route with FALLBACK => true | _ => false end
    ∧ world st' = w.
Proof.
  intros Hkb kb_conf web_need route. subst route.
  unfold route_query. rewrite route_query_with_unfold.
  unfold try_except, route_query_try, Py.bind, in_agent, call, eval. simpl.
  rewrite Hkb. simpl. fold kb_conf web_need.
  unfold transition_table, settings.confidence_threshold.
  destruct (ge kb_conf 0.7) eqn:Hhigh; simpl.
  { eexists _, _. repeat split; reflexivity. }
  destruct (ge web_need 0.5) eqn:Hweb; simpl.
  - destruct (gt kb_conf 0.3) eqn:Hmid; simpl;
      eexists _, _; repeat split; reflexivity.
  - eexists _, _. repeat split; reflexivity.
Qed.

(** C5: an exception raised while the scores are computed does not leave
    [route_query]: the decision is [FALLBACK], ["fallback_used"] is set,
    ["reasoning"] holds the text of the exception, and no entry is added to
    the routing history.  The statement is for every pair of scorers that
    may raise; [route_query] is the instance that passes
    [_calculate_kb_confidence] and [_should_use_web_search]. *)
Theorem C5_scoring_exception_falls_back calc web query metadata st e w :
  scoring_raises calc web query metadata st e w →
  ∃ md,
    route_query_with calc web query metadata st
      = (Ok (FALLBACK, md), {| world := w; routing_history := routing_history st |})
    ∧ md_fallback_used md = true
    ∧ md_reasoning md = "Error occurred, using fallback: " +:+ e
    ∧ md_route_used md = Some "fallback".
Proof.
  intros Hraise. rewrite route_query_with_unfold.
  unfold try_except, route_query_try, Py.bind, in_agent, call, eval. simpl.
  destruct Hraise as [Hkb|results Hkb Hcalc|results kb_conf Hkb Hcalc Hlow Hweb];
    rewrite Hkb; simpl.
  - eexists. repeat split; reflexivity.
  - rewrite Hcalc. simpl. eexists. repeat split; reflexivity.
  - rewrite Hcalc. simpl. rewrite Hlow, Hweb. simpl.
    eexists. repeat split; reflexivity.
Qed.

(** [route_query] returns to its caller in every case. *)
Lemma route_query_with_returns calc web query metadata st :
  ∃ route md st', route_query_with calc web query metadata st = (Ok (route, md), st').
Proof.
  rewrite route_query_with_unfold.
  destruct (try_except _ _ _) as [[route|e] fr] eqn:Htry; [by eexists _, _, _|].
  exfalso. revert Htry. unfold try_except.
  destruct (route_query_try _ _ _ _ _) as [[route|e'] fr']; [done|].
  unfold route_query_except, Py.bind, set_reasoning, set_fallback_used,
    set_route_used, update_metadata, modify, Py.ret. done.
Qed.
End RouteSelection.

(** C1, at a concrete input: the knowledge base finds a candidate of relevance
    0.85 for a query with a computational-intent word. *)
Lemma C1_route_query_transition_table_witness :
  ∃ md st',
    route_query (collab := kb_knows_quadratics)
      "Solve x^2 - 5x + 6 = 0" tt (new_agent kb_knows_quadratics tt)
      = (Ok (KNOWLEDGE_BASE, md), st')
    ∧ md_route_used md = Some "knowledge_base"
    ∧ md_fallback_used md = false
    ∧ world st' = tt.
Proof.
  exact (C1_route_query_transition_table (collab := kb_knows_quadratics)
           "Solve x^2 - 5x + 6 = 0" tt (new_agent kb_knows_quadratics tt)
           [(Some 0.85%float, "quadratic equations")] tt eq_refl).
Defined.

(** C5, at a concrete input: the knowledge-base search raises. *)
Lemma C5_scoring_exception_falls_back_witness :
  ∃ md,
    route_query (collab := kb_unavailable)
      "Explain the Riemann hypothesis" tt (new_agent kb_unavailable tt)
      = (Ok (FALLBACK, md), new_agent kb_unavailable tt)
    ∧ md_fallback_used md = true
    ∧ md_reasoning md = "Error occurred, using fallback: index unavailable"
    ∧ md_route_used md = Some "fallback".
Proof.
  apply (C5_scoring_exception_falls_back (collab := kb_unavailable)).
  by apply search_raises.
Defined.

(** The two routing scenarios of the specification, run on the model.  In
    the first the knowledge-base confidence is 0.85 + 0.1 (the query has a
    computational-intent word and no math-topic keyword). *)
Example scenario_quadratic_is_answered_from_the_knowledge_base :
  ∃ md st',
    route_query (collab := kb_knows_quadratics)
      "Solve x^2 - 5x + 6 = 0" tt (new_agent kb_knows_quadratics tt)
      = (Ok (KNOWLEDGE_BASE, md), st')
    ∧ md_confidence_scores md = [("knowledge_base", 0.95%float)].
Proof. by eexists _, _. Qed.

Example scenario_riemann_goes_to_web_search :
  ∃ md st',
    route_query (collab := idle)
      "Explain the Riemann hypothesis" tt (new_agent idle tt)
      = (Ok (WEB_SEARCH, md), st')
    ∧ md_confidence_scores md = [("knowledge_base", 0.0%float); ("web_search", 1.0%float)].
Proof. by eexists _, _. Qed.

(** * Confidence scores *)

Section ConfidenceScores.
Context {collab : Collaborators}.

Lemma add_per_match_nonneg w keywords text acc :
  (0 <=? w)%float = true → (0 <=? acc)%float = true →
  (0 <=? add_per_match w keywords text acc)%float = true.
Proof.
  intros Hw. unfold add_per_match. revert acc.
  induction keywords as [|kw keywords IH]; intros acc Hacc; simpl; [done|].
  apply IH. destruct (contains kw text); [by apply add_nonneg|done].
Qed.

(** [min(x, 1.0)] is in the unit interval when [x] is at least zero. *)
Lemma min_one_in_unit_interval x :
  (0 <=? x)%float = true → in_unit_interval (Py.min x 1) = true.
Proof.
  intros Hx. unfold Py.min, Py.lt, in_unit_interval.
  destruct (1 <? x)%float eqn:Hgt; [done|].
  rewrite Hx. by apply not_ltb_leb; [apply nonneg_number|..].
Qed.

(** [max] returns one of the items. *)
Lemma max_elem_of x0 xs : Py.max x0 xs ∈ x0 :: xs.
Proof.
  unfold Py.max. revert x0. induction xs as [|x xs IH]; intros x0; simpl.
  - left.
  - destruct (gt x x0); [right; apply IH|].
    destruct (proj1 (elem_of_cons _ _ _) (IH x0)) as [Heq|Hin].
    + rewrite Heq. left.
    + by do 2 right.
Qed.

Lemma add_per_match_count w keywords text acc :
  add_per_match w keywords text acc
  = Nat.iter (count_matches keywords text) (λ a, (a + w)%float) acc.
Proof.
  unfold add_per_match, count_matches. revert acc.
  induction keywords as [|kw keywords IH]; intros acc; simpl; [done|].
  rewrite IH. destruct (contains kw text); simpl; [|done].
  symmetry. exact (Nat.iter_succ_r _ (λ a, (a + w)%float) acc).
Qed.

Lemma count_matches_le keywords text :
  count_matches keywords text ≤ length keywords.
Proof. apply List.filter_length_le. Qed.

(** [min(x, 1.0)] is at most 1.0 when [x] is not NaN. *)
Lemma min_one_le_one x : is_number x = true → (Py.min x 1 <=? 1)%float = true.
Proof.
  intros Hx. unfold Py.min, Py.lt.
  destruct (1 <? x)%float eqn:Hgt; [done|]. by apply not_ltb_leb.
Qed.

(** The boosts are finite: at most seven additions of 0.1. *)
Lemma tenths_finite n : n ≤ 7 → sf_finite (Prim2SF (tenths n)) = true.
Proof.
  intros Hn.
  do 8 (destruct n as [|n]; [vm_compute; reflexivity|]). lia.
Qed.

(** The boost [_calculate_kb_confidence] adds to the best score. *)
Lemma kb_boost_tenths (query : string) :
  ∃ n, n ≤ 7
       ∧ (if any_in computational_words (lower query)
          then (add_per_match 0.1 math_topics (lower query) 0 + 0.1)%float
          else add_per_match 0.1 math_topics (lower query) 0) = tenths n.
Proof.
  rewrite add_per_match_count.
  pose proof (count_matches_le math_topics (lower query)) as Hle. simpl in Hle.
  destruct (any_in _ _).
  - exists (S (count_matches math_topics (lower query))). split; [lia|done].
  - exists (count_matches math_topics (lower query)). split; [lia|done].
Qed.

(** C2 (as amended): the web-search score is in [0.0, 1.0] for every query.
    The knowledge-base confidence is at most 1.0 for every candidate list
    whose relevance scores are numbers (not NaN), and it is at least 0.0 when
    none of them is below zero; it is clamped from above only. *)
Theorem C2_scores_in_unit_interval results query metadata :
  Forall (λ s, is_number s = true) (scores_of results) →
  (_calculate_kb_confidence results query <=? 1)%float = true
  ∧ (Forall (λ s, (0 <=? s)%float = true) (scores_of results) →
     (0 <=? _calculate_kb_confidence results query)%float = true)
  ∧ in_unit_interval (_should_use_web_search query metadata) = true.
Proof.
  intros Hnumbers. split; [|split].
  - unfold _calculate_kb_confidence.
    destruct results as [|r rs]; [done|].
    apply Forall_cons_1 in Hnumbers as [Hr Hrs].
    destruct (max_upper_bound _ _ Hr Hrs) as (Hbest & _ & _).
    destruct (kb_boost_tenths query) as (n & Hn & ->).
    by apply min_one_le_one, add_number, tenths_finite.
  - intros Hscores. unfold _calculate_kb_confidence.
    destruct results as [|r rs]; [done|].
    assert ((0 <=? Py.max (get (score r) 0.0%float) (scores_of rs))%float = true)
      as Hbest.
    { pose proof (max_elem_of (get (score r) 0.0%float) (scores_of rs)) as Hin.
      rewrite Forall_forall in Hscores. by apply Hscores. }
    assert ((0 <=? add_per_match 0.1 math_topics (lower query) 0)%float = true)
      as Hboost by by apply add_per_match_nonneg.
    unfold Py.min, Py.lt. destruct (1 <? _)%float; [done|].
    apply add_nonneg; [done|].
    destruct (any_in _ _); [by apply add_nonneg|done].
  - unfold _should_use_web_search.
    apply min_one_in_unit_interval.
    assert ((0 <=? add_per_match 0.3 advanced_topics (lower query)
                     (add_per_match 0.2 web_search_indicators (lower query) 0))%float
            = true) as Hkw by by repeat apply add_per_match_nonneg.
    set (s := add_per_match 0.3 _ _ _) in *.
    assert ((0 <=? (if (10 <? length (split query))%nat then s + 0.2 else s))%float = true)
      as Hlen by (destruct (_ <? _)%nat; [by apply add_nonneg|done]).
    destruct (any_in _ _); by apply add_nonneg.
Qed.

(** The accumulated boost when no computational-intent word occurs. *)
Lemma tenths_add_zero n : n ≤ 6 → (tenths n + 0)%float = tenths n.
Proof.
  intros Hn.
  do 7 (destruct n as [|n]; [vm_compute; reflexivity|]). lia.
Qed.

(** C3 (as amended): for a candidate list that is not empty the
    knowledge-base confidence is [min(M + (B + C), 1.0)], where [M] is one of
    the raw relevance scores (a candidate without score counts as 0.0) and,
    when no score is NaN, at least as great as each of them, [B] is 0.1 per
    math-topic keyword of the lowercased query and [C] is 0.1 when a
    computational-intent word occurs; for the empty candidate list it is 0.0
    whatever the query. *)
Theorem C3_kb_confidence_formula results query :
  match results with
  | [] => _calculate_kb_confidence results query = 0.0%float
  | _ :: _ =>
      ∃ M, M ∈ scores_of results
           ∧ (Forall (λ s, is_number s = true) (scores_of results) →
              Forall (λ s, (s <=? M)%float = true) (scores_of results))
           ∧ _calculate_kb_confidence results query = kb_confidence_formula M query
  end.
Proof.
  destruct results as [|r rs]; [done|].
  exists (Py.max (get (score r) 0.0%float) (scores_of rs)).
  split; [apply max_elem_of|]. split.
  - intros [Hr Hrs]%Forall_cons_1.
    destruct (max_upper_bound _ _ Hr Hrs) as (_ & Hle & Hall).
    by apply Forall_cons.
  - unfold _calculate_kb_confidence, kb_confidence_formula, scores_of.
    rewrite add_per_match_count.
    fold (tenths (count_matches math_topics (lower query))).
    destruct (any_in computational_words (lower query)); [done|].
    by rewrite tenths_add_zero by apply (count_matches_le math_topics).
Qed.

End ConfidenceScores.

(** C2, at a concrete input: a candidate of relevance 0.85. *)
Lemma C2_scores_in_unit_interval_witness :
  (_calculate_kb_confidence (collab := idle) [(Some 0.85%float, "quadratic equations")]
     "Solve x^2 - 5x + 6 = 0" <=? 1)%float = true
  ∧ (0 <=? _calculate_kb_confidence (collab := idle)
             [(Some 0.85%float, "quadratic equations")] "Solve x^2 - 5x + 6 = 0")%float
    = true
  ∧ in_unit_interval
      (_should_use_web_search (collab := idle) "Solve x^2 - 5x + 6 = 0" tt) = true.
Proof.
  destruct (C2_scores_in_unit_interval (collab := idle)
              [(Some 0.85%float, "quadratic equations")] "Solve x^2 - 5x + 6 = 0" tt)
    as (Hupper & Hlower & Hweb); [by repeat constructor|].
  split; [exact Hupper|]. split; [|exact Hweb].
  apply Hlower. by repeat constructor.
Defined.

(** C2 as stated fails: a candidate with a relevance score below zero
    gives a knowledge-base confidence below zero, for the sum is clamped
    from above only. *)
Lemma C2_counterexample_negative_score :
  _calculate_kb_confidence (collab := idle) [(Some (-1)%float, "stale entry")] "hello"
    = (-1)%float
  ∧ in_unit_interval
      (_calculate_kb_confidence (collab := idle) [(Some (-1)%float, "stale entry")] "hello")
    = false.
Proof. split; vm_compute; reflexivity. Qed.

(** C3, at a concrete input: three candidates, one without score, and a
    query with two math-topic keywords and a computational-intent word.  The
    two properties of [M] leave 0.85 only. *)
Lemma C3_kb_confidence_formula_witness :
  _calculate_kb_confidence (collab := idle)
    [(Some 0.2%float, "linear equations"); (None, "untitled");
     (Some 0.85%float, "quadratic equations")]
    "Solve the quadratic equation"
  = kb_confidence_formula 0.85 "Solve the quadratic equation".
Proof.
  destruct (C3_kb_confidence_formula (collab := idle)
              [(Some 0.2%float, "linear equations"); (None, "untitled");
               (Some 0.85%float, "quadratic equations")]
              "Solve the quadratic equation") as (M & Hin & Hmax & Heq).
  rewrite Heq. clear Heq.
  assert (Forall (λ s, (s <=? M)%float = true) [0.2; 0.0; 0.85]%float) as Hle
    by (apply Hmax; by repeat constructor).
  apply Forall_cons_1 in Hle as [_ Hle]. apply Forall_cons_1 in Hle as [_ Hle].
  apply Forall_cons_1 in Hle as [Hle _].
  apply elem_of_cons in Hin as [->|Hin]; [by vm_compute in Hle|].
  apply elem_of_cons in Hin as [->|Hin]; [by vm_compute in Hle|].
  apply list_elem_of_singleton in Hin as ->. reflexivity.
Defined.

(** C3 as stated fails on the empty candidate list: the code returns 0.0
    before it looks at the query, where the formula with [M = 0] gives the
    sum of the boosts. *)
Lemma C3_counterexample_empty_candidates :
  _calculate_kb_confidence (collab := idle) [] "Solve the quadratic equation" = 0.0%float
  ∧ kb_confidence_formula 0.0 "Solve the quadratic equation" = 0.30000000000000004%float.
Proof. split; vm_compute; reflexivity. Qed.

(** * Combining and dispatching *)

Section Dispatch.
Context {collab : Collaborators}.

(** C4: the combined confidence is the mean of the two confidences, the
    steps are those of the knowledge base followed by those of the web
    search, and the solution is the preamble, followed by the labelled web
    solution only if that differs from the knowledge-base solution: it is
    appended exactly when it is not empty and differs. *)
Theorem C4_combine_results (a b : source_result) :
  confidence (_combine_results a b) = ((confidence a + confidence b) / 2)%float
  ∧ steps (_combine_results a b) = steps a ++ steps b
  ∧ sources (_combine_results a b) = sources a ++ sources b
  ∧ (solution (_combine_results a b) ≠ combined_preamble a →
     solution b ≠ solution a)
  ∧ (solution b ≠ "" → solution b ≠ solution a →
     solution (_combine_results a b)
     = combined_preamble a +:+ "Additional information from web search: " +:+ solution b)
  ∧ (solution b = "" ∨ solution b = solution a →
     solution (_combine_results a b) = combined_preamble a).
Proof.
  unfold _combine_results, combined_preamble, truthy; simpl.
  repeat split.
  - intros Happended Heq. apply Happended.
    rewrite Heq, String.eqb_refl. by rewrite andb_false_r.
  - intros Hne Hdiff.
    apply String.eqb_neq in Hne, Hdiff. rewrite Hne, Hdiff. simpl.
    by rewrite !append_assoc.
  - intros [Hempty|Heq].
    + by rewrite Hempty.
    + rewrite Heq, String.eqb_refl. by rewrite andb_false_r.
Qed.

(** *** The three methods catch what their collaborators raise *)

Ltac run_process :=
  unfold try_except, Py.bind, call, eval, Py.ret; simpl.

Lemma process_knowledge_base_returns query st :
  ∃ r st', _process_knowledge_base query st = (Ok r, st').
Proof.
  unfold _process_knowledge_base. run_process.
  destruct (kb_search query 3 (world st)) as [[[|best rest]|e] w]; simpl;
    [by eexists _, _| |by eexists _, _].
  destruct (solve_from_knowledge best query w) as [[out|e] w']; simpl;
    [|by eexists _, _].
  destruct (out_solution out), (out_steps out); simpl; by eexists _, _.
Qed.

Lemma process_web_search_returns query st :
  ∃ r st', _process_web_search query st = (Ok r, st').
Proof.
  unfold _process_web_search. run_process.
  destruct (web_search query (world st)) as [[[|r rest]|e] w]; simpl;
    [by eexists _, _| |by eexists _, _].
  destruct (solve_from_web_search (r :: rest) query w) as [[out|e] w']; simpl;
    [|by eexists _, _].
  destruct (out_solution out), (out_steps out); simpl; by eexists _, _.
Qed.

Lemma process_fallback_returns query metadata st :
  ∃ r st', _process_fallback query metadata st = (Ok r, st').
Proof.
  unfold _process_fallback. run_process.
  destruct (solve_direct query metadata (world st)) as [[out|e] w]; simpl;
    [|by eexists _, _].
  destruct (out_solution out), (out_steps out); simpl; by eexists _, _.
Qed.

Lemma process_knowledge_base_degrades query st e :
  kb_collaborator_fails query st e →
  ∃ r st', _process_knowledge_base query st = (Ok r, st')
           ∧ degraded (kb_explanation e) e r.
Proof.
  unfold _process_knowledge_base. run_process.
  intros [w Hs|best rest w w' Hs Hsolve|best rest w out w' Hs Hsolve Hkeys];
    rewrite Hs; simpl; [by eexists _, _|rewrite Hsolve; simpl; by eexists _, _|].
  rewrite Hsolve. simpl. revert Hkeys. unfold missing_key.
  destruct (out_solution out), (out_steps out); simpl; intros [= <-];
    by eexists _, _.
Qed.

Lemma process_web_search_degrades query st e :
  web_collaborator_fails query st e →
  ∃ r st', _process_web_search query st = (Ok r, st')
           ∧ degraded (web_explanation e) e r.
Proof.
  unfold _process_web_search. run_process.
  intros [w Hs|r0 rest w w' Hs Hsolve|r0 rest w out w' Hs Hsolve Hkeys];
    rewrite Hs; simpl; [by eexists _, _|rewrite Hsolve; simpl; by eexists _, _|].
  rewrite Hsolve. simpl. revert Hkeys. unfold missing_key.
  destruct (out_solution out), (out_steps out); simpl; intros [= <-];
    by eexists _, _.
Qed.

Lemma process_fallback_degrades query metadata st e :
  direct_solver_fails query metadata st e →
  ∃ r st', _process_fallback query metadata st = (Ok r, st')
           ∧ degraded fallback_explanation e r.
Proof.
  unfold _process_fallback. run_process.
  intros [w Hsolve|out w Hsolve Hkeys]; rewrite Hsolve; simpl; [by eexists _, _|].
  revert Hkeys. unfold missing_key.
  destruct (out_solution out), (out_steps out); simpl; intros [= <-];
    by eexists _, _.
Qed.

(** *** The dispatcher *)

(** [process_query] after the route is chosen: the result of the route's
    method, merged into the envelope. *)
Lemma process_query_dispatch query metadata st route md st1 :
  route_query query metadata st = (Ok (route, md), st1) →
  process_query query metadata st
  = match route with
    | KNOWLEDGE_BASE =>
        let '(r, st') := _process_knowledge_base query st1 in
        (match r with
         | Ok result => Ok (update (initial_response query route md) result)
         | Raise e => Raise e
         end, st')
    | WEB_SEARCH =>
        let '(r, st') := _process_web_search query st1 in
        (match r with
         | Ok result => Ok (update (initial_response query route md) result)
         | Raise e => Raise e
         end, st')
    | HYBRID =>
        let '(r1, st2) := _process_knowledge_base query st1 in
        let '(r2, st') := _process_web_search query st2 in
        (match r1, r2 with
         | Ok kb_result, Ok web_result =>
             Ok (update (initial_response query route md)
                   (_combine_results kb_result web_result))
         | Raise e, _ | _, Raise e => Raise e
         end, st')
    | FALLBACK =>
        let '(r, st') := _process_fallback query metadata st1 in
        (match r with
         | Ok result => Ok (update (initial_response query route md) result)
         | Raise e => Raise e
         end, st')
    end.
Proof.
  intros Hroute. unfold process_query, try_except, Py.bind. rewrite Hroute.
  destruct route.
  - destruct (process_knowledge_base_returns query st1) as (r & st' & ->). done.
  - destruct (process_web_search_returns query st1) as (r & st' & ->). done.
  - destruct (process_knowledge_base_returns query st1) as (r1 & st2 & ->).
    destruct (process_web_search_returns query st2) as (r2 & st' & ->). done.
  - destruct (process_fallback_returns query metadata st1) as (r & st' & ->). done.
Qed.

Lemma process_query_returns query metadata st :
  ∃ envelope st', process_query query metadata st = (Ok envelope, st').
Proof.
  destruct (route_query_with_returns
              (λ results q, Ok (_calculate_kb_confidence results q))
              (λ q md, Ok (_should_use_web_search q md)) query metadata st)
    as (route & md & st1 & Hroute).
  rewrite (process_query_dispatch _ _ _ _ _ _ Hroute).
  destruct route.
  - destruct (process_knowledge_base_returns query st1) as (r & st' & ->).
    by eexists _, _.
  - destruct (process_web_search_returns query st1) as (r & st' & ->).
    by eexists _, _.
  - destruct (process_knowledge_base_returns query st1) as (r1 & st2 & ->).
    destruct (process_web_search_returns query st2) as (r2 & st' & ->).
    by eexists _, _.
  - destruct (process_fallback_returns query metadata st1) as (r & st' & ->).
    by eexists _, _.
Qed.

(** C6: [process_query] returns an envelope for every query, whatever the
    collaborators do.  A failure of the knowledge base, of the web search
    or of the solver is caught by the method that calls it, which answers
    with confidence 0.0 and an explanation as solution; on the routes with
    one source the envelope carries that answer, and on the hybrid route
    the two answers are combined. *)
Theorem C6_process_query_never_raises query metadata st :
  (∃ envelope st', process_query query metadata st = (Ok envelope, st'))
  ∧ (∀ st1 e, kb_collaborator_fails query st1 e →
       ∃ r st', _process_knowledge_base query st1 = (Ok r, st')
                ∧ degraded (kb_explanation e) e r)
  ∧ (∀ st1 e, web_collaborator_fails query st1 e →
       ∃ r st', _process_web_search query st1 = (Ok r, st')
                ∧ degraded (web_explanation e) e r)
  ∧ (∀ st1 e, direct_solver_fails query metadata st1 e →
       ∃ r st', _process_fallback query metadata st1 = (Ok r, st')
                ∧ degraded fallback_explanation e r)
  ∧ (∀ route md st1 e,
       route_query query metadata st = (Ok (route, md), st1) →
       match route with
       | KNOWLEDGE_BASE =>
           kb_collaborator_fails query st1 e →
           ∃ envelope st', process_query query metadata st = (Ok envelope, st')
             ∧ degraded_envelope route (kb_explanation e) e envelope
       | WEB_SEARCH =>
           web_collaborator_fails query st1 e →
           ∃ envelope st', process_query query metadata st = (Ok envelope, st')
             ∧ degraded_envelope route (web_explanation e) e envelope
       | FALLBACK =>
           direct_solver_fails query metadata st1 e →
           ∃ envelope st', process_query query metadata st = (Ok envelope, st')
             ∧ degraded_envelope route fallback_explanation e envelope
       | HYBRID =>
           ∃ kb_result st2 web_result st',
             _process_knowledge_base query st1 = (Ok kb_result, st2)
             ∧ _process_web_search query st2 = (Ok web_result, st')
             ∧ process_query query metadata st
               = (Ok (update (initial_response query route md)
                        (_combine_results kb_result web_result)), st')
       end).
Proof.
  split; [apply process_query_returns|].
  split; [intros st1 e; apply process_knowledge_base_degrades|].
  split; [intros st1 e; apply process_web_search_degrades|].
  split; [intros st1 e; apply process_fallback_degrades|].
  intros route md st1 e Hroute.
  rewrite (process_query_dispatch _ _ _ _ _ _ Hroute).
  destruct route.
  - intros Hfail.
    destruct (process_knowledge_base_degrades _ _ _ Hfail)
      as (r & st' & -> & Hconf & Hsol & Hsrc & Herr).
    eexists _, _. split; [done|]. unfold degraded_envelope. simpl.
    by rewrite Herr.
  - intros Hfail.
    destruct (process_web_search_degrades _ _ _ Hfail)
      as (r & st' & -> & Hconf & Hsol & Hsrc & Herr).
    eexists _, _. split; [done|]. unfold degraded_envelope. simpl.
    by rewrite Herr.
  - destruct (process_knowledge_base_returns query st1) as (r1 & st2 & Hkb).
    destruct (process_web_search_returns query st2) as (r2 & st' & Hweb).
    rewrite Hkb, Hweb. by eexists _, _, _, _.
  - intros Hfail.
    destruct (process_fallback_degrades _ _ _ _ Hfail)
      as (r & st' & -> & Hconf & Hsol & Hsrc & Herr).
    eexists _, _. split; [done|]. unfold degraded_envelope. simpl.
    by rewrite Herr.
Qed.
End Dispatch.

(** C4, at a concrete input: a web solution that differs is appended after
    the preamble. *)
Lemma C4_combine_results_witness :
  solution
    (_combine_results (collab := idle)
       {| solution := "x = 2 or x = 3"; steps := ["factor"]; sources := [];
          confidence := 0.85; error := None |}
       {| solution := "The roots are 2 and 3"; steps := ["look up"]; sources := [];
          confidence := 0.6; error := None |})
  = "Based on my knowledge base: x = 2 or x = 3" +:+ blank_line
    +:+ "Additional information from web search: The roots are 2 and 3".
Proof.
  destruct (C4_combine_results (collab := idle)
              {| solution := "x = 2 or x = 3"; steps := ["factor"]; sources := [];
                 confidence := 0.85; error := None |}
              {| solution := "The roots are 2 and 3"; steps := ["look up"];
                 sources := []; confidence := 0.6; error := None |})
    as (_ & _ & _ & _ & Happended & _).
  rewrite Happended; done.
Defined.

(** C6, at a concrete input: the route is the knowledge base and the solver
    raises. *)
Lemma C6_process_query_never_raises_witness :
  ∃ envelope st',
    process_query (collab := kb_knows_quadratics)
      "Solve x^2 - 5x + 6 = 0" tt (new_agent kb_knows_quadratics tt) = (Ok envelope, st')
    ∧ degraded_envelope KNOWLEDGE_BASE
        "Error accessing knowledge base: solver down" "solver down" envelope.
Proof.
  pose proof (C6_process_query_never_raises (collab := kb_knows_quadratics)
                "Solve x^2 - 5x + 6 = 0" tt (new_agent kb_knows_quadratics tt))
    as (_ & _ & _ & _ & Henvelope).
  refine (Henvelope KNOWLEDGE_BASE _ _ "solver down" eq_refl _).
  by eapply kb_solver_fails.
Defined.

(** * Feedback *)

Section Feedback.

Ltac run_feedback :=
  unfold collect_feedback, try_except, _generate_feedback_id,
    _update_feedback_stats, _process_feedback_for_improvements,
    _save_feedback_data, update_stats, Py.bind, gets, modify, Py.ret;
  cbn [fe_feedback fe_response ef_rating ef_helpful ef_correct ef_clear
       ef_complete er_confidence er_route_used ef_alternative_solution
       feedback_storage feedback_stats improvement_suggestions fst snd].

(** The entry is built unless the ['routing_metadata'] entry of the
    response is [None]. *)
Lemma structure_feedback_entry_outcome feedback_id now query response fd :
  structure_feedback_entry feedback_id now query response fd
  = if routing_metadata_is_null response then Raise none_has_no_get
    else Ok (entry_for feedback_id now query response fd).
Proof.
  unfold structure_feedback_entry, route_confidence_of, routing_metadata_is_null,
    entry_for.
  by destruct (rsp_routing_metadata response) as [[|scores]|].
Qed.

(** C7 (as amended): a submission with rating 1 and [correct] false, whose
    [clear] and [complete] flags are absent or true and whose response has a
    ['routing_metadata'] entry that is absent or a dictionary, yields the
    suggestion "low_satisfaction" of priority "high" and the suggestion
    "correctness" of priority "critical"; these are all when the confidence
    of the response is not below 0.5, and the suggestion
    "confidence_accuracy" of priority "high" follows them when it is.  When
    the ['routing_metadata'] entry is [None], the call returns the error
    dictionary, with no suggestion, and leaves the agent as it was. *)
Theorem C7_low_rating_incorrect_suggestions now query response fd self :
  fd_rating fd = Some 1%Z →
  fd_correct fd = Some false →
  get (fd_clear fd) true = true →
  get (fd_complete fd) true = true →
  let route := get (rsp_route_used response) "" in
  let extra := if Py.lt (get (rsp_confidence response) 0.0%float) 0.5
               then [confidence_accuracy_suggestion route] else [] in
  if routing_metadata_is_null response then
    collect_feedback now query response fd self
    = (Ok (Feedback_error none_has_no_get), self)
  else
    ∃ feedback_id low correctness self',
      collect_feedback now query response fd self
        = (Ok (Collected feedback_id (2 + length extra) ([low; correctness] ++ extra)),
           self')
      ∧ imp_type low = "low_satisfaction" ∧ imp_priority low = "high"
      ∧ imp_type correctness = "correctness" ∧ imp_priority correctness = "critical".
Proof.
  intros Hrating Hcorrect Hclear Hcomplete route extra. subst route extra.
  run_feedback. unfold eval. rewrite structure_feedback_entry_outcome.
  destruct (routing_metadata_is_null response); [done|].
  unfold entry_for, feedback_entry_with. simpl.
  rewrite Hrating, Hcorrect, Hclear, Hcomplete.
  destruct (get (fd_helpful fd) false); simpl;
    destruct (Py.lt _ 0.5); eexists _, _, _, _; (split; [reflexivity|done]).
Qed.

(** C8: with no feedback counted, [get_feedback_analysis] returns the
    empty-state dictionary; no division is evaluated and nothing is raised. *)
Theorem C8_empty_store_analysis self :
  stat (feedback_stats self) "total_feedback" = 0%Z →
  get_feedback_analysis self
  = (Ok (Analysis_message "No feedback data available yet"), self).
Proof.
  intros Hzero. unfold get_feedback_analysis, try_except, Py.bind, gets.
  by rewrite Hzero.
Qed.
End Feedback.

(** C7, at a concrete input: a response of confidence 0.9. *)
Lemma C7_low_rating_incorrect_suggestions_witness :
  ∃ feedback_id low correctness self',
    collect_feedback noon "Solve x^2 - 5x + 6 = 0"
      (response_with_confidence (Some 0.9%float)) poor_and_wrong fresh_agent
      = (Ok (Collected feedback_id 2 [low; correctness]), self')
    ∧ imp_type low = "low_satisfaction" ∧ imp_priority low = "high"
    ∧ imp_type correctness = "correctness" ∧ imp_priority correctness = "critical".
Proof.
  apply (C7_low_rating_incorrect_suggestions noon "Solve x^2 - 5x + 6 = 0"
           (response_with_confidence (Some 0.9%float)) poor_and_wrong fresh_agent);
    reflexivity.
Defined.

(** C7 as stated fails: when the response carries no confidence (read as
    0.0), or one below 0.5, the same submission yields three suggestions. *)
Lemma C7_counterexample_low_confidence :
  ∃ feedback_id low correctness self',
    collect_feedback noon "Solve x^2 - 5x + 6 = 0"
      (response_with_confidence None) poor_and_wrong fresh_agent
      = (Ok (Collected feedback_id 3
               [low; correctness; confidence_accuracy_suggestion "knowledge_base"]),
         self').
Proof. by eexists _, _, _, _. Qed.

(** C8, at a concrete input: the agent that has collected nothing. *)
Lemma C8_empty_store_analysis_witness :
  get_feedback_analysis fresh_agent
  = (Ok (Analysis_message "No feedback data available yet"), fresh_agent).
Proof. apply (C8_empty_store_analysis fresh_agent). reflexivity. Defined.

(** * Feedback ids and counters *)

Section FeedbackStore.

Lemma char_in_append c (s t : string) :
  char_in c (s +:+ t) = char_in c s || char_in c t.
Proof.
  induction s as [|a s IH]; [done|].
  rewrite append_cons. simpl. by rewrite IH, orb_assoc.
Qed.

Lemma after_last_append c (p d : string) :
  char_in c d = false → after_last c (p +:+ String c d) = d.
Proof.
  intros Hd. induction p as [|a p IH].
  - rewrite append_nil_l. simpl. by rewrite Hd, Ascii.eqb_refl.
  - rewrite append_cons. simpl.
    rewrite char_in_append. simpl. rewrite Ascii.eqb_refl, orb_true_r. done.
Qed.

Lemma char_in_string_of_uint (d : Decimal.uint) :
  char_in "_" (NilEmpty.string_of_uint d) = false.
Proof. induction d; simpl; done. Qed.

Lemma char_in_zeros k :
  char_in "_" (String.string_of_list_ascii (replicate k "0"%char)) = false.
Proof. induction k; simpl; done. Qed.

Lemma uint_of_zeros k (s : string) (d : Decimal.uint) :
  NilEmpty.uint_of_string s = Some d →
  NilEmpty.uint_of_string (String.string_of_list_ascii (replicate k "0"%char) +:+ s)
  = Some (Nat.iter k Decimal.D0 d).
Proof.
  intros Hs. induction k as [|k IH]; [done|].
  simpl replicate. simpl String.string_of_list_ascii. rewrite append_cons.
  simpl. by rewrite IH.
Qed.

Lemma of_uint_zeros k (d : Decimal.uint) :
  Nat.of_uint (Nat.iter k Decimal.D0 d) = Nat.of_uint d.
Proof. induction k as [|k IH]; [done|]. simpl. exact IH. Qed.

(** The counter can be read back from an id. *)
Lemma counter_of_feedback_id timestamp counter :
  counter_of_id (feedback_id_of timestamp counter) = Some counter.
Proof.
  unfold counter_of_id, feedback_id_of, format_04d, zfill, str_of_nat.
  rewrite <- append_assoc.
  change ("_" +:+ ?x) with (String "_" x).
  rewrite after_last_append.
  - rewrite (uint_of_zeros _ _ _ (NilEmpty.usu _)). simpl.
    by rewrite of_uint_zeros, DecimalNat.Unsigned.of_to.
  - by rewrite char_in_append, char_in_zeros, char_in_string_of_uint.
Qed.

Lemma dict_set_fresh {V} k (v : V) d :
  k ∉ dict_keys d → dict_set k v d = d ++ [(k, v)].
Proof.
  unfold dict_keys. induction d as [|[k' v'] d IH]; intros Hk; [done|].
  simpl in *. apply not_elem_of_cons in Hk as [Hne Hk].
  destruct (String.eqb_spec k' k) as [->|_]; [done|]. by rewrite IH.
Qed.

Lemma dict_get_set {V} k (v : V) d : dict_get k (dict_set k v d) = Some v.
Proof.
  induction d as [|[k' v'] d IH]; simpl.
  - by rewrite String.eqb_refl.
  - destruct (String.eqb_spec k' k) as [->|Hne]; simpl.
    + by rewrite String.eqb_refl.
    + by destruct (String.eqb_spec k' k).
Qed.

(** [_update_feedback_stats] increments the counters of [counted_keys], and
    nothing else changes. *)
Lemma update_feedback_stats_run entry self :
  _update_feedback_stats entry self
  = (Ok tt,
     {| feedback_storage := feedback_storage self;
        feedback_stats :=
          fold_left (λ stats key, incr key stats) (counted_keys entry)
                    (feedback_stats self);
        improvement_suggestions := improvement_suggestions self |}).
Proof.
  unfold _update_feedback_stats, update_stats, Py.bind, modify, Py.ret,
    counted_keys.
  destruct (ef_helpful (fe_feedback entry)), (ef_correct (fe_feedback entry)),
    (ef_clear (fe_feedback entry)), (ef_complete (fe_feedback entry)),
    (4 <=? ef_rating (fe_feedback entry))%Z, (ef_rating (fe_feedback entry) <=? 2)%Z;
    reflexivity.
Qed.

(** [_process_feedback_for_improvements] appends what it returns to the
    list of suggestions, and nothing else changes. *)
Lemma process_feedback_for_improvements_run entry self :
  ∃ improvements,
    _process_feedback_for_improvements entry self
    = (Ok improvements,
       {| feedback_storage := feedback_storage self;
          feedback_stats := feedback_stats self;
          improvement_suggestions := improvement_suggestions self ++ improvements |}).
Proof. eexists. reflexivity. Qed.

(** A call of [collect_feedback] on a response whose ['routing_metadata']
    entry is [None] returns the error dictionary and changes nothing. *)
Lemma collect_feedback_null now query response fd self :
  routing_metadata_is_null response = true →
  collect_feedback now query response fd self
  = (Ok (Feedback_error none_has_no_get), self).
Proof.
  intros Hnull.
  unfold collect_feedback, try_except, Py.bind at 1 2.
  unfold _generate_feedback_id, Py.bind, gets, Py.ret, eval.
  by rewrite structure_feedback_entry_outcome, Hnull.
Qed.

(** What any other call of [collect_feedback] does to the agent. *)
Lemma collect_feedback_run now query response fd self :
  routing_metadata_is_null response = false →
  let feedback_id :=
    feedback_id_of (now_strftime now) (length (feedback_storage self) + 1) in
  let entry := entry_for feedback_id now query response fd in
  ∃ improvements,
    collect_feedback now query response fd self
    = (Ok (Collected feedback_id (length improvements) improvements),
       {| feedback_storage := dict_set feedback_id entry (feedback_storage self);
          feedback_stats :=
            fold_left (λ stats key, incr key stats) (counted_keys entry)
                      (feedback_stats self);
          improvement_suggestions := improvement_suggestions self ++ improvements |}).
Proof.
  intros Hnull feedback_id entry.
  unfold collect_feedback, try_except, Py.bind at 1 2 3 4.
  unfold _generate_feedback_id, Py.bind, gets, modify, Py.ret, eval.
  fold (feedback_id_of (now_strftime now) (length (feedback_storage self) + 1)).
  fold feedback_id. rewrite structure_feedback_entry_outcome, Hnull. fold entry.
  rewrite update_feedback_stats_run.
  destruct (process_feedback_for_improvements_run entry
              {| feedback_storage := dict_set feedback_id entry (feedback_storage self);
                 feedback_stats :=
                   fold_left (λ stats key, incr key stats) (counted_keys entry)
                             (feedback_stats self);
                 improvement_suggestions := improvement_suggestions self |})
    as [improvements Himp].
  cbn [feedback_storage feedback_stats improvement_suggestions] in *.
  rewrite Himp. unfold _save_feedback_data, Py.ret. by eexists.
Qed.

(** *** Ids *)

Lemma fresh_feedback_id timestamp self :
  counters_bounded self →
  (feedback_id_of timestamp (length (feedback_storage self) + 1))
    ∉ dict_keys (feedback_storage self).
Proof.
  intros Hbounded Hin. unfold counters_bounded in Hbounded.
  rewrite Forall_forall in Hbounded.
  destruct (Hbounded _ Hin) as (n & Hn & Hle).
  rewrite counter_of_feedback_id in Hn. injection Hn as <-. lia.
Qed.

(** One call on a store whose counters are bounded: the id is new, it is
    appended to the keys, and the counters stay bounded. *)
Lemma collect_feedback_new_id now query response fd self :
  routing_metadata_is_null response = false →
  counters_bounded self →
  ∃ feedback_id n improvements self',
    collect_feedback now query response fd self
      = (Ok (Collected feedback_id n improvements), self')
    ∧ (feedback_id ∉ dict_keys (feedback_storage self))
    ∧ dict_keys (feedback_storage self')
      = dict_keys (feedback_storage self) ++ [feedback_id]
    ∧ counters_bounded self'.
Proof.
  intros Hnull Hbounded.
  destruct (collect_feedback_run now query response fd self Hnull)
    as [improvements Hrun].
  pose proof (fresh_feedback_id (now_strftime now) self Hbounded) as Hfresh.
  eexists _, _, _, _. split; [exact Hrun|]. split; [exact Hfresh|].
  cbn [feedback_storage]. rewrite (dict_set_fresh _ _ _ Hfresh).
  unfold dict_keys. rewrite fmap_app. split; [done|].
  unfold counters_bounded, dict_keys. cbn [feedback_storage].
  rewrite fmap_app, length_app, Forall_app. simpl. split.
  - eapply Forall_impl; [exact Hbounded|].
    intros id (n & Hn & Hle). exists n. split; [done|lia].
  - apply Forall_singleton. eexists. split; [apply counter_of_feedback_id|lia].
Qed.

(** A sequence of calls on such a store: every call on an accepted
    submission returns an id, the others return none, and the keys of the
    store grow by the returned ids, in order. *)
Lemma collect_all_keys subs self :
  counters_bounded self →
  dict_keys (feedback_storage (collect_all subs self).2)
    = dict_keys (feedback_storage self) ++ returned_ids (collect_all subs self).1
  ∧ length (returned_ids (collect_all subs self).1)
    = length (List.filter accepted subs)
  ∧ (NoDup (dict_keys (feedback_storage self)) →
     NoDup (dict_keys (feedback_storage (collect_all subs self).2))).
Proof.
  revert self. induction subs as [|sub subs IH]; intros self Hbounded.
  - simpl. by rewrite app_nil_r.
  - cbn [List.filter]. unfold accepted at 1.
    destruct (routing_metadata_is_null (sub_response sub)) eqn:Hnull.
    { destruct (IH self Hbounded) as (IHkeys & IHlen & IHnodup).
      simpl. rewrite (collect_feedback_null _ _ _ _ _ Hnull).
      by destruct (collect_all subs self) as [rs self'']. }
    destruct (collect_feedback_new_id (sub_now sub) (sub_query sub)
                (sub_response sub) (sub_feedback sub) self Hnull Hbounded)
      as (feedback_id & n & improvements & self' & Hrun & Hfresh & Hkeys & Hbounded').
    destruct (IH self' Hbounded') as (IHkeys & IHlen & IHnodup).
    simpl. rewrite Hrun.
    destruct (collect_all subs self') as [rs self''] eqn:Hall. simpl in *.
    rewrite IHkeys, Hkeys, <- app_assoc. split; [done|]. split; [by rewrite IHlen|].
    intros Hnodup. rewrite app_assoc, <- Hkeys. rewrite <- IHkeys. apply IHnodup.
    rewrite Hkeys. apply NoDup_app. split; [done|]. split.
    + intros id Hid ->%list_elem_of_singleton. done.
    + apply NoDup_singleton.
Qed.

(** C9: in every sequence of calls of [collect_feedback] on an agent that
    started with an empty store, the returned feedback ids are pairwise
    distinct and they are the keys of the store: no call overwrites an
    entry.  A call returns a feedback id unless the ['routing_metadata']
    entry of its response is [None]; such a call returns the error
    dictionary and stores nothing. *)
Theorem C9_feedback_ids_distinct (subs : list submission) :
  NoDup (returned_ids (collect_all subs fresh_agent).1)
  ∧ length (returned_ids (collect_all subs fresh_agent).1)
    = length (List.filter accepted subs)
  ∧ dict_keys (feedback_storage (collect_all subs fresh_agent).2)
    = returned_ids (collect_all subs fresh_agent).1.
Proof.
  assert (counters_bounded fresh_agent) as Hbounded by apply Forall_nil_2.
  destruct (collect_all_keys subs fresh_agent Hbounded) as (Hkeys & Hlen & Hnodup).
  simpl in Hkeys. split; [|done].
  rewrite <- Hkeys. apply Hnodup. apply NoDup_nil_2.
Qed.

(** *** Counters *)

Lemma stat_incr key key' stats :
  stat (incr key stats) key'
  = (stat stats key' + if String.eqb key' key then 1 else 0)%Z.
Proof.
  unfold incr, stat. destruct (String.eqb_spec key' key) as [->|Hne].
  - by rewrite lookup_insert_eq.
  - rewrite lookup_insert_ne by done. lia.
Qed.

(** After a run of increments a counter has grown by the number of times
    its key occurs. *)
Lemma stat_fold_incr keys key stats :
  stat (fold_left (λ stats key, incr key stats) keys stats) key
  = (stat stats key + Z.of_nat (occurrences key keys))%Z.
Proof.
  unfold occurrences. revert stats.
  induction keys as [|k keys IH]; intros stats; simpl; [lia|].
  rewrite IH, stat_incr. destruct (String.eqb key k); simpl; lia.
Qed.

(** The keys of the route counters start with ["ro"]. *)
Lemma route_key_shape route suffix :
  "route_" +:+ route +:+ suffix = String "r" (String "o" ("ute_" +:+ route +:+ suffix)).
Proof. reflexivity. Qed.

(** The counters an entry of rating 0 increments: ["total_feedback"] and
    ["rating_0"] once, none of ["rating_1"] to ["rating_5"]. *)
Lemma counted_keys_rating_0 entry :
  ef_rating (fe_feedback entry) = 0%Z →
  occurrences "total_feedback" (counted_keys entry) = 1
  ∧ occurrences "rating_0" (counted_keys entry) = 1
  ∧ Forall (λ i, occurrences ("rating_" +:+ str_of_Z i) (counted_keys entry) = 0)
           [1; 2; 3; 4; 5]%Z.
Proof.
  intros Hrating. unfold counted_keys, occurrences. rewrite Hrating.
  rewrite !route_key_shape.
  destruct (ef_helpful (fe_feedback entry)), (ef_correct (fe_feedback entry)),
    (ef_clear (fe_feedback entry)), (ef_complete (fe_feedback entry));
    repeat split; repeat constructor.
Qed.

(** C10 (as amended): a submission without rating whose response has a
    ['routing_metadata'] entry that is absent or a dictionary is recorded
    with rating 0.  It adds one to [total_feedback] and to [rating_0] and
    leaves the counters [rating_1] to [rating_5] as they are.
    [_calculate_average_rating] divides the sum of [i * rating_i] by the sum
    of [rating_i] for [i] from 1 to 5 only, and gives 0.0 when that sum is
    not positive: so the average does not change, and it is over one entry
    fewer than [total_feedback] counts.  When the ['routing_metadata'] entry
    is [None], the call returns the error dictionary and records nothing. *)
Theorem C10_missing_rating_counts_as_zero now query response fd self :
  fd_rating fd = None →
  let bucket (agent : FeedbackAgent) (i : Z) :=
    stat (feedback_stats agent) ("rating_" +:+ str_of_Z i) in
  if routing_metadata_is_null response then
    collect_feedback now query response fd self
    = (Ok (Feedback_error none_has_no_get), self)
  else
    ∃ feedback_id n improvements self' entry,
      collect_feedback now query response fd self
        = (Ok (Collected feedback_id n improvements), self')
      ∧ dict_get feedback_id (feedback_storage self') = Some entry
      ∧ ef_rating (fe_feedback entry) = 0%Z
      ∧ stat (feedback_stats self') "total_feedback"
        = (stat (feedback_stats self) "total_feedback" + 1)%Z
      ∧ stat (feedback_stats self') "rating_0"
        = (stat (feedback_stats self) "rating_0" + 1)%Z
      ∧ Forall (λ i, bucket self' i = bucket self i) [1; 2; 3; 4; 5]%Z
      ∧ rating_totals (feedback_stats self') = rating_totals (feedback_stats self)
      ∧ _calculate_average_rating self' = _calculate_average_rating self
      ∧ (let total_ratings :=
           (1 * bucket self' 1 + 2 * bucket self' 2 + 3 * bucket self' 3
            + 4 * bucket self' 4 + 5 * bucket self' 5)%Z in
         let total_count :=
           (bucket self' 1 + bucket self' 2 + bucket self' 3 + bucket self' 4
            + bucket self' 5)%Z in
         _calculate_average_rating self'
         = if (0 <? total_count)%Z
           then Ok (float_of_Z total_ratings / float_of_Z total_count)%float
           else Ok 0.0%float).
Proof.
  intros Hrating bucket.
  destruct (routing_metadata_is_null response) eqn:Hnull;
    [by apply collect_feedback_null|].
  destruct (collect_feedback_run now query response fd self Hnull)
    as [improvements Hrun].
  set (feedback_id := feedback_id_of _ _) in Hrun.
  set (entry := entry_for _ _ _ _ _) in Hrun.
  assert (ef_rating (fe_feedback entry) = 0%Z) as Hzero
    by (subst entry; simpl; by rewrite Hrating).
  destruct (counted_keys_rating_0 entry Hzero) as (Htotal & Hbucket & Hothers).
  clearbody entry feedback_id.
  assert (rating_totals
            (fold_left (λ stats key, incr key stats) (counted_keys entry)
               (feedback_stats self))
          = rating_totals (feedback_stats self)) as Htotals.
  { unfold rating_totals. cbn [fold_left fst snd].
    pose proof Hothers as Hsame.
    repeat (apply Forall_cons_1 in Hsame as [Hi Hsame];
            rewrite stat_fold_incr, Hi, Z.add_0_r; clear Hi). done. }
  eexists _, _, _, _, entry. split; [exact Hrun|].
  subst bucket. cbn [feedback_storage feedback_stats].
  split; [apply dict_get_set|]. split; [done|].
  split; [by rewrite stat_fold_incr, Htotal|].
  split; [by rewrite stat_fold_incr, Hbucket|].
  split.
  { eapply Forall_impl; [exact Hothers|]. intros i Hi. cbv beta.
    rewrite stat_fold_incr, Hi. lia. }
  split; [done|].
  split; [unfold _calculate_average_rating; cbn [feedback_stats]; by rewrite Htotals|].
  unfold _calculate_average_rating, rating_totals, truediv.
  cbn [fold_left fst snd feedback_stats].
  set (stats := fold_left _ (counted_keys entry) _).
  replace (0 + stat stats ("rating_" +:+ str_of_Z 1)
           + stat stats ("rating_" +:+ str_of_Z 2)
           + stat stats ("rating_" +:+ str_of_Z 3)
           + stat stats ("rating_" +:+ str_of_Z 4)
           + stat stats ("rating_" +:+ str_of_Z 5))%Z
    with (stat stats ("rating_" +:+ str_of_Z 1)
          + stat stats ("rating_" +:+ str_of_Z 2)
          + stat stats ("rating_" +:+ str_of_Z 3)
          + stat stats ("rating_" +:+ str_of_Z 4)
          + stat stats ("rating_" +:+ str_of_Z 5))%Z by lia.
  destruct (Z.ltb_spec 0 (stat stats ("rating_" +:+ str_of_Z 1)
          + stat stats ("rating_" +:+ str_of_Z 2)
          + stat stats ("rating_" +:+ str_of_Z 3)
          + stat stats ("rating_" +:+ str_of_Z 4)
          + stat stats ("rating_" +:+ str_of_Z 5))) as [Hpos|Hnone]; [|done].
  destruct (Z.eqb_spec (stat stats ("rating_" +:+ str_of_Z 1)
          + stat stats ("rating_" +:+ str_of_Z 2)
          + stat stats ("rating_" +:+ str_of_Z 3)
          + stat stats ("rating_" +:+ str_of_Z 4)
          + stat stats ("rating_" +:+ str_of_Z 5)) 0) as [Heq|_]; [lia|].
  do 2 f_equal; f_equal; lia.
Qed.
End FeedbackStore.

(** C9, on two submissions within one second: the ids differ by their
    counters. *)
Example two_submissions_in_one_second :
  returned_ids
    (collect_all
       [ {| sub_now := noon; sub_query := "Solve x^2 - 5x + 6 = 0";
            sub_response := response_with_confidence (Some 0.9%float);
            sub_feedback := poor_and_wrong |};
         {| sub_now := noon; sub_query := "Solve x^2 - 5x + 6 = 0";
            sub_response := response_with_confidence (Some 0.9%float);
            sub_feedback := no_feedback_data |} ]
       fresh_agent).1
  = ["feedback_20240101_120000_0001"; "feedback_20240101_120000_0002"].
Proof. reflexivity. Qed.

(** C10, at a concrete input: after one submission without rating on a new
    agent, [total_feedback] is 1 and the average is over no entry. *)
Lemma C10_missing_rating_counts_as_zero_witness :
  ∃ feedback_id n improvements self' entry,
    collect_feedback noon "Solve x^2 - 5x + 6 = 0"
      (response_with_confidence (Some 0.9%float)) no_feedback_data fresh_agent
      = (Ok (Collected feedback_id n improvements), self')
    ∧ dict_get feedback_id (feedback_storage self') = Some entry
    ∧ ef_rating (fe_feedback entry) = 0%Z
    ∧ stat (feedback_stats self') "total_feedback" = 1%Z
    ∧ stat (feedback_stats self') "rating_0" = 1%Z
    ∧ Forall (λ i, stat (feedback_stats self') ("rating_" +:+ str_of_Z i) = 0%Z)
             [1; 2; 3; 4; 5]%Z
    ∧ rating_totals (feedback_stats self') = (0, 0)%Z
    ∧ _calculate_average_rating self' = Ok 0.0%float.
Proof.
  destruct (C10_missing_rating_counts_as_zero noon "Solve x^2 - 5x + 6 = 0"
              (response_with_confidence (Some 0.9%float)) no_feedback_data fresh_agent
              eq_refl)
    as (feedback_id & n & improvements & self' & entry & Hrun & Hentry & Hrating
        & Htotal & Hzero & Hbuckets & Htotals & Haverage & _).
  by exists feedback_id, n, improvements, self', entry.
Defined.

(** C10 as stated fails: a submission without rating whose response holds
    [None] under ['routing_metadata'], as the route handler passes it when
    the caller sends none, is not recorded; the call returns the error
    dictionary and no counter changes. *)
Lemma C10_counterexample_null_routing_metadata :
  collect_feedback noon "What is the quadratic formula?" response_as_posted
    no_feedback_data fresh_agent
  = (Ok (Feedback_error "'NoneType' object has no attribute 'get'"), fresh_agent)
  ∧ stat (feedback_stats fresh_agent) "total_feedback" = 0%Z.
Proof. done. Qed.

(** * Dictionaries in insertion order *)

Section Dictionaries.
Context {V : Type}.
Implicit Types (d : list (string * V)) (k : string) (v : V).

Lemma dict_get_None k d : dict_get k d = None ↔ k ∉ dict_keys d.
Proof.
  unfold dict_keys. induction d as [|[k' v'] d IH]; simpl.
  - split; [intros _; apply not_elem_of_nil|done].
  - rewrite not_elem_of_cons. destruct (String.eqb_spec k' k) as [->|Hne].
    + split; [done|]. by intros [? _].
    + rewrite IH. split; [by intros ?; split|by intros [_ ?]].
Qed.

Lemma dict_get_set_ne k k' v d : k ≠ k' → dict_get k' (dict_set k v d) = dict_get k' d.
Proof.
  intros Hne. induction d as [|[k0 v0] d IH]; simpl.
  - by destruct (String.eqb_spec k k').
  - destruct (String.eqb_spec k0 k) as [->|Hne0]; simpl.
    + by destruct (String.eqb_spec k k').
    + by rewrite IH.
Qed.

Lemma dict_keys_set_present k v d :
  k ∈ dict_keys d → dict_keys (dict_set k v d) = dict_keys d.
Proof.
  unfold dict_keys. induction d as [|[k0 v0] d IH]; simpl.
  - by intros ?%elem_of_nil.
  - destruct (String.eqb_spec k0 k) as [->|Hne0]; [done|].
    intros [?|Hin]%elem_of_cons; [by subst|]. rewrite !fmap_cons. f_equal. by apply IH.
Qed.

Lemma dict_keys_set k v d :
  dict_keys (dict_set k v d)
  = match dict_get k d with Some _ => dict_keys d | None => dict_keys d ++ [k] end.
Proof.
  destruct (dict_get k d) eqn:Hget.
  - apply dict_keys_set_present. destruct (decide (k ∈ dict_keys d)) as [|Hnot]; [done|].
    apply dict_get_None in Hnot. congruence.
  - apply dict_get_None in Hget. rewrite (dict_set_fresh _ _ _ Hget).
    unfold dict_keys. by rewrite fmap_app.
Qed.

Lemma dict_keys_set_NoDup k v d : NoDup (dict_keys d) → NoDup (dict_keys (dict_set k v d)).
Proof.
  intros Hnodup. rewrite dict_keys_set. destruct (dict_get k d) eqn:Hget; [done|].
  apply dict_get_None in Hget. apply NoDup_app. split; [done|]. split.
  - by intros x Hx ->%list_elem_of_singleton.
  - apply NoDup_singleton.
Qed.
End Dictionaries.

Section DictionaryCounts.

Lemma dict_values_count k (d : list (string * nat)) :
  sum_list (dict_values (dict_set k (get (dict_get k d) 0 + 1) d))
  = S (sum_list (dict_values d)).
Proof.
  unfold dict_values. induction d as [|[k' n] d IH]; [done|].
  cbn [dict_set dict_get].
  destruct (String.eqb_spec k' k) as [->|Hne]; rewrite !fmap_cons.
  - simpl. lia.
  - cbn [sum_list snd]. rewrite IH. lia.
Qed.

Lemma dict_get_map {V W} (f : V → W) k (d : list (string * V)) :
  dict_get k (map (λ kv, (kv.1, f kv.2)) d) = f <$> dict_get k d.
Proof.
  induction d as [|[k' v] d IH]; simpl; [done|].
  by destruct (String.eqb k' k).
Qed.

Lemma dict_keys_map {V W} (f : V → W) (d : list (string * V)) :
  dict_keys (map (λ kv, (kv.1, f kv.2)) d) = dict_keys d.
Proof.
  unfold dict_keys. induction d as [|[k' v] d IH]; simpl; [done|]. by f_equal.
Qed.

End DictionaryCounts.

(** * Routing statistics *)

Section RoutingStatsFacts.
Context {collab : Collaborators}.

Lemma entries_of_route_snoc route history entry :
  entries_of_route route (history ++ [entry])
  = entries_of_route route history
    ++ (if String.eqb (h_route entry) route then [entry] else []).
Proof.
  unfold entries_of_route. rewrite List.filter_app. simpl.
  by destruct (String.eqb _ _).
Qed.

Lemma primary_scores_snoc route history entry :
  primary_scores route (history ++ [entry])
  = primary_scores route history
    ++ (if String.eqb (h_route entry) route
        then take 1 (dict_values (h_confidence entry)) else []).
Proof.
  unfold primary_scores. rewrite entries_of_route_snoc, flat_map_app.
  destruct (String.eqb _ _); simpl; by rewrite ?app_nil_r.
Qed.

(** What the first loop of [get_routing_stats] has computed when it ends. *)
Lemma routing_stats_loop history :
  let acc := fold_left routing_stats_step history ([], []) in
  NoDup (dict_keys acc.1)
  ∧ dict_keys acc.2 = dict_keys acc.1
  ∧ (∀ route, route ∈ dict_keys acc.1 ↔ entries_of_route route history ≠ [])
  ∧ (∀ route, get (dict_get route acc.1) 0 = length (entries_of_route route history))
  ∧ (∀ route, get (dict_get route acc.2) [] = primary_scores route history)
  ∧ sum_list (dict_values acc.1) = length history.
Proof.
  induction history as [|entry history IH] using rev_ind.
  { simpl. split; [apply NoDup_nil_2|]. split; [done|]. split; [|done].
    intros route. split; [by intros ?%elem_of_nil|done]. }
  rewrite fold_left_app. simpl.
  destruct (fold_left routing_stats_step history ([], [])) as [counts avgs].
  simpl in IH. destruct IH as (Hnodup & Hkeys & Hmem & Hcount & Hprim & Hsum).
  unfold routing_stats_step.
  set (r0 := h_route entry).
  set (counts' := dict_set r0 (get (dict_get r0 counts) 0 + 1) counts).
  set (avgs1 := match dict_get r0 avgs with
                | None => dict_set r0 [] avgs | Some _ => avgs end).
  assert (dict_keys avgs1 = dict_keys counts') as Hkeys1.
  { subst avgs1 counts'. rewrite (dict_keys_set r0 _ counts).
    destruct (dict_get r0 avgs) eqn:Havg.
    - destruct (dict_get r0 counts) eqn:Hc; [done|].
      apply dict_get_None in Hc. rewrite <- Hkeys in Hc.
      apply dict_get_None in Hc. congruence.
    - rewrite dict_keys_set, Havg, Hkeys.
      destruct (dict_get r0 counts) eqn:Hc; [|done].
      apply dict_get_None in Havg. rewrite Hkeys in Havg.
      apply dict_get_None in Havg. congruence. }
  assert (∀ route, get (dict_get route avgs1) [] = get (dict_get route avgs) [])
    as Hget1.
  { intros route. subst avgs1. destruct (dict_get r0 avgs) eqn:Havg; [done|].
    destruct (decide (r0 = route)) as [<-|Hne].
    - by rewrite dict_get_set, Havg.
    - by rewrite dict_get_set_ne. }
  assert (r0 ∈ dict_keys avgs1) as Hin1.
  { rewrite Hkeys1. subst counts'.
    destruct (decide (r0 ∈ dict_keys (dict_set r0 (get (dict_get r0 counts) 0 + 1) counts)))
      as [|Hnot]; [done|].
    apply dict_get_None in Hnot. by rewrite dict_get_set in Hnot. }
  set (avgs2 := match dict_values (h_confidence entry) with
                | primary_score :: _ =>
                    dict_set r0 (get (dict_get r0 avgs1) [] ++ [primary_score]) avgs1
                | [] => avgs1
                end).
  assert (dict_keys avgs2 = dict_keys counts') as Hkeys2.
  { subst avgs2. destruct (dict_values (h_confidence entry)); [done|].
    by rewrite dict_keys_set_present. }
  simpl. split; [by apply dict_keys_set_NoDup|]. split; [done|].
  split; [|split; [|split]].
  - intros route. rewrite entries_of_route_snoc. fold r0. subst counts'.
    rewrite dict_keys_set.
    destruct (String.eqb_spec r0 route) as [<-|Hne].
    + split; [intros _; by destruct (entries_of_route r0 history)|intros _].
      destruct (dict_get r0 counts) eqn:Hc.
      * destruct (decide (r0 ∈ dict_keys counts)) as [|Hnot]; [done|].
        apply dict_get_None in Hnot. congruence.
      * apply elem_of_app. right. by apply list_elem_of_singleton.
    + rewrite app_nil_r, <- Hmem.
      destruct (dict_get r0 counts); [done|].
      rewrite elem_of_app, list_elem_of_singleton.
      split; [intros [?|?]; [done|by subst]|by left].
  - intros route. rewrite entries_of_route_snoc, length_app. fold r0. subst counts'.
    destruct (String.eqb_spec r0 route) as [<-|Hne].
    + rewrite dict_get_set. simpl. by rewrite Hcount.
    + rewrite dict_get_set_ne by done. simpl. rewrite Hcount. lia.
  - intros route. rewrite primary_scores_snoc. fold r0. subst avgs2.
    destruct (String.eqb_spec r0 route) as [<-|Hne].
    + destruct (dict_values (h_confidence entry)) as [|p ps]; simpl.
      * by rewrite app_nil_r, Hget1, Hprim.
      * by rewrite dict_get_set, take_0, Hget1, Hprim.
    + rewrite app_nil_r.
      destruct (dict_values (h_confidence entry)) as [|p ps]; simpl.
      * by rewrite Hget1, Hprim.
      * by rewrite dict_get_set_ne, Hget1, Hprim.
  - subst counts'. rewrite dict_values_count, Hsum, length_app. simpl. lia.
Qed.

End RoutingStatsFacts.

Section RoutingStatsTheorems.
Context {collab : Collaborators}.

Lemma last_n_suffix {A} n (xs : list A) :
  ∃ older, xs = older ++ last_n n xs ∧ length (last_n n xs) = Nat.min n (length xs).
Proof.
  unfold last_n. exists (take (length xs - n) xs).
  split; [by rewrite take_drop|]. rewrite length_drop. lia.
Qed.

(** X1: get_routing_stats returns total_queries 0 alone on an empty history.
    Otherwise total_queries is the length of the history, route_distribution
    has one key for each route that occurs in the history and gives it the
    number of its entries, so that the counts add up to total_queries, and
    recent_queries holds the last five entries of the history (all of them
    when there are fewer). *)
Theorem get_routing_stats_distribution float_sum (self : agent_state) :
  let history := routing_history self in
  match get_routing_stats float_sum self with
  | Stats_total_queries_only total => history = [] ∧ total = 0
  | Stats_report total distribution _ recent =>
      history ≠ [] ∧ total = length history
      ∧ NoDup (dict_keys distribution)
      ∧ sum_list (dict_values distribution) = total
      ∧ (∀ route,
           get (dict_get route distribution) 0
           = length (entries_of_route route history)
           ∧ (route ∈ dict_keys distribution ↔ entries_of_route route history ≠ []))
      ∧ ∃ older, history = older ++ recent ∧ length recent = Nat.min 5 total
  end.
Proof.
  intros history. unfold get_routing_stats. fold history.
  pose proof (routing_stats_loop history) as Hloop. simpl in Hloop.
  destruct history as [|entry history'] eqn:Hh; [done|]. rewrite <- Hh in *.
  destruct (fold_left routing_stats_step history ([], [])) as [counts avgs].
  simpl in Hloop. destruct Hloop as (Hnodup & Hkeys & Hmem & Hcount & Hprim & Hsum).
  split; [by rewrite Hh|]. split; [done|]. split; [done|]. split; [done|].
  split; [intros route; by split|].
  destruct (Nat.leb_spec 5 (length history)) as [Hlong|Hshort].
  - apply last_n_suffix.
  - exists []. split; [done|]. lia.
Qed.

(** X2: In the report of get_routing_stats, average_confidence_by_route has
    the keys of route_distribution. The value of a route is 0.0 when none of
    its entries recorded a confidence score, and otherwise sum(scores) /
    len(scores) over the first score of the confidence dictionary of each of
    its entries that recorded one (the built-in sum is left abstract). *)
Theorem get_routing_stats_averages float_sum (self : agent_state) :
  let history := routing_history self in
  match get_routing_stats float_sum self with
  | Stats_total_queries_only _ => history = []
  | Stats_report _ distribution averages _ =>
      dict_keys averages = dict_keys distribution
      ∧ ∀ route,
          dict_get route averages
          = match entries_of_route route history with
            | [] => None
            | _ :: _ => Some (average_of float_sum (primary_scores route history))
            end
  end.
Proof.
  intros history. unfold get_routing_stats. fold history.
  pose proof (routing_stats_loop history) as Hloop. simpl in Hloop.
  destruct history as [|entry history'] eqn:Hh; [done|]. rewrite <- Hh in *.
  destruct (fold_left routing_stats_step history ([], [])) as [counts avgs].
  simpl in Hloop. destruct Hloop as (Hnodup & Hkeys & Hmem & Hcount & Hprim & Hsum).
  rewrite dict_keys_map. split; [done|].
  intros route. rewrite dict_get_map.
  specialize (Hmem route). specialize (Hprim route). rewrite <- Hkeys in Hmem.
  destruct (dict_get route avgs) as [scores|] eqn:Hget.
  - simpl in Hprim. subst scores.
    destruct (entries_of_route route history); [|done].
    destruct Hmem as [Hmem _]. exfalso. apply Hmem; [|done].
    destruct (decide (route ∈ dict_keys avgs)) as [|Hnot]; [done|].
    apply dict_get_None in Hnot. congruence.
  - apply dict_get_None in Hget.
    destruct (entries_of_route route history); [done|].
    exfalso. apply Hget, Hmem. done.
Qed.

End RoutingStatsTheorems.

(** * The routing log *)

Section RouteLog.
Context {collab : Collaborators}.

(** X3: route_query always returns a route with its metadata. When the
    knowledge-base search returns, it appends exactly one entry to
    routing_history (the first 100 characters of the query, the value of the
    route, the confidence scores and the reasoning of the metadata), and the
    confidence scores are 'knowledge_base' first, followed by 'web_search'
    exactly when the knowledge-base confidence does not reach the threshold
    0.7. When the search raises, the route is FALLBACK, no score is recorded
    and the history is left as it was. *)
Theorem route_query_logs_decision query metadata st :
  ∃ route md st',
    route_query query metadata st = (Ok (route, md), st')
    ∧ match kb_search query 3 (world st) with
      | (Ok results, w) =>
          let kb_conf := _calculate_kb_confidence results query in
          world st' = w
          ∧ routing_history st'
            = routing_history st
              ++ [{| h_query := String.substring 0 100 query;
                     h_route := value route;
                     h_confidence := md_confidence_scores md;
                     h_reasoning := md_reasoning md |}]
          ∧ md_confidence_scores md
            = ("knowledge_base", kb_conf)
              :: (if ge kb_conf settings.confidence_threshold then []
                  else [("web_search", _should_use_web_search query metadata)])
      | (Raise e, w) =>
          world st' = w ∧ routing_history st' = routing_history st
          ∧ route = FALLBACK ∧ md_confidence_scores md = []
      end.
Proof.
  unfold route_query. rewrite route_query_with_unfold.
  unfold try_except, route_query_try, Py.bind, in_agent, call, eval. simpl.
  destruct (kb_search query 3 (world st)) as [[results|e] w]; simpl.
  - unfold settings.confidence_threshold.
    destruct (ge (_calculate_kb_confidence results query) 0.7); simpl.
    { by eexists _, _, _. }
    destruct (ge (_should_use_web_search query metadata) 0.5); simpl.
    + destruct (gt (_calculate_kb_confidence results query) 0.3); simpl;
        by eexists _, _, _.
    + by eexists _, _, _.
  - by eexists _, _, _.
Qed.

End RouteLog.


(** * The envelope of [process_query] *)

Lemma prefix_append (p s : string) : String.prefix p (p +:+ s) = true.
Proof.
  induction p as [|c p IH]; [by destruct s|].
  rewrite append_cons. simpl. by destruct (ascii_dec c c).
Qed.

Section Envelope.
Context {collab : Collaborators}.

Ltac run_sources :=
  unfold try_except, Py.bind, call, eval, Py.ret; simpl.

Lemma process_knowledge_base_sources query st r st' :
  _process_knowledge_base query st = (Ok r, st') → length (sources r) ≤ 1.
Proof.
  unfold _process_knowledge_base. run_sources.
  destruct (kb_search query 3 (world st)) as [[[|best rest]|e] w]; simpl;
    [(intros [= <- _]; simpl; lia)| |(intros [= <- _]; simpl; lia)].
  destruct (solve_from_knowledge best query w) as [[out|e] w']; simpl;
    [|(intros [= <- _]; simpl; lia)].
  destruct (out_solution out), (out_steps out); simpl; (intros [= <- _]; simpl; lia).
Qed.

Lemma process_web_search_sources query st r st' :
  _process_web_search query st = (Ok r, st') → length (sources r) ≤ 1.
Proof.
  unfold _process_web_search. run_sources.
  destruct (web_search query (world st)) as [[[|r0 rest]|e] w]; simpl;
    [(intros [= <- _]; simpl; lia)| |(intros [= <- _]; simpl; lia)].
  destruct (solve_from_web_search (r0 :: rest) query w) as [[out|e] w']; simpl;
    [|(intros [= <- _]; simpl; lia)].
  destruct (out_solution out), (out_steps out); simpl; (intros [= <- _]; simpl; lia).
Qed.

(** [route_query] records the route it returns in its metadata. *)
Lemma route_query_sets_route_used query metadata st route md st1 :
  route_query query metadata st = (Ok (route, md), st1) →
  md_route_used md = Some (value route).
Proof.
  unfold route_query. rewrite route_query_with_unfold.
  unfold try_except, route_query_try, Py.bind, in_agent, call, eval. simpl.
  destruct (kb_search query 3 (world st)) as [[results|e] w]; simpl.
  - unfold settings.confidence_threshold.
    destruct (ge (_calculate_kb_confidence results query) 0.7); simpl;
      [by intros [= <- <- _]|].
    destruct (ge (_should_use_web_search query metadata) 0.5); simpl;
      [destruct (gt (_calculate_kb_confidence results query) 0.3); simpl|];
      by intros [= <- <- _].
  - by intros [= <- <- _].
Qed.

(** X4: For collaborators that return values of the expected types or raise:
    route_query returns a route with its metadata, in which it recorded that
    route as route_used, and process_query returns an envelope with the
    given query whose route_used is the value of that route and whose
    routing_metadata is that metadata. The route_used of the envelope is
    never 'error': the except clause of process_query is not reached. *)
Theorem process_query_route_is_never_error query metadata st :
  ∃ route md st1 envelope st',
    route_query query metadata st = (Ok (route, md), st1)
    ∧ process_query query metadata st = (Ok envelope, st')
    ∧ resp_query envelope = query
    ∧ resp_route_used envelope = value route
    ∧ resp_routing_metadata envelope = Metadata_of_route md
    ∧ md_route_used md = Some (value route)
    ∧ resp_route_used envelope ≠ "error".
Proof.
  destruct (route_query_with_returns
              (λ results q, Ok (_calculate_kb_confidence results q))
              (λ q md, Ok (_should_use_web_search q md)) query metadata st)
    as (route & md & st1 & Hroute).
  pose proof (route_query_sets_route_used _ _ _ _ _ _ Hroute) as Hused.
  destruct md as [md_query scores reasoning fallback_used route_used].
  simpl in Hused. subst route_used.
  eexists route, _, st1.
  rewrite (process_query_dispatch _ _ _ _ _ _ Hroute).
  assert (value route ≠ "error") as Hvalue by by destruct route.
  destruct route.
  - destruct (process_knowledge_base_returns query st1) as (r & st' & ->).
    eexists _, _. split; [exact Hroute|]. split; [reflexivity|].
    done.
  - destruct (process_web_search_returns query st1) as (r & st' & ->).
    eexists _, _. split; [exact Hroute|]. split; [reflexivity|].
    done.
  - destruct (process_knowledge_base_returns query st1) as (r1 & st2 & ->).
    destruct (process_web_search_returns query st2) as (r2 & st' & ->).
    eexists _, _. split; [exact Hroute|]. split; [reflexivity|].
    done.
  - destruct (process_fallback_returns query metadata st1) as (r & st' & ->).
    eexists _, _. split; [exact Hroute|]. split; [reflexivity|].
    done.
Qed.

(** X5: When route_query decides HYBRID, the envelope of process_query has
    route_used 'hybrid', no error entry (even when the knowledge base, the
    web search or the solver raised, since _combine_results copies none), a
    solution that starts with 'Based on my knowledge base: ', and at most
    two sources. *)
Theorem hybrid_envelope_reports_no_error query metadata st md st1 :
  route_query query metadata st = (Ok (HYBRID, md), st1) →
  ∃ envelope st',
    process_query query metadata st = (Ok envelope, st')
    ∧ resp_route_used envelope = "hybrid"
    ∧ resp_error envelope = None
    ∧ String.prefix "Based on my knowledge base: " (resp_solution envelope) = true
    ∧ length (resp_sources envelope) ≤ 2.
Proof.
  intros Hroute. rewrite (process_query_dispatch _ _ _ _ _ _ Hroute).
  destruct (process_knowledge_base_returns query st1) as (r1 & st2 & Hkb).
  destruct (process_web_search_returns query st2) as (r2 & st' & Hweb).
  rewrite Hkb, Hweb. eexists _, _. split; [done|]. simpl.
  split; [done|]. split; [done|]. split.
  - destruct (_ && _); rewrite ?append_assoc; apply prefix_append.
  - rewrite length_app.
    pose proof (process_knowledge_base_sources _ _ _ _ Hkb).
    pose proof (process_web_search_sources _ _ _ _ Hweb). lia.
Qed.

End Envelope.

Lemma hybrid_envelope_reports_no_error_witness :
  ∃ envelope st',
    process_query (collab := half_known)
      "Explain the Riemann hypothesis" tt (new_agent half_known tt) = (Ok envelope, st')
    ∧ resp_route_used envelope = "hybrid"
    ∧ resp_error envelope = None
    ∧ String.prefix "Based on my knowledge base: " (resp_solution envelope) = true
    ∧ length (resp_sources envelope) ≤ 2.
Proof.
  exact (hybrid_envelope_reports_no_error (collab := half_known)
           "Explain the Riemann hypothesis" tt (new_agent half_known tt) _ _ eq_refl).
Defined.

(** * The feedback store after a sequence of submissions *)

Section Suggestions.

Ltac solve_sublist :=
  repeat first [apply sublist_nil | apply sublist_skip | apply sublist_cons].

(** What the rules of [_process_feedback_for_improvements] produce. *)
Lemma process_feedback_for_improvements_kinds entry self :
  ∃ suggestions,
    _process_feedback_for_improvements entry self
    = (Ok suggestions,
       {| feedback_storage := feedback_storage self;
          feedback_stats := feedback_stats self;
          improvement_suggestions := improvement_suggestions self ++ suggestions |})
    ∧ sublist (map kind suggestions) suggestion_kinds
    ∧ Forall (λ i, imp_route i = er_route_used (fe_response entry)) suggestions
    ∧ (suggestions = [] ↔
       (ef_rating (fe_feedback entry) <=? 2)%Z = false
       ∧ ef_correct (fe_feedback entry) = true
       ∧ ef_clear (fe_feedback entry) = true
       ∧ ef_complete (fe_feedback entry) = true
       ∧ Py.lt (er_confidence (fe_response entry)) 0.5
         && (ef_rating (fe_feedback entry) <=? 3)%Z = false).
Proof.
  unfold _process_feedback_for_improvements, Py.bind, modify, Py.ret.
  destruct (ef_rating (fe_feedback entry) <=? 2)%Z,
    (ef_correct (fe_feedback entry)), (ef_clear (fe_feedback entry)),
    (ef_complete (fe_feedback entry)),
    (Py.lt (er_confidence (fe_response entry)) 0.5
     && (ef_rating (fe_feedback entry) <=? 3)%Z);
    simpl; eexists; (split; [reflexivity|]);
    (split; [unfold suggestion_kinds, kind; simpl; solve_sublist|]);
    (split; [repeat constructor|]);
    (split; [intros Hnil; try discriminate Hnil; done
            |intros (? & ? & ? & ? & ?); try discriminate; done]).
Qed.

Lemma collect_feedback_kinds now query response fd self :
  routing_metadata_is_null response = false →
  ∃ feedback_id suggestions self',
    collect_feedback now query response fd self
      = (Ok (Collected feedback_id (length suggestions) suggestions), self')
    ∧ sublist (map kind suggestions) suggestion_kinds
    ∧ Forall (λ i, imp_route i = get (rsp_route_used response) "") suggestions
    ∧ improvement_suggestions self' = improvement_suggestions self ++ suggestions
    ∧ (suggestions = [] ↔
       (get (fd_rating fd) 0 <=? 2)%Z = false
       ∧ get (fd_correct fd) true = true
       ∧ get (fd_clear fd) true = true
       ∧ get (fd_complete fd) true = true
       ∧ Py.lt (get (rsp_confidence response) 0.0%float) 0.5
         && (get (fd_rating fd) 0 <=? 3)%Z = false).
Proof.
  intros Hnull.
  unfold collect_feedback, try_except, Py.bind at 1 2 3 4.
  unfold _generate_feedback_id, Py.bind, gets, modify, Py.ret, eval.
  set (feedback_id := "feedback_" +:+ _).
  rewrite structure_feedback_entry_outcome, Hnull.
  set (entry := entry_for feedback_id now query response fd).
  rewrite update_feedback_stats_run.
  destruct (process_feedback_for_improvements_kinds entry
              {| feedback_storage := dict_set feedback_id entry (feedback_storage self);
                 feedback_stats :=
                   fold_left (λ stats key, incr key stats) (counted_keys entry)
                             (feedback_stats self);
                 improvement_suggestions := improvement_suggestions self |})
    as (suggestions & Hrun & Hkinds & Hroute & Hnone).
  cbn [feedback_storage feedback_stats improvement_suggestions] in *.
  rewrite Hrun. unfold _save_feedback_data, Py.ret.
  by eexists _, _, _.
Qed.

(** X6: When the response holds None under 'routing_metadata',
    collect_feedback returns the error dictionary and leaves the agent as it
    was. On any other submission with entries of the expected types,
    collect_feedback returns status 'collected', and the suggestions it
    returns are a sub-sequence of (low_satisfaction, high), (correctness,
    critical), (clarity, medium), (completeness, medium),
    (confidence_accuracy, high) in this order, so at most five and each type
    at most once; each carries the route of the response, the returned count
    is their number, and they are appended to improvement_suggestions. *)
Theorem collect_feedback_suggestion_kinds now query response fd self :
  if routing_metadata_is_null response then
    collect_feedback now query response fd self
    = (Ok (Feedback_error none_has_no_get), self)
  else
    ∃ feedback_id suggestions self',
      collect_feedback now query response fd self
        = (Ok (Collected feedback_id (length suggestions) suggestions), self')
      ∧ sublist (map kind suggestions) suggestion_kinds
      ∧ Forall (λ i, imp_route i = get (rsp_route_used response) "") suggestions
      ∧ improvement_suggestions self' = improvement_suggestions self ++ suggestions.
Proof.
  destruct (routing_metadata_is_null response) eqn:Hnull;
    [by apply collect_feedback_null|].
  destruct (collect_feedback_kinds now query response fd self Hnull)
    as (feedback_id & suggestions & self' & Hrun & Hkinds & Hroute & Hall & _).
  by eexists _, _, _.
Qed.

(** X7: When the response holds None under 'routing_metadata',
    collect_feedback returns the error dictionary, which has no suggestion,
    whatever the feedback is. On any other submission it returns status
    'collected', and it returns no suggestion exactly when the rating (0
    when absent) is above 2, the flags correct, clear and complete are
    absent or true, and, if the rating is 3, the confidence of the response
    (0.0 when absent) is not below 0.5. *)
Theorem collect_feedback_no_suggestion now query response fd self :
  if routing_metadata_is_null response then
    collect_feedback now query response fd self
    = (Ok (Feedback_error none_has_no_get), self)
  else
    ∃ feedback_id suggestions self',
      collect_feedback now query response fd self
        = (Ok (Collected feedback_id (length suggestions) suggestions), self')
      ∧ (suggestions = [] ↔
         (2 < get (fd_rating fd) 0)%Z
         ∧ get (fd_correct fd) true = true
         ∧ get (fd_clear fd) true = true
         ∧ get (fd_complete fd) true = true
         ∧ (get (fd_rating fd) 0%Z = 3%Z →
            Py.lt (get (rsp_confidence response) 0.0%float) 0.5 = false)).
Proof.
  destruct (routing_metadata_is_null response) eqn:Hnull;
    [by apply collect_feedback_null|].
  destruct (collect_feedback_kinds now query response fd self Hnull)
    as (feedback_id & suggestions & self' & Hrun & _ & _ & _ & Hnone).
  eexists _, _, _. split; [exact Hrun|]. rewrite Hnone. clear.
  destruct (Py.lt _ 0.5); rewrite ?andb_true_l, ?andb_false_l;
    rewrite ?Z.leb_gt, ?Z.leb_le; split.
  - intros (? & ? & ? & ? & ?). repeat split; try done. lia.
  - intros (? & ? & ? & ? & Hthree). repeat split; try done.
    destruct (decide (get (fd_rating fd) 0%Z = 3%Z)) as [Heq|Hne]; [by apply Hthree in Heq|].
    lia.
  - intros (? & ? & ? & ? & ?). repeat split; done.
  - intros (? & ? & ? & ? & ?). repeat split; done.
Qed.

End Suggestions.

Section StoreAfterSubmissions.

(** One call of [collect_feedback] on a store whose counters are bounded. *)
Lemma collect_feedback_step sub self :
  accepted sub = true →
  counters_bounded self →
  let stored := stored_as (length (feedback_storage self)) sub in
  ∃ suggestions,
    collect_feedback (sub_now sub) (sub_query sub) (sub_response sub)
      (sub_feedback sub) self
    = (Ok (Collected stored.1 (length suggestions) suggestions),
       {| feedback_storage := feedback_storage self ++ [stored];
          feedback_stats :=
            fold_left (λ stats key, incr key stats) (counted_keys stored.2)
                      (feedback_stats self);
          improvement_suggestions := improvement_suggestions self ++ suggestions |})
    ∧ Forall (λ i, kind i ∈ suggestion_kinds) suggestions
    ∧ counters_bounded
        {| feedback_storage := feedback_storage self ++ [stored];
           feedback_stats :=
             fold_left (λ stats key, incr key stats) (counted_keys stored.2)
                       (feedback_stats self);
           improvement_suggestions := improvement_suggestions self ++ suggestions |}.
Proof.
  intros Hnull%negb_true_iff Hbounded stored.
  destruct (collect_feedback_run (sub_now sub) (sub_query sub) (sub_response sub)
              (sub_feedback sub) self Hnull) as [suggestions Hrun].
  destruct (collect_feedback_kinds (sub_now sub) (sub_query sub) (sub_response sub)
              (sub_feedback sub) self Hnull)
    as (feedback_id & suggestions' & self' & Hrun' & Hkinds & _).
  rewrite Hrun in Hrun'. injection Hrun' as _ _ <- _.
  pose proof (fresh_feedback_id (now_strftime (sub_now sub)) self Hbounded) as Hfresh.
  rewrite (dict_set_fresh _ _ _ Hfresh) in Hrun.
  exists suggestions. split; [exact Hrun|]. split.
  - apply Forall_forall. intros i Hi.
    apply (elem_of_sublist (map kind suggestions)); [|done].
    by apply list_elem_of_fmap_2.
  - unfold counters_bounded, dict_keys. cbn [feedback_storage].
    rewrite fmap_app, length_app, Forall_app. simpl. split.
    + eapply Forall_impl; [exact Hbounded|].
      intros id (n & Hn & Hle). exists n. split; [done|lia].
    + apply Forall_singleton. eexists. split; [apply counter_of_feedback_id|lia].
Qed.

(** A sequence of calls on such a store: what it adds to the store, to the
    counters and to the suggestions.  The submissions that are not accepted
    add nothing. *)
Lemma collect_all_run subs : ∀ self,
  counters_bounded self →
  let stored :=
    imap (λ i, stored_as (length (feedback_storage self) + i))
         (List.filter accepted subs) in
  feedback_storage (collect_all subs self).2 = feedback_storage self ++ stored
  ∧ feedback_stats (collect_all subs self).2
    = fold_left (λ stats key, incr key stats) (flat_map counted_keys stored.*2)
                (feedback_stats self)
  ∧ (∃ added,
       improvement_suggestions (collect_all subs self).2
       = improvement_suggestions self ++ added
       ∧ Forall (λ i, kind i ∈ suggestion_kinds) added)
  ∧ counters_bounded (collect_all subs self).2.
Proof.
  induction subs as [|sub subs IH]; intros self Hbounded.
  - simpl. rewrite !app_nil_r. split; [done|]. split; [done|]. split; [|done].
    exists []. by rewrite app_nil_r.
  - cbn [List.filter]. destruct (accepted sub) eqn:Haccepted.
    2: { apply negb_false_iff in Haccepted. cbn [collect_all].
         rewrite (collect_feedback_null _ _ _ _ _ Haccepted).
         specialize (IH self Hbounded).
         by destruct (collect_all subs self) as [rs self'']. }
    destruct (collect_feedback_step sub self Haccepted Hbounded)
      as (suggestions & Hrun & Hkinds & Hbounded').
    cbn [collect_all]. rewrite Hrun.
    specialize (IH _ Hbounded').
    destruct (collect_all subs _) as [rs self''] eqn:Hall.
    cbn [snd feedback_storage feedback_stats improvement_suggestions] in *.
    destruct IH as (Hstore & Hstats & (added & Hadded & Hadded_kinds) & Hfinal).
    rewrite imap_cons, Nat.add_0_r.
    assert (imap (λ i, stored_as (length (feedback_storage self ++
                [stored_as (length (feedback_storage self)) sub]) + i))
                 (List.filter accepted subs)
            = imap ((λ i, stored_as (length (feedback_storage self) + i)) ∘ S)
                   (List.filter accepted subs))
      as Himap.
    { apply imap_ext. intros i x _. simpl. rewrite length_app. simpl.
      f_equal. lia. }
    rewrite Himap in Hstore, Hstats.
    split; [by rewrite Hstore, <- app_assoc|]. split.
    + rewrite Hstats, fmap_cons. cbn [flat_map]. by rewrite fold_left_app.
    + split; [|done]. exists (suggestions ++ added).
      rewrite Hadded, <- app_assoc. split; [done|]. by apply Forall_app.
Qed.

(** What each call of such a sequence returns: the id of the next counter
    for an accepted submission, the error dictionary for another one. *)
Lemma collect_all_lookup subs : ∀ self i sub,
  counters_bounded self →
  subs !! i = Some sub →
  let n := length (feedback_storage self)
           + length (List.filter accepted (take i subs)) in
  let feedback_id := feedback_id_of (now_strftime (sub_now sub)) (n + 1) in
  if accepted sub then
    ∃ k suggestions,
      (collect_all subs self).1 !! i = Some (Ok (Collected feedback_id k suggestions))
  else
    (collect_all subs self).1 !! i = Some (Ok (Feedback_error none_has_no_get)).
Proof.
  induction subs as [|sub0 subs IH]; intros self i sub Hbounded Hsub; [done|].
  cbn [collect_all]. destruct (accepted sub0) eqn:Haccepted0.
  - destruct (collect_feedback_step sub0 self Haccepted0 Hbounded)
      as (suggestions & Hrun & _ & Hbounded').
    rewrite Hrun.
    destruct i as [|i].
    + injection Hsub as <-. rewrite Haccepted0. simpl.
      destruct (collect_all subs _) as [rs self'']. simpl.
      rewrite Nat.add_0_r. by eexists _, _.
    + specialize (IH _ i sub Hbounded' Hsub).
      destruct (collect_all subs _) as [rs self'']. cbn [fst lookup list_lookup] in *.
      cbn [take List.filter]. rewrite Haccepted0.
      cbn [feedback_storage length] in IH. rewrite length_app in IH. simpl in IH.
      replace (length (feedback_storage self)
               + length (sub0 :: List.filter accepted (take i subs)))
        with (length (feedback_storage self) + 1
              + length (List.filter accepted (take i subs))) by (simpl; lia).
      exact IH.
  - apply negb_false_iff in Haccepted0 as Hnull.
    rewrite (collect_feedback_null _ _ _ _ _ Hnull).
    destruct i as [|i].
    + injection Hsub as <-. rewrite Haccepted0.
      by destruct (collect_all subs self) as [rs self''].
    + specialize (IH self i sub Hbounded Hsub).
      destruct (collect_all subs self) as [rs self'']. cbn [fst lookup list_lookup] in *.
      cbn [take List.filter]. by rewrite Haccepted0.
Qed.

(** The place of an element among those that pass a test. *)
Lemma filter_lookup_take {A} (P : A → bool) (l : list A) i x :
  l !! i = Some x → P x = true →
  List.filter P l !! length (List.filter P (take i l)) = Some x.
Proof.
  intros Hx HP. revert i Hx.
  induction l as [|y l IH]; intros [|i] Hx; try done.
  - injection Hx as ->. cbn [take List.filter length]. by rewrite HP.
  - cbn [take List.filter]. destruct (P y); [|by apply IH].
    cbn [length]. by apply IH.
Qed.

Lemma counters_bounded_fresh : counters_bounded fresh_agent.
Proof. apply Forall_nil_2. Qed.

End StoreAfterSubmissions.

Section Counters.

Lemma occurrences_app key keys1 keys2 :
  occurrences key (keys1 ++ keys2) = occurrences key keys1 + occurrences key keys2.
Proof. unfold occurrences. by rewrite List.filter_app, length_app. Qed.

Lemma occurrences_cons key k keys :
  occurrences key (k :: keys)
  = (if String.eqb key k then 1 else 0) + occurrences key keys.
Proof. unfold occurrences. simpl. by destruct (String.eqb key k). Qed.

Lemma times_counted_cons key entry entries :
  times_counted key (entry :: entries)
  = occurrences key (counted_keys entry) + times_counted key entries.
Proof. unfold times_counted. cbn [flat_map]. apply occurrences_app. Qed.

(** A counter that each entry increments at most once, on a condition,
    counts the entries that meet the condition. *)
Lemma times_counted_filter key (counts : feedback_entry → bool) entries :
  (∀ entry, occurrences key (counted_keys entry) = if counts entry then 1 else 0) →
  times_counted key entries = length (List.filter counts entries).
Proof.
  intros Hkey. induction entries as [|entry entries IH]; [done|].
  rewrite times_counted_cons, Hkey, IH. simpl. by destruct (counts entry).
Qed.

Lemma rating_key_shape (s : string) :
  "rating_" +:+ s = String "r" (String "a" ("ting_" +:+ s)).
Proof. reflexivity. Qed.

Ltac count_keys :=
  unfold counted_keys, occurrences;
  rewrite !route_key_shape, ?rating_key_shape;
  repeat match goal with
         | |- context [Z.leb ?a ?b] => destruct (Z.leb a b); cbn [andb negb]
         | |- context [if ?b then _ else _] => destruct b
         end;
  reflexivity.

Lemma occurrences_total_feedback entry :
  occurrences "total_feedback" (counted_keys entry) = 1.
Proof. count_keys. Qed.

Lemma occurrences_high_satisfaction entry :
  occurrences "high_satisfaction" (counted_keys entry)
  = if (4 <=? ef_rating (fe_feedback entry))%Z then 1 else 0.
Proof. count_keys. Qed.

Lemma occurrences_low_satisfaction entry :
  occurrences "low_satisfaction" (counted_keys entry)
  = if (ef_rating (fe_feedback entry) <=? 2)%Z && negb (4 <=? ef_rating (fe_feedback entry))%Z
    then 1 else 0.
Proof. count_keys. Qed.

Lemma occurrences_clarity_issues entry :
  occurrences "clarity_issues" (counted_keys entry)
  = if ef_clear (fe_feedback entry) then 0 else 1.
Proof. count_keys. Qed.

Lemma occurrences_completeness_issues entry :
  occurrences "completeness_issues" (counted_keys entry)
  = if ef_complete (fe_feedback entry) then 0 else 1.
Proof. count_keys. Qed.

End Counters.

Section RatingKeys.

Lemma to_int_not_nil z :
  Z.to_int z ≠ Decimal.Pos Decimal.Nil ∧ Z.to_int z ≠ Decimal.Neg Decimal.Nil.
Proof.
  destruct z as [|p|p]; simpl; split; try done;
    intros [= Hp]; by apply DecimalPos.Unsigned.to_uint_nonnil in Hp.
Qed.

Lemma str_of_Z_inj a b : str_of_Z a = str_of_Z b → a = b.
Proof.
  unfold str_of_Z. intros Heq.
  destruct (to_int_not_nil a) as [Ha1 Ha2], (to_int_not_nil b) as [Hb1 Hb2].
  pose proof (NilZero.isi _ Ha1 Ha2) as Hia.
  pose proof (NilZero.isi _ Hb1 Hb2) as Hib.
  rewrite Heq, Hib in Hia. injection Hia as Hia. symmetry. by apply to_int_inj.
Qed.

Lemma eqb_append_prefix (p a b : string) :
  String.eqb (p +:+ a) (p +:+ b) = String.eqb a b.
Proof.
  induction p as [|c p IH]; [done|].
  rewrite !append_cons. simpl. by rewrite Ascii.eqb_refl.
Qed.

Lemma eqb_rating_key a b :
  String.eqb ("rating_" +:+ str_of_Z a) ("rating_" +:+ str_of_Z b) = bool_decide (a = b).
Proof.
  rewrite eqb_append_prefix. destruct (String.eqb_spec (str_of_Z a) (str_of_Z b)) as [Heq|Hne].
  - apply str_of_Z_inj in Heq. by rewrite bool_decide_eq_true_2.
  - rewrite bool_decide_eq_false_2; [done|]. by intros ->.
Qed.

Lemma occurrences_rating i entry :
  occurrences ("rating_" +:+ str_of_Z i) (counted_keys entry)
  = if bool_decide (i = ef_rating (fe_feedback entry)) then 1 else 0.
Proof.
  unfold counted_keys. rewrite occurrences_app, !occurrences_cons, eqb_rating_key.
  unfold occurrences.
  rewrite !route_key_shape, (rating_key_shape (str_of_Z i)).
  destruct (bool_decide _);
    repeat match goal with
           | |- context [Z.leb ?a ?b] => destruct (Z.leb a b)
           | |- context [if ?b then _ else _] =>
               lazymatch b with
               | String.eqb _ _ => fail
               | _ => destruct b
               end
           end; reflexivity.
Qed.

End RatingKeys.

Section AfterSubmissions.

Lemma agent_after_run subs :
  feedback_storage (agent_after subs) = imap stored_as (List.filter accepted subs)
  ∧ (∀ key, stat (feedback_stats (agent_after subs)) key
            = Z.of_nat (times_counted key (entries_after subs)))
  ∧ Forall (λ i, kind i ∈ suggestion_kinds) (improvement_suggestions (agent_after subs)).
Proof.
  destruct (collect_all_run subs fresh_agent counters_bounded_fresh)
    as (Hstore & Hstats & (added & Hadded & Hkinds) & _).
  simpl in Hstore, Hstats, Hadded. unfold agent_after, entries_after, agent_after.
  split; [exact Hstore|]. split.
  - intros key. rewrite Hstats, stat_fold_incr, Hstore. unfold dict_values. done.
  - by rewrite Hadded.
Qed.

Lemma dict_get_elem_of {V} k (v : V) d :
  NoDup (dict_keys d) → (k, v) ∈ d → dict_get k d = Some v.
Proof.
  unfold dict_keys. induction d as [|[k' v'] d IH]; [by intros _ ?%elem_of_nil|].
  rewrite fmap_cons. intros [Hnotin Hnodup]%NoDup_cons [Heq|Hin]%elem_of_cons; simpl.
  - injection Heq as <- <-. by rewrite String.eqb_refl.
  - destruct (String.eqb_spec k' k) as [->|Hne]; [|by apply IH].
    exfalso. apply Hnotin. by apply (list_elem_of_fmap_2 fst _ (k, v)).
Qed.

Lemma agent_after_keys subs :
  NoDup (dict_keys (feedback_storage (agent_after subs)))
  ∧ dict_keys (feedback_storage (agent_after subs))
    = returned_ids (collect_all subs fresh_agent).1.
Proof.
  destruct (collect_all_keys subs fresh_agent counters_bounded_fresh)
    as (Hkeys & _ & Hnodup).
  split; [apply Hnodup, NoDup_nil_2|exact Hkeys].
Qed.

(** X8: Round trip of collect_feedback and get_feedback_by_id, in a sequence
    of submissions to an agent that starts with an empty store: a call whose
    response holds None under 'routing_metadata' returns the error
    dictionary; every other call returns the id feedback_<timestamp>_<n+1 on
    four digits>, n being the number of earlier calls that returned an id,
    and get_feedback_by_id on that id gives the entry built from the
    arguments of that call (no later call overwrote it). get_feedback_by_id
    finds an entry exactly for the ids that the calls returned. *)
Theorem stored_feedback_is_retrievable subs i sub :
  subs !! i = Some sub →
  let feedback_id :=
    feedback_id_of (now_strftime (sub_now sub))
                   (length (List.filter accepted (take i subs)) + 1) in
  (if accepted sub then
     (∃ k suggestions,
        (collect_all subs fresh_agent).1 !! i
        = Some (Ok (Collected feedback_id k suggestions)))
     ∧ ∃ entry,
         structure_feedback_entry feedback_id (sub_now sub) (sub_query sub)
           (sub_response sub) (sub_feedback sub) = Ok entry
         ∧ get_feedback_by_id (agent_after subs) feedback_id = Some entry
   else
     (collect_all subs fresh_agent).1 !! i
     = Some (Ok (Feedback_error none_has_no_get)))
  ∧ (∀ other, is_Some (get_feedback_by_id (agent_after subs) other)
              ↔ other ∈ returned_ids (collect_all subs fresh_agent).1).
Proof.
  intros Hsub feedback_id.
  destruct (agent_after_run subs) as (Hstore & _ & _).
  destruct (agent_after_keys subs) as (Hnodup & Hkeys).
  pose proof (collect_all_lookup subs fresh_agent i sub counters_bounded_fresh Hsub)
    as Hcall.
  cbn [fresh_agent feedback_storage length Nat.add] in Hcall. fold feedback_id in Hcall.
  split.
  - destruct (accepted sub) eqn:Haccepted; [|exact Hcall].
    split; [exact Hcall|].
    exists (entry_for feedback_id (sub_now sub) (sub_query sub) (sub_response sub)
              (sub_feedback sub)).
    split.
    + rewrite structure_feedback_entry_outcome.
      by apply negb_true_iff in Haccepted as ->.
    + unfold get_feedback_by_id. apply dict_get_elem_of; [done|].
      rewrite Hstore.
      apply (elem_of_lookup_imap_2 stored_as (List.filter accepted subs) sub
               (length (List.filter accepted (take i subs)))).
      by apply filter_lookup_take.
  - intros other. rewrite <- Hkeys. unfold get_feedback_by_id.
    rewrite <- not_eq_None_Some, dict_get_None.
    split; [apply dec_stable|by intros ? ?].
Qed.

Lemma stored_feedback_is_retrievable_witness :
  (∃ k suggestions,
     (collect_all three_submissions fresh_agent).1 !! 2
     = Some (Ok (Collected "feedback_20240101_120000_0002" k suggestions)))
  ∧ ∃ entry,
      structure_feedback_entry "feedback_20240101_120000_0002" noon
        "What is the derivative of x^2?" (response_with_confidence None)
        no_feedback_data = Ok entry
      ∧ get_feedback_by_id (agent_after three_submissions)
          "feedback_20240101_120000_0002" = Some entry.
Proof.
  exact (proj1 (stored_feedback_is_retrievable three_submissions 2 _ eq_refl)).
Defined.

Lemma total_feedback_after subs :
  stat (feedback_stats (agent_after subs)) "total_feedback"
  = Z.of_nat (length (entries_after subs)).
Proof.
  destruct (agent_after_run subs) as (_ & Hstats & _).
  rewrite Hstats, (times_counted_filter _ (λ _, true))
    by apply occurrences_total_feedback.
  f_equal. generalize (entries_after subs).
  intros l. induction l as [|x l IH]; simpl; [done|by rewrite IH].
Qed.

Lemma rating_totals_of_entries (stats : gmap string Z) entries :
  (∀ key, stat stats key = Z.of_nat (times_counted key entries)) →
  rating_totals stats
  = (foldr Z.add 0%Z (ratings_in_range entries),
     Z.of_nat (length (ratings_in_range entries))).
Proof.
  intros Hstats. unfold rating_totals. cbn [fold_left fst snd].
  rewrite !Hstats.
  rewrite !(times_counted_filter _
              (λ entry, bool_decide (_ = ef_rating (fe_feedback entry))))
    by (intros entry; apply occurrences_rating).
  clear. unfold ratings_in_range.
  induction entries as [|entry entries IH]; [done|].
  injection IH as IH1 IH2. cbn [List.filter map].
  set (r := ef_rating (fe_feedback entry)) in *.
  destruct (Z.leb_spec 1 r), (Z.leb_spec r 5); cbn [andb foldr length];
    repeat case_bool_decide; cbn [length]; f_equal; lia.
Qed.

(** X9: After a sequence of submissions to an agent that starts with an
    empty store and zero counters, the store holds one entry for each
    submission whose response does not hold None under 'routing_metadata'
    (the others are refused and leave no trace), and the counters agree with
    the store: total_feedback is the number of entries, high_satisfaction
    the number of entries rated 4 or more, low_satisfaction the number rated
    2 or less, clarity_issues and completeness_issues the numbers of entries
    whose clear, respectively complete, flag is false. *)
Theorem counters_count_the_stored_entries subs :
  let stats := feedback_stats (agent_after subs) in
  let entries := entries_after subs in
  let number_of (counts : entry_feedback → bool) :=
    Z.of_nat (length (List.filter (λ entry, counts (fe_feedback entry)) entries)) in
  length entries = length (List.filter accepted subs)
  ∧ stat stats "total_feedback" = Z.of_nat (length entries)
  ∧ stat stats "high_satisfaction" = number_of (λ f, (4 <=? ef_rating f)%Z)
  ∧ stat stats "low_satisfaction" = number_of (λ f, (ef_rating f <=? 2)%Z)
  ∧ stat stats "clarity_issues" = number_of (λ f, negb (ef_clear f))
  ∧ stat stats "completeness_issues" = number_of (λ f, negb (ef_complete f)).
Proof.
  intros stats entries number_of. subst stats entries number_of.
  destruct (agent_after_run subs) as (Hstore & Hstats & _).
  split; [|split; [|split; [|split; [|split]]]].
  - unfold entries_after, dict_values. by rewrite Hstore, length_fmap, length_imap.
  - rewrite Hstats, (times_counted_filter _ (λ _, true)).
    + f_equal. generalize (entries_after subs). clear.
      intros l. induction l as [|x l IH]; simpl; [done|by rewrite IH].
    + apply occurrences_total_feedback.
  - rewrite Hstats.
    by rewrite (times_counted_filter _ (λ e, (4 <=? ef_rating (fe_feedback e))%Z))
      by apply occurrences_high_satisfaction.
  - rewrite Hstats.
    rewrite (times_counted_filter _ (λ e, (ef_rating (fe_feedback e) <=? 2)%Z)); [done|].
    intros entry. rewrite occurrences_low_satisfaction.
    destruct (Z.leb_spec (ef_rating (fe_feedback entry)) 2),
      (Z.leb_spec 4 (ef_rating (fe_feedback entry))); simpl; try done. lia.
  - rewrite Hstats.
    rewrite (times_counted_filter _ (λ e, negb (ef_clear (fe_feedback e)))); [done|].
    intros entry. rewrite occurrences_clarity_issues. by destruct (ef_clear _).
  - rewrite Hstats.
    rewrite (times_counted_filter _ (λ e, negb (ef_complete (fe_feedback e)))); [done|].
    intros entry. rewrite occurrences_completeness_issues. by destruct (ef_complete _).
Qed.

(** X10: After a sequence of submissions to an agent that starts with an
    empty store and zero counters, _calculate_average_rating is the mean of
    the stored ratings that lie between 1 and 5 (their sum divided by their
    number, as floats), and 0.0 when there is none: a rating outside 1..5,
    such as the 0 of a submission without rating, enters neither the sum nor
    the count. *)
Theorem average_rating_is_over_ratings_in_range subs :
  let ratings := ratings_in_range (entries_after subs) in
  rating_totals (feedback_stats (agent_after subs))
  = (foldr Z.add 0%Z ratings, Z.of_nat (length ratings))
  ∧ _calculate_average_rating (agent_after subs)
    = match ratings with
      | [] => Ok 0.0%float
      | _ :: _ => Ok (float_of_Z (foldr Z.add 0%Z ratings)
                      / float_of_Z (Z.of_nat (length ratings)))%float
      end.
Proof.
  intros ratings. subst ratings.
  destruct (agent_after_run subs) as (_ & Hstats & _).
  pose proof (rating_totals_of_entries _ _ Hstats) as Htotals.
  split; [exact Htotals|].
  unfold _calculate_average_rating. rewrite Htotals.
  destruct (ratings_in_range (entries_after subs)) as [|r ratings]; [done|].
  unfold truediv. simpl length.
  destruct (Z.ltb_spec 0 (Z.of_nat (S (length ratings)))); [|lia].
  destruct (Z.eqb_spec (Z.of_nat (S (length ratings))) 0); [lia|done].
Qed.

End AfterSubmissions.

(** * The analysis of the feedback *)

Section Analysis.
Local Open Scope Z_scope.

Lemma truediv_nonzero a b :
  b ≠ 0 → truediv a b = Ok (float_of_Z a / float_of_Z b)%float.
Proof. intros Hb. unfold truediv. by destruct (Z.eqb_spec b 0). Qed.

Lemma calculate_average_rating_returns self :
  ∃ average, _calculate_average_rating self = Ok average.
Proof.
  unfold _calculate_average_rating.
  destruct (rating_totals (feedback_stats self)) as [total_ratings total_count].
  destruct (Z.ltb_spec 0 total_count); [|by eexists].
  rewrite truediv_nonzero by lia. by eexists.
Qed.

(** The row of a route with a positive total. *)
Lemma route_performance_of_rows stats (names : list string) :
  ∃ rows,
    route_performance_of stats names = Ok rows
    ∧ sublist (dict_keys rows) names
    ∧ (∀ route, route ∈ dict_keys rows
                ↔ route ∈ names ∧ 0 < stat stats ("route_" +:+ route +:+ "_total"))
    ∧ Forall (λ row,
        let total := stat stats ("route_" +:+ row.1 +:+ "_total") in
        let helpful := stat stats ("route_" +:+ row.1 +:+ "_helpful") in
        let correct := stat stats ("route_" +:+ row.1 +:+ "_correct") in
        rp_total_usage row.2 = total
        ∧ rp_helpful_rate row.2 = (float_of_Z helpful / float_of_Z total)%float
        ∧ rp_correct_rate row.2 = (float_of_Z correct / float_of_Z total)%float
        ∧ rp_effectiveness_score row.2
          = (float_of_Z (helpful + correct) / float_of_Z (2 * total))%float) rows.
Proof.
  induction names as [|route names (rows & IH & Hsub & Hmem & Hrows)].
  { exists []. split; [done|]. split; [done|]. split; [|done].
    intros route. split; [by intros ?%elem_of_nil|by intros [?%elem_of_nil _]]. }
  cbn [route_performance_of]. rewrite IH.
  destruct (Z.ltb_spec 0 (stat stats ("route_" +:+ route +:+ "_total"))) as [Hpos|Hzero].
  - rewrite !truediv_nonzero by lia. eexists. split; [reflexivity|].
    unfold dict_keys in *. simpl. split; [by apply sublist_skip|]. split.
    + intros r. rewrite !elem_of_cons, Hmem. split.
      * intros [->|[? ?]]; [by split; [left|]|by split; [right|]].
      * intros [[->|?] ?]; [by left|by right].
    + by apply Forall_cons.
  - exists rows. split; [done|]. split; [by apply sublist_cons|]. split; [|done].
    intros r. rewrite elem_of_cons, Hmem. split.
    + intros [? ?]. by split; [right|].
    + intros [[->|?] ?]; [lia|done].
Qed.

(** [long_true_divide] raises on a zero divisor and on a quotient beyond the
    range of the floats only, and the latter needs an integer of 2^53 or
    more. *)
Lemma long_true_divide_outcome a b :
  b ≠ 0 →
  match long_true_divide a b with
  | Ok _ => True
  | Raise e =>
      e = "integer division result too large for a float"
      ∧ (2 ^ 53 <= Z.abs a ∨ 2 ^ 53 <= Z.abs b)
  end.
Proof.
  intros Hb. unfold long_true_divide. destruct (Z.eqb_spec b 0); [done|].
  destruct (Z.ltb_spec (Z.abs a) (2 ^ 53)), (Z.ltb_spec (Z.abs b) (2 ^ 53));
    cbn [andb]; try done;
    destruct (SpecFloat.SFdiv _ _ _ _); try done; (split; [done|]); lia.
Qed.

Lemma long_true_divide_small a b :
  Z.abs a < 2 ^ 53 → Z.abs b < 2 ^ 53 → long_true_divide a b = truediv a b.
Proof.
  intros Ha Hb. unfold long_true_divide, truediv. destruct (Z.eqb_spec b 0); [done|].
  by destruct (Z.ltb_spec (Z.abs a) (2 ^ 53)), (Z.ltb_spec (Z.abs b) (2 ^ 53));
    try lia.
Qed.

(** What [_analyze_recent_trends] gives: it raises only when the mean of the
    last ratings is beyond the range of the floats. *)
Lemma analyze_recent_trends_outcome self :
  let recent :=
    map (λ f, ef_rating (fe_feedback f))
        (last_n 20 (dict_values (feedback_storage self))) in
  let mean := long_true_divide (fold_left Z.add recent 0) (Z.of_nat (length recent)) in
  match _analyze_recent_trends self with
  | Ok (Trends_message message) =>
      feedback_storage self = [] ∧ message = "No recent feedback available"
  | Ok (Trends_report recent_average overall_average trend count) =>
      count = Nat.min 20 (length (feedback_storage self))
      ∧ (0 < count)%nat
      ∧ _calculate_average_rating self = Ok overall_average
      ∧ mean = Ok recent_average
      ∧ trend = (if Py.gt recent_average overall_average then "improving"
                 else if Py.lt recent_average overall_average then "declining"
                 else "stable")
  | Raise e =>
      feedback_storage self ≠ []
      ∧ e = "integer division result too large for a float"
      ∧ mean = Raise e
      ∧ 2 ^ 53 <= Z.abs (fold_left Z.add recent 0)
  end.
Proof.
  intros recent mean. subst recent mean. unfold _analyze_recent_trends.
  destruct (last_n_suffix 20 (dict_values (feedback_storage self)))
    as (older & Hsplit & Hlen).
  unfold dict_values in Hlen at 2. rewrite length_fmap in Hlen.
  destruct (last_n 20 (dict_values (feedback_storage self))) as [|f recent] eqn:Hrecent.
  - split; [|done].
    simpl in Hlen. destruct (feedback_storage self); [done|]. simpl in Hlen. lia.
  - destruct (calculate_average_rating_returns self) as [overall Hoverall].
    rewrite Hoverall.
    set (ratings := map (λ f, ef_rating (fe_feedback f)) (f :: recent)).
    assert (length ratings = Nat.min 20 (length (feedback_storage self))) as Hcount
      by (subst ratings; by rewrite length_map, <- Hlen).
    assert (0 < length ratings)%nat as Hpos by (subst ratings; simpl; lia).
    pose proof (long_true_divide_outcome (fold_left Z.add ratings 0)
                  (Z.of_nat (length ratings))) as Hdiv.
    destruct (long_true_divide _ _) as [recent_average|e].
    + split; [exact Hlen|]. split; [simpl; lia|]. done.
    + destruct Hdiv as [-> Hbig]; [lia|].
      split; [intros Hnil; by rewrite Hnil in Hrecent|]. split; [done|]. split; [done|].
      destruct Hbig as [Hbig|Hbig]; [done|].
      assert (2 ^ 53 = 9007199254740992) as Hpow by reflexivity.
      rewrite Hpow in Hbig. lia.
Qed.

(** X11: After any sequence of submissions to an agent that starts with an
    empty store, get_feedback_analysis never divides by zero. It returns the
    message 'No feedback data available yet' exactly when no entry is
    stored. It returns its error dictionary only when the mean of the last
    20 stored ratings is too large for a float (the error is the text of
    that OverflowError), which needs ratings whose sum is at least 2^53 in
    absolute value. Otherwise it returns the report: its total is the number
    of stored entries, its four rates are the counters high_satisfaction,
    low_satisfaction, clarity_issues and completeness_issues divided by that
    number, and the average rating, the route performance, the priorities
    and the trends are those of the helper methods. *)
Theorem get_feedback_analysis_outcome subs :
  let self := agent_after subs in
  let entries := entries_after subs in
  let total := Z.of_nat (length entries) in
  let recent := map (λ f, ef_rating (fe_feedback f)) (last_n 20 entries) in
  let rate key :=
    (float_of_Z (stat (feedback_stats self) key) / float_of_Z total)%float in
  match (get_feedback_analysis self).1 with
  | Ok (Analysis_message message) =>
      entries = [] ∧ message = "No feedback data available yet"
  | Ok (Analysis_report total_feedback average high low rows clarity completeness
                        priorities trends) =>
      entries ≠ [] ∧ total_feedback = total
      ∧ _calculate_average_rating self = Ok average
      ∧ high = rate "high_satisfaction" ∧ low = rate "low_satisfaction"
      ∧ clarity = rate "clarity_issues" ∧ completeness = rate "completeness_issues"
      ∧ _analyze_route_performance self = Ok rows
      ∧ priorities = _prioritize_improvements self
      ∧ _analyze_recent_trends self = Ok trends
  | Ok (Analysis_error e) =>
      entries ≠ []
      ∧ e = "integer division result too large for a float"
      ∧ long_true_divide (fold_left Z.add recent 0) (Z.of_nat (length recent))
        = Raise e
      ∧ 2 ^ 53 <= Z.abs (fold_left Z.add recent 0)
  | Raise _ => False
  end.
Proof.
  intros self entries total recent rate. subst self entries total recent rate.
  pose proof (total_feedback_after subs) as Htotal.
  pose proof (analyze_recent_trends_outcome (agent_after subs)) as Htrends.
  cbv zeta in Htrends. fold (entries_after subs) in Htrends.
  unfold get_feedback_analysis, try_except, Py.bind, gets, eval, Py.ret.
  rewrite Htotal.
  destruct (Z.eqb_spec (Z.of_nat (length (entries_after subs))) 0) as [Hzero|Hpos].
  { simpl. split; [|done]. destruct (entries_after subs); [done|simpl in Hzero; lia]. }
  assert (entries_after subs ≠ []) as Hentries
    by (intros Hnil; by rewrite Hnil in Hpos).
  destruct (calculate_average_rating_returns (agent_after subs)) as [average Haverage].
  destruct (route_performance_of_rows (feedback_stats (agent_after subs)) routes)
    as (rows & Hrows & _).
  unfold _analyze_route_performance at 1. unfold id.
  rewrite Haverage, Hrows, !truediv_nonzero by done.
  destruct (_analyze_recent_trends (agent_after subs)) as [trends|e]; simpl.
  - repeat split; done.
  - by destruct Htrends as (_ & -> & Hmean & Hbig).
Qed.

(** X12: _analyze_route_performance never divides by zero: it has a row
    exactly for those of the routes knowledge_base, web_search, hybrid,
    fallback whose counter route_<route>_total is positive, in that order,
    and the total_usage of a row is that counter. *)
Theorem route_performance_rows self :
  ∃ rows,
    _analyze_route_performance self = Ok rows
    ∧ sublist (dict_keys rows) routes
    ∧ (∀ route,
         route ∈ dict_keys rows
         ↔ route ∈ routes
           ∧ 0 < stat (feedback_stats self) ("route_" +:+ route +:+ "_total"))
    ∧ Forall (λ row,
        rp_total_usage row.2
        = stat (feedback_stats self) ("route_" +:+ row.1 +:+ "_total")) rows.
Proof.
  destruct (route_performance_of_rows (feedback_stats self) routes)
    as (rows & Hrows & Hsub & Hmem & Hall).
  exists rows. split; [done|]. split; [done|]. split; [done|].
  eapply Forall_impl; [exact Hall|]. by intros row (? & _).
Qed.

End Analysis.

(** * Priorities of the improvements *)

Section SortDescending.
Context {A : Type} (le : A → A → bool) (P : A → Prop).
Hypothesis le_total : ∀ a b, P a → P b → le a b = false → le b a = true.
Hypothesis le_trans : ∀ a b c,
  P a → P b → P c → le a b = true → le b c = true → le a c = true.

Lemma insert_descending_Permutation x l : insert_descending le x l ≡ₚ x :: l.
Proof.
  induction l as [|y l IH]; simpl; [done|].
  destruct (le y x); [done|]. rewrite IH. apply Permutation_swap.
Qed.

Lemma sort_descending_Permutation l : sort_descending le l ≡ₚ l.
Proof.
  unfold sort_descending. induction l as [|x l IH]; simpl; [done|].
  by rewrite insert_descending_Permutation, IH.
Qed.

Lemma insert_descending_sorted x l :
  P x → Forall P l →
  StronglySorted (λ a b, le b a = true) l →
  StronglySorted (λ a b, le b a = true) (insert_descending le x l).
Proof.
  intros Hx. induction l as [|y l IH]; simpl; intros HP Hsorted;
    [by repeat constructor|].
  apply Forall_cons_1 in HP as [Hy HP].
  apply StronglySorted_inv in Hsorted as [Hsorted Hall].
  destruct (le y x) eqn:Hyx.
  - apply SSorted_cons; [by apply SSorted_cons|].
    apply Forall_cons. split; [done|].
    rewrite Forall_forall in Hall, HP. apply Forall_forall. intros z Hz.
    apply (le_trans z y x); auto.
  - apply SSorted_cons; [by apply IH|].
    rewrite insert_descending_Permutation. apply Forall_cons. split; [|done].
    by apply le_total.
Qed.

Lemma sort_descending_sorted l :
  Forall P l → StronglySorted (λ a b, le b a = true) (sort_descending le l).
Proof.
  unfold sort_descending. induction l as [|x l IH]; simpl; [constructor|].
  intros [Hx HP]%Forall_cons_1. apply insert_descending_sorted; [done| |by apply IH].
  fold (sort_descending le l). by rewrite sort_descending_Permutation.
Qed.

End SortDescending.

Lemma StronglySorted_weaken {A} (R1 R2 : A → A → Prop) l :
  (∀ x y, R1 x y → R2 x y) → StronglySorted R1 l → StronglySorted R2 l.
Proof.
  intros Himpl. induction 1 as [|x l Hsorted IH Hall]; constructor; [done|].
  eapply Forall_impl; [exact Hall|]. intros y. apply Himpl.
Qed.

Section Prioritize.

Lemma sorted_by_count_sort_descending l :
  sorted_by_count l = sort_descending (λ a b, (a.2 <=? b.2)%nat) l.
Proof.
  unfold sorted_by_count, sort_descending.
  induction l as [|x l IH]; simpl; [done|]. rewrite IH.
  generalize (foldr (insert_descending (λ a b, (a.2 <=? b.2)%nat)) [] l).
  intros k. induction k as [|y k IHk]; simpl; [done|]. by rewrite IHk.
Qed.

Lemma sorted_by_count_Permutation l : sorted_by_count l ≡ₚ l.
Proof. rewrite sorted_by_count_sort_descending. apply sort_descending_Permutation. Qed.

Lemma sorted_by_count_sorted l :
  StronglySorted (λ a b : string * nat, b.2 ≤ a.2) (sorted_by_count l).
Proof.
  rewrite sorted_by_count_sort_descending.
  apply (StronglySorted_weaken (λ a b : string * nat, (b.2 <=? a.2)%nat = true)).
  - intros x y. apply Nat.leb_le.
  - apply (sort_descending_sorted _ (λ _, True)).
    + intros a b _ _. rewrite Nat.leb_gt, Nat.leb_le. lia.
    + intros a b c _ _ _. rewrite !Nat.leb_le. lia.
    + by apply Forall_forall.
Qed.

Lemma count_type_dict_set t counts :
  count_type t counts = dict_set t (get (dict_get t counts) 0 + 1) counts.
Proof.
  induction counts as [|[t' n] counts IH]; simpl; [done|].
  destruct (String.eqb_spec t' t) as [->|Hne]; simpl.
  - by rewrite Nat.add_1_r.
  - by rewrite IH.
Qed.

(** What the counting loop of [_prioritize_improvements] has computed for a
    list of items. *)
Lemma type_counts_loop (items : list improvement) :
  let counts := fold_left (λ counts item, count_type (imp_type item) counts) items [] in
  NoDup (dict_keys counts)
  ∧ (∀ t, t ∈ dict_keys counts ↔ ∃ item, item ∈ items ∧ imp_type item = t)
  ∧ (∀ t, get (dict_get t counts) 0
          = length (List.filter (λ item, String.eqb (imp_type item) t) items)).
Proof.
  induction items as [|item items IH] using rev_ind.
  { simpl. split; [apply NoDup_nil_2|]. split; [|done].
    intros t. split; [by intros ?%elem_of_nil|by intros (? & ?%elem_of_nil & _)]. }
  rewrite fold_left_app. simpl.
  set (counts := fold_left _ items []) in *. simpl in IH.
  destruct IH as (Hnodup & Hmem & Hcount).
  rewrite count_type_dict_set.
  split; [by apply dict_keys_set_NoDup|]. split.
  - intros t. rewrite dict_keys_set.
    assert (t ∈ dict_keys counts ++ [imp_type item]
            ↔ ∃ item0, item0 ∈ items ++ [item] ∧ imp_type item0 = t) as Happ.
    { rewrite elem_of_app, list_elem_of_singleton, Hmem. split.
      - intros [(item0 & Hin & Ht)| ->].
        + exists item0. split; [|done]. apply elem_of_app. by left.
        + exists item. split; [|done]. apply elem_of_app. right.
          by apply list_elem_of_singleton.
      - intros (item0 & [Hin| ->%list_elem_of_singleton]%elem_of_app & Ht).
        + left. by exists item0.
        + by right. }
    destruct (dict_get (imp_type item) counts) eqn:Hget; [|done].
    rewrite <- Happ, elem_of_app, list_elem_of_singleton.
    split; [by left|]. intros [?| ->]; [done|].
    destruct (decide (imp_type item ∈ dict_keys counts)) as [|Hnot]; [done|].
    apply dict_get_None in Hnot. congruence.
  - intros t. rewrite List.filter_app, length_app. simpl.
    destruct (String.eqb_spec (imp_type item) t) as [<-|Hne].
    + rewrite dict_get_set. simpl. by rewrite Hcount.
    + rewrite dict_get_set_ne by done. rewrite Hcount. simpl. lia.
Qed.


Lemma count_in_items t p (suggestions : list improvement) :
  length (List.filter (λ item, String.eqb (imp_type item) t)
            (filter (λ i, imp_priority i = p) suggestions))
  = count_suggestions t p suggestions.
Proof.
  unfold count_suggestions.
  induction suggestions as [|i suggestions IH]; [done|].
  rewrite filter_cons. simpl. destruct (decide (imp_priority i = p)) as [->|Hne].
  - rewrite String.eqb_refl, andb_true_r. simpl.
    destruct (String.eqb (imp_type i) t); simpl; by rewrite IH.
  - apply String.eqb_neq in Hne. by rewrite Hne, andb_false_r.
Qed.

Lemma filter_length_pos {A} (f : A → bool) x l :
  x ∈ l → f x = true → 0 < length (List.filter f l).
Proof.
  induction l as [|y l IH]; [by intros ?%elem_of_nil|].
  intros [->|Hin]%elem_of_cons Hx; simpl.
  - rewrite Hx. simpl. lia.
  - destruct (f y); simpl; [lia|by apply IH].
Qed.

(** The rows of one priority. *)
Lemma priority_group (suggestions : list improvement) (p : string) :
  let rows :=
    map (λ tc : string * nat,
           {| pr_type := tc.1; pr_priority := p; pr_frequency := tc.2;
              pr_recommended_action := _get_recommended_action tc.1 |})
        (sorted_by_count
           (fold_left (λ counts item, count_type (imp_type item) counts)
                      (filter (λ i, imp_priority i = p) suggestions) [])) in
  StronglySorted (λ a b, pr_frequency b ≤ pr_frequency a) rows
  ∧ NoDup (map pr_type rows)
  ∧ Forall (λ row,
      pr_priority row = p
      ∧ pr_frequency row = count_suggestions (pr_type row) p suggestions
      ∧ 0 < pr_frequency row
      ∧ pr_recommended_action row = _get_recommended_action (pr_type row)) rows
  ∧ (∀ i, i ∈ suggestions → imp_priority i = p → imp_type i ∈ map pr_type rows).
Proof.
  set (items := filter (λ i, imp_priority i = p) suggestions).
  destruct (type_counts_loop items) as (Hnodup & Hmem & Hcount).
  set (counts := fold_left _ items []) in *.
  pose proof (sorted_by_count_Permutation counts) as Hperm.
  intros rows.
  assert (map pr_type rows = (sorted_by_count counts).*1) as Htypes.
  { subst rows. rewrite map_map. done. }
  split; [|split; [|split]].
  - subst rows. eapply StronglySorted_fmap; [|apply sorted_by_count_sorted]. done.
  - rewrite Htypes, Hperm. exact Hnodup.
  - subst rows. apply Forall_fmap, Forall_forall. intros [t n] Hin. simpl.
    rewrite Hperm in Hin.
    pose proof (dict_get_elem_of t n counts Hnodup Hin) as Hget.
    pose proof (Hcount t) as Hn. rewrite Hget in Hn. simpl in Hn.
    subst items. rewrite count_in_items in Hn.
    split; [done|]. split; [done|]. split; [|done].
    assert (t ∈ dict_keys counts) as Hkey
      by (by apply (list_elem_of_fmap_2 fst _ (t, n))).
    apply Hmem in Hkey as (item & Hitem & Htype).
    rewrite Hn, <- count_in_items.
    apply (filter_length_pos _ item); [done|]. by apply String.eqb_eq.
  - intros i Hin Hp. rewrite Htypes, Hperm. apply Hmem. exists i. split; [|done].
    by apply list_elem_of_filter.
Qed.

End Prioritize.

Section PrioritizeRows.
Variable suggestions : list improvement.
Variable group : string → list priority_row.
Hypothesis group_rows : ∀ p,
  StronglySorted (λ a b, pr_frequency b ≤ pr_frequency a) (group p)
  ∧ NoDup (map pr_type (group p))
  ∧ Forall (λ row,
      pr_priority row = p
      ∧ pr_frequency row = count_suggestions (pr_type row) p suggestions
      ∧ 0 < pr_frequency row
      ∧ pr_recommended_action row = _get_recommended_action (pr_type row)) (group p)
  ∧ (∀ i, i ∈ suggestions → imp_priority i = p → imp_type i ∈ map pr_type (group p)).

(** The rows of a list of priorities that is in the order of their ranks. *)
Lemma priority_groups (ps : list string) :
  StronglySorted (λ p q, priority_rank p < priority_rank q) ps →
  StronglySorted precedes (flat_map group ps)
  ∧ NoDup (map row_kind (flat_map group ps))
  ∧ Forall (λ row,
      pr_priority row ∈ ps
      ∧ pr_frequency row
        = count_suggestions (pr_type row) (pr_priority row) suggestions
      ∧ 0 < pr_frequency row
      ∧ pr_recommended_action row = _get_recommended_action (pr_type row))
      (flat_map group ps)
  ∧ (∀ i, i ∈ suggestions → imp_priority i ∈ ps →
          kind i ∈ map row_kind (flat_map group ps)).
Proof.
  induction ps as [|p ps IH]; intros Hps.
  { simpl. split; [constructor|]. split; [apply NoDup_nil_2|]. split; [done|].
    by intros i _ ?%elem_of_nil. }
  apply StronglySorted_inv in Hps as [Hps Hp].
  destruct (IH Hps) as (IHsorted & IHnodup & IHall & IHcomplete). clear IH.
  destruct (group_rows p) as (Hsorted & Hnodup & Hall & Hcomplete).
  cbn [flat_map].
  assert (Forall (λ row, pr_priority row = p) (group p)) as Hpriority
    by (eapply Forall_impl; [exact Hall|]; by intros row (? & _)).
  rewrite Forall_forall in Hpriority.
  assert (∀ row, row ∈ flat_map group ps →
                 priority_rank p < priority_rank (pr_priority row)) as Hlater.
  { intros row Hrow. rewrite Forall_forall in IHall. rewrite Forall_forall in Hp.
    apply Hp. by apply IHall. }
  split; [|split; [|split]].
  - apply StronglySorted_app_2; [| |done].
    + intros x1 x2 Hx1 Hx2. left. rewrite (Hpriority x1 Hx1). by apply Hlater.
    + clear -Hsorted Hpriority. induction Hsorted as [|x l Hsorted IH Hx].
      * constructor.
      * constructor.
        -- apply IH. intros row Hrow. apply Hpriority. by right.
        -- rewrite Forall_forall in Hx. apply Forall_forall. intros y Hy. right.
           split; [|by apply Hx].
           rewrite (Hpriority x), (Hpriority y); [done|by right|by left].
  - rewrite map_app. apply NoDup_app. split; [|split; [|done]].
    + assert (map row_kind (group p) = map (λ t, (t, p)) (map pr_type (group p)))
        as ->.
      { rewrite map_map. apply map_ext_in. intros row Hrow%list_elem_of_In.
        unfold row_kind. by rewrite (Hpriority row Hrow). }
      assert (Inj eq eq (λ t : string, (t, p))) by (by intros t1 t2 [= ->]).
      by apply (NoDup_fmap_2 (λ t : string, (t, p))).
    + intros k (x1 & -> & Hx1)%list_elem_of_fmap (x2 & Heq & Hx2)%list_elem_of_fmap.
      apply Hlater in Hx2. injection Heq as _ Heq.
      rewrite <- Heq, (Hpriority x1 Hx1) in Hx2. lia.
  - apply Forall_app. split.
    + eapply Forall_impl; [exact Hall|]. intros row (Hp' & Hfreq & Hpos & Haction).
      split; [rewrite Hp'; by left|]. by rewrite Hp'.
    + eapply Forall_impl; [exact IHall|]. intros row (Hin & Hrow).
      split; [by right|done].
  - intros i Hi [Hip|Hip]%elem_of_cons; rewrite map_app, elem_of_app.
    + left. apply (Hcomplete i Hi) in Hip as Htype.
      apply list_elem_of_fmap in Htype as (row & Htype & Hrow).
      apply list_elem_of_fmap. exists row. split; [|done].
      unfold kind, row_kind. by rewrite Htype, (Hpriority row Hrow), Hip.
    + right. by apply IHcomplete.
Qed.

End PrioritizeRows.

(** The rows of the four priorities, before the cut to ten. *)
Lemma prioritize_improvements_full self :
  ∃ full,
    _prioritize_improvements self = take 10 full
    ∧ StronglySorted precedes full
    ∧ NoDup (map row_kind full)
    ∧ Forall (λ row,
        pr_priority row ∈ priorities
        ∧ pr_frequency row
          = count_suggestions (pr_type row) (pr_priority row)
              (improvement_suggestions self)
        ∧ 0 < pr_frequency row
        ∧ pr_recommended_action row = _get_recommended_action (pr_type row)) full
    ∧ (∀ i, i ∈ improvement_suggestions self → imp_priority i ∈ priorities →
            kind i ∈ map row_kind full).
Proof.
  unfold _prioritize_improvements. fold priorities.
  assert (StronglySorted (λ p q, priority_rank p < priority_rank q) priorities)
    as Hpriorities by (repeat constructor).
  destruct (priority_groups (improvement_suggestions self) _
              (priority_group (improvement_suggestions self))
              priorities Hpriorities) as (Hsorted & Hnodup & Hall & Hcomplete).
  set (full := flat_map _ priorities) in *.
  by exists full.
Qed.

(** X13: _prioritize_improvements returns at most 10 rows, ordered by
    priority (critical, high, medium, low) and, within a priority, by
    decreasing frequency; no two rows have the same type and priority; the
    frequency of a row is the number of suggestions of its type and
    priority, which is positive, and its recommended action is that of its
    type. When fewer than 10 rows are returned, every suggestion of one of
    the four priorities has its row. *)
Theorem prioritize_improvements_rows self :
  let rows := _prioritize_improvements self in
  let suggestions := improvement_suggestions self in
  length rows ≤ 10
  ∧ StronglySorted precedes rows
  ∧ NoDup (map row_kind rows)
  ∧ Forall (λ row,
      pr_priority row ∈ priorities
      ∧ pr_frequency row
        = count_suggestions (pr_type row) (pr_priority row) suggestions
      ∧ 0 < pr_frequency row
      ∧ pr_recommended_action row = _get_recommended_action (pr_type row)) rows
  ∧ (length rows < 10 →
     ∀ i, i ∈ suggestions → imp_priority i ∈ priorities →
          kind i ∈ map row_kind rows).
Proof.
  intros rows suggestions. subst rows suggestions.
  destruct (prioritize_improvements_full self)
    as (full & -> & Hsorted & Hnodup & Hall & Hcomplete).
  split; [rewrite length_take; lia|]. split; [|split; [|split]].
  - apply (StronglySorted_app_1_l _ _ (drop 10 full)). by rewrite take_drop.
  - apply (sublist_NoDup _ (map row_kind full)); [done|].
    change (map row_kind (take 10 full)) with (row_kind <$> take 10 full).
    rewrite fmap_take. apply sublist_take.
  - by apply Forall_take.
  - rewrite length_take. intros Hshort i Hi Hp.
    rewrite take_ge by lia. by apply Hcomplete.
Qed.

(** * Feedback by query *)

Section StringOrder.

Lemma string_leb_trans (a b c : string) :
  String.leb a b = true → String.leb b c = true → String.leb a c = true.
Proof.
  unfold String.leb. revert b c.
  induction a as [|ca a IH]; intros [|cb b] [|cc c]; simpl; try done.
  unfold Ascii.compare.
  destruct (N.compare_spec (N_of_ascii ca) (N_of_ascii cb)),
    (N.compare_spec (N_of_ascii cb) (N_of_ascii cc)),
    (N.compare_spec (N_of_ascii ca) (N_of_ascii cc)); try done; try lia.
  apply IH.
Qed.

Lemma string_leb_total (a b : string) :
  String.leb a b = false → String.leb b a = true.
Proof. intros Hab. destruct (String.leb_total a b) as [Hle|Hle]; congruence. Qed.

End StringOrder.

Section Queries.

Lemma slice_to_length {A} (n : Z) (xs : list A) :
  (0 <= n)%Z → length (slice_to n xs) ≤ Z.to_nat n.
Proof.
  intros Hn. unfold slice_to. destruct (Z.ltb_spec n 0); [lia|].
  rewrite length_take. lia.
Qed.

Lemma slice_to_sublist {A} (n : Z) (xs : list A) : sublist (slice_to n xs) xs.
Proof. unfold slice_to. destruct (n <? 0)%Z; apply sublist_take. Qed.

Lemma slice_to_prefix {A} (n : Z) (xs : list A) :
  ∃ rest, xs = slice_to n xs ++ rest.
Proof.
  unfold slice_to. destruct (n <? 0)%Z; eexists; symmetry; apply take_drop.
Qed.

(** X14: get_feedback_by_query returns stored entries whose lowercased query
    contains the lowercased search text, ordered by decreasing timestamp
    (compared as strings); for a limit of 0 or more it returns at most limit
    entries, and for a limit of at least the size of the store it returns
    all the matching entries. *)
Theorem get_feedback_by_query_results self query limit :
  let results := get_feedback_by_query self query limit in
  let matches (entry : feedback_entry) :=
    contains (lower query) (lower (fe_query entry)) in
  Forall (λ entry, entry ∈ dict_values (feedback_storage self)
                   ∧ matches entry = true) results
  ∧ StronglySorted (λ a b, String.leb (fe_timestamp b) (fe_timestamp a) = true) results
  ∧ ((0 <= limit)%Z → length results ≤ Z.to_nat limit)
  ∧ ((Z.of_nat (length (feedback_storage self)) <= limit)%Z →
     results ≡ₚ List.filter matches (dict_values (feedback_storage self))).
Proof.
  intros results matches. subst results. unfold get_feedback_by_query.
  fold matches.
  set (matching := List.filter matches (dict_values (feedback_storage self))).
  set (le := λ a b : feedback_entry, String.leb (fe_timestamp a) (fe_timestamp b)).
  pose proof (sort_descending_Permutation le matching) as Hperm.
  assert (StronglySorted (λ a b, le b a = true) (sort_descending le matching))
    as Hsorted.
  { apply (sort_descending_sorted _ (λ _, True)).
    - intros a b _ _. apply string_leb_total.
    - intros a b c _ _ _. apply string_leb_trans.
    - by apply Forall_forall. }
  destruct (slice_to_prefix limit (sort_descending le matching)) as [rest Hrest].
  split; [|split; [|split]].
  - apply Forall_forall. intros entry Hin.
    pose proof (elem_of_sublist _ _ _ Hin (slice_to_sublist _ _)) as Hin'.
    rewrite Hperm in Hin'. subst matching.
    apply list_elem_of_In, List.filter_In in Hin' as [Hstore Hmatch].
    by apply list_elem_of_In in Hstore.
  - rewrite Hrest in Hsorted. by apply StronglySorted_app_1_l in Hsorted.
  - apply slice_to_length.
  - intros Hlimit. unfold slice_to.
    destruct (Z.ltb_spec limit 0); [lia|]. rewrite take_ge; [done|].
    rewrite (Permutation_length Hperm). subst matching.
    pose proof (List.filter_length_le matches (dict_values (feedback_storage self))) as Hle.
    unfold dict_values in Hle at 2. rewrite length_fmap in Hle. lia.
Qed.

End Queries.

(** * Improvements, updates and satisfaction *)

Section ApplyImprovements.

(** What [apply_feedback_improvements] lists for the rows it goes through. *)
Lemma applied_for_rows (rows : list priority_row) :
  let applied_for (priority_item : priority_row) :=
    let improvement_type := pr_type priority_item in
    if String.eqb improvement_type "confidence_accuracy" then
      [{| ai_type := "confidence_threshold";
          ai_action := "Adjust routing confidence thresholds";
          ai_recommendation := "Lower threshold for knowledge base routing to 0.6" |}]
    else if String.eqb improvement_type "clarity" then
      [{| ai_type := "explanation_enhancement";
          ai_action := "Enhance step-by-step explanations";
          ai_recommendation := "Add more detailed intermediate steps" |}]
    else if String.eqb improvement_type "completeness" then
      [{| ai_type := "solution_completeness";
          ai_action := "Ensure complete solutions";
          ai_recommendation := "Add verification steps to all solutions" |}]
    else [] in
  length (flat_map applied_for rows) ≤ length rows
  ∧ ∀ applied,
      applied ∈ map ai_type (flat_map applied_for rows)
      ↔ ∃ suggested row,
          (suggested, applied) ∈ applied_types ∧ row ∈ rows ∧ pr_type row = suggested.
Proof.
  intros applied_for. induction rows as [|row rows [IHlen IHmem]].
  { simpl. split; [done|]. intros applied.
    split; [by intros ?%elem_of_nil|by intros (? & ? & _ & ?%elem_of_nil & _)]. }
  cbn [flat_map]. rewrite length_app, map_app. split.
  - assert (length (applied_for row) ≤ 1)
      by (unfold applied_for; repeat case_match; simpl; lia).
    simpl. lia.
  - intros applied. rewrite elem_of_app, IHmem. split.
    + intros [Hhere|(suggested & row' & Hpair & Hrow & Htype)].
      * exists (pr_type row), row. split; [|split; [by left|done]].
        revert Hhere. unfold applied_for, applied_types.
        destruct (String.eqb_spec (pr_type row) "confidence_accuracy") as [->|_].
        { intros ->%list_elem_of_singleton. by left. }
        destruct (String.eqb_spec (pr_type row) "clarity") as [->|_].
        { intros ->%list_elem_of_singleton. right. by left. }
        destruct (String.eqb_spec (pr_type row) "completeness") as [->|_].
        { intros ->%list_elem_of_singleton. do 2 right. by left. }
        by intros ?%elem_of_nil.
      * exists suggested, row'. split; [done|]. split; [by right|done].
    + intros (suggested & row' & Hpair & [->|Hrow]%elem_of_cons & Htype).
      * left. unfold applied_for. rewrite Htype. unfold applied_types in Hpair.
        repeat (apply elem_of_cons in Hpair as [[= -> ->]|Hpair];
                [simpl; by left|]).
        by apply elem_of_nil in Hpair.
      * right. by exists suggested, row'.
Qed.

Lemma applied_types_inj s1 s2 a :
  (s1, a) ∈ applied_types → (s2, a) ∈ applied_types → s1 = s2.
Proof.
  unfold applied_types. rewrite !elem_of_cons, !elem_of_nil.
  intros [H1|[H1|[H1|[]]]] [H2|[H2|[H2|[]]]]; by simplify_eq.
Qed.

(** X15: apply_feedback_improvements succeeds and leaves the agent
    unchanged; applied_count is the number of improvements listed, at most
    5; and an improvement type is listed exactly when one of the first five
    priority rows has the suggestion type it answers: confidence_threshold
    for confidence_accuracy, explanation_enhancement for clarity,
    solution_completeness for completeness. *)
Theorem apply_feedback_improvements_result self :
  ∃ improvements,
    apply_feedback_improvements self
    = (Ok (Improvements_identified (length improvements) improvements), self)
    ∧ length improvements ≤ 5
    ∧ ∀ applied,
        applied ∈ map ai_type improvements
        ↔ ∃ suggested row,
            (suggested, applied) ∈ applied_types
            ∧ row ∈ take 5 (_prioritize_improvements self)
            ∧ pr_type row = suggested.
Proof.
  unfold apply_feedback_improvements, try_except, Py.bind, gets, Py.ret, id.
  eexists. split; [reflexivity|].
  destruct (applied_for_rows (take 5 (_prioritize_improvements self))) as [Hlen Hmem].
  split; [|exact Hmem].
  etrans; [exact Hlen|]. rewrite length_take. lia.
Qed.

(** X16: After a sequence of submissions to an agent that starts with an
    empty store, apply_feedback_improvements lists confidence_threshold,
    explanation_enhancement or solution_completeness exactly when some
    stored suggestion has the type confidence_accuracy, clarity or
    completeness respectively: the cut to the first five priority rows loses
    none, because the submissions produce at most five kinds of suggestion. *)
Theorem applied_improvements_after_submissions subs :
  ∃ improvements,
    apply_feedback_improvements (agent_after subs)
    = (Ok (Improvements_identified (length improvements) improvements),
       agent_after subs)
    ∧ ∀ suggested applied,
        (suggested, applied) ∈ applied_types →
        applied ∈ map ai_type improvements
        ↔ ∃ i, i ∈ improvement_suggestions (agent_after subs)
               ∧ imp_type i = suggested.
Proof.
  unfold apply_feedback_improvements, try_except, Py.bind, gets, Py.ret, id.
  eexists. split; [reflexivity|].
  destruct (agent_after_run subs) as (_ & _ & Hkinds).
  destruct (prioritize_improvements_full (agent_after subs))
    as (rows & Hfull & _ & Hnodup & Hrows & Hcomplete).
  destruct (applied_for_rows (take 5 (_prioritize_improvements (agent_after subs))))
    as [_ Hmem].
  set (suggestions := improvement_suggestions (agent_after subs)) in *.
  rewrite Forall_forall in Hkinds. rewrite Forall_forall in Hrows.
  assert (∀ row, row ∈ rows →
            ∃ i, i ∈ suggestions ∧ kind i = row_kind row) as Hsource.
  { intros row Hrow. destruct (Hrows row Hrow) as (_ & Hfreq & Hpos & _).
    rewrite Hfreq in Hpos. unfold count_suggestions in Hpos.
    destruct (List.filter _ suggestions) as [|i matching] eqn:Hfilter;
      [simpl in Hpos; lia|].
    assert (i ∈ i :: matching) as Hi by left. rewrite <- Hfilter in Hi.
    apply list_elem_of_In, List.filter_In in Hi as [Hi Hkind].
    apply andb_true_iff in Hkind as [Ht%String.eqb_eq Hp%String.eqb_eq].
    exists i. split; [by apply list_elem_of_In|]. unfold kind, row_kind. congruence. }
  assert (length rows ≤ 5) as Hshort.
  { rewrite <- (length_map row_kind rows).
    apply (submseteq_length _ suggestion_kinds), NoDup_submseteq; [done|].
    intros k (row & -> & Hrow)%list_elem_of_fmap.
    destruct (Hsource row Hrow) as (i & Hi & <-). by apply Hkinds. }
  assert (take 5 (_prioritize_improvements (agent_after subs)) = rows) as Htake
    by (rewrite Hfull, take_take, take_ge; [done|lia]).
  intros suggested applied Hpair. etrans; [apply Hmem|]. rewrite Htake. split.
  - intros (suggested' & row & Hpair' & Hrow & Htype).
    pose proof (applied_types_inj _ _ _ Hpair' Hpair) as ->.
    destruct (Hsource row Hrow) as (i & Hi & Hkind).
    exists i. split; [done|]. injection Hkind as Ht _. congruence.
  - intros (i & Hi & Htype). exists suggested.
    assert (kind i ∈ map row_kind rows) as Hrow.
    { apply Hcomplete; [done|].
      pose proof (Hkinds i Hi) as Hkind. unfold kind, suggestion_kinds in Hkind.
      repeat (apply elem_of_cons in Hkind as [[= _ ->]|Hkind];
              [unfold priorities; apply list_elem_of_In; simpl; tauto|]).
      by apply elem_of_nil in Hkind. }
    apply list_elem_of_fmap in Hrow as (row & Hkind & Hrow).
    exists row. split; [done|]. split; [done|].
    injection Hkind as Ht _. congruence.
Qed.

End ApplyImprovements.

Section KnowledgeBaseUpdates.

Lemma flat_map_at_most_one {A B} (f : A → list B) (l : list A) :
  (∀ x, length (f x) ≤ 1) → length (flat_map f l) ≤ length l.
Proof.
  intros Hf. induction l as [|x l IH]; simpl; [done|].
  rewrite length_app. specialize (Hf x). lia.
Qed.

Lemma truthy_spec (s : string) : truthy s = true ↔ s ≠ "".
Proof.
  unfold truthy. destruct (String.eqb_spec s ""); simpl; [|done].
  split; [done|]. by intros [].
Qed.

(** X17: update_knowledge_base_from_feedback succeeds and leaves the agent
    unchanged; potential_updates is at most the number of stored entries and
    updates holds min(10, potential_updates) updates. Each update comes from
    a stored entry: a correction carries a non-empty alternative solution of
    an entry marked incorrect, and an improvement carries a non-empty
    suggested improvement of an entry that is marked correct or has no
    alternative solution. *)
Theorem knowledge_base_updates_from_feedback self :
  ∃ potential_updates updates,
    update_knowledge_base_from_feedback self
    = (Ok (Updates_identified potential_updates updates), self)
    ∧ potential_updates ≤ length (feedback_storage self)
    ∧ length updates = Nat.min 10 potential_updates
    ∧ Forall (λ update,
        ∃ entry,
          entry ∈ dict_values (feedback_storage self)
          ∧ let feedback := fe_feedback entry in
            match update with
            | Update_correction original incorrect corrected comments =>
                original = fe_query entry
                ∧ incorrect = er_solution (fe_response entry)
                ∧ corrected = ef_alternative_solution feedback
                ∧ comments = ef_comments feedback
                ∧ corrected ≠ "" ∧ ef_correct feedback = false
            | Update_improvement query current suggested =>
                query = fe_query entry
                ∧ current = er_solution (fe_response entry)
                ∧ suggested = ef_suggested_improvement feedback
                ∧ suggested ≠ ""
                ∧ (ef_correct feedback = true ∨ ef_alternative_solution feedback = "")
            end) updates.
Proof.
  unfold update_knowledge_base_from_feedback, try_except, Py.bind, gets, Py.ret, id.
  set (update_for := λ feedback_entry : feedback_entry, _).
  set (entries := dict_values (feedback_storage self)).
  eexists _, _. split; [reflexivity|]. split; [|split].
  - etrans; [apply flat_map_at_most_one|].
    + intros entry. unfold update_for. repeat case_match; simpl; lia.
    + subst entries. unfold dict_values. by rewrite length_fmap.
  - by rewrite length_take.
  - apply Forall_take, Forall_forall. intros update Hin.
    apply list_elem_of_In, in_flat_map in Hin as (entry & Hentry & Hupdate).
    exists entry. split; [by apply list_elem_of_In|]. revert Hupdate.
    unfold update_for. simpl.
    destruct (truthy (ef_alternative_solution (fe_feedback entry))) eqn:Halt;
      destruct (ef_correct (fe_feedback entry)) eqn:Hcorrect; simpl;
      try (destruct (truthy (ef_suggested_improvement (fe_feedback entry))) eqn:Hsug;
           simpl);
      try done; intros [<-|[]];
      repeat split; try done;
      try (by apply truthy_spec); try (by left).
    all: right; destruct (String.eqb_spec (ef_alternative_solution (fe_feedback entry)) "");
      [done|]. all: unfold truthy in Halt;
      by destruct (String.eqb_spec (ef_alternative_solution (fe_feedback entry)) "").
Qed.

End KnowledgeBaseUpdates.

Section SatisfactionMetrics.
Local Open Scope Z_scope.

(** X18: After any sequence of submissions to an agent that starts with an
    empty store, get_user_satisfaction_metrics never divides by zero. It
    returns the message 'No feedback data available' exactly when no entry
    is stored. It returns its error dictionary only when the mean of the
    last 20 stored ratings is too large for a float (the error is the text
    of that OverflowError), which needs ratings whose sum is at least 2^53
    in absolute value. Otherwise it returns the report: rating_distribution
    has the keys rating_1 to rating_5 in this order, each with its counter
    and the counter divided by the number of stored entries times 100, and
    the four quality metrics are the numbers of stored entries with the flag
    divided by the number of stored entries. *)
Theorem satisfaction_metrics_outcome subs :
  let self := agent_after subs in
  let entries := entries_after subs in
  let total := Z.of_nat (length entries) in
  let recent := map (λ f, ef_rating (fe_feedback f)) (last_n 20 entries) in
  let share n := (float_of_Z n / float_of_Z total)%float in
  match (get_user_satisfaction_metrics self).1 with
  | Ok (Metrics_message message) =>
      entries = [] ∧ message = "No feedback data available"
  | Ok (Metrics_report average distribution quality trend) =>
      entries ≠ []
      ∧ _calculate_average_rating self = Ok average
      ∧ dict_keys distribution
        = ["rating_1"; "rating_2"; "rating_3"; "rating_4"; "rating_5"]
      ∧ Forall (λ row,
          rs_count row.2 = stat (feedback_stats self) row.1
          ∧ rs_percentage row.2 = (share (rs_count row.2) * 100)%float)
          distribution
      ∧ qm_helpfulness quality = share (count_entries ef_helpful self)
      ∧ qm_correctness quality = share (count_entries ef_correct self)
      ∧ qm_clarity quality = share (count_entries ef_clear self)
      ∧ qm_completeness quality = share (count_entries ef_complete self)
      ∧ _analyze_recent_trends self = Ok trend
  | Ok (Metrics_error e) =>
      entries ≠ []
      ∧ e = "integer division result too large for a float"
      ∧ long_true_divide (fold_left Z.add recent 0) (Z.of_nat (length recent))
        = Raise e
      ∧ 2 ^ 53 <= Z.abs (fold_left Z.add recent 0)
  | Raise _ => False
  end.
Proof.
  intros self entries total recent share. subst self entries total recent share.
  pose proof (total_feedback_after subs) as Htotal.
  pose proof (analyze_recent_trends_outcome (agent_after subs)) as Htrends.
  cbv zeta in Htrends. fold (entries_after subs) in Htrends.
  unfold get_user_satisfaction_metrics, try_except, Py.bind, gets, eval, Py.ret.
  rewrite Htotal.
  destruct (Z.eqb_spec (Z.of_nat (length (entries_after subs))) 0) as [Hzero|Hpos].
  { simpl. split; [|done]. destruct (entries_after subs); [done|simpl in Hzero; lia]. }
  assert (entries_after subs ≠ []) as Hentries
    by (intros Hnil; by rewrite Hnil in Hpos).
  destruct (calculate_average_rating_returns (agent_after subs)) as [average Haverage].
  unfold id. cbn [rating_distribution_of].
  rewrite !truediv_nonzero, Haverage by done.
  destruct (_analyze_recent_trends (agent_after subs)) as [trends|e]; simpl.
  - split; [done|]. split; [done|]. split; [reflexivity|].
    split; [by repeat constructor|]. done.
  - by destruct Htrends as (_ & -> & Hmean & Hbig).
Qed.

End SatisfactionMetrics.

(** * The knowledge-base search *)

Section FloatOrder.

Lemma ltb_number x y :
  (x <? y)%float = true → is_number x = true ∧ is_number y = true.
Proof.
  rewrite ltb_spec, !is_number_spec. unfold SFltb.
  by destruct (Prim2SF x) as [?|?| |? ? ?], (Prim2SF y) as [?|?| |? ? ?].
Qed.

Lemma leb_total x y :
  is_number x = true → is_number y = true →
  (x <=? y)%float = false → (y <=? x)%float = true.
Proof.
  intros Hx Hy Hle%not_true_iff_false. rewrite leb_key in Hle by done.
  rewrite leb_key by done. unfold key_le, key_lt in *. lia.
Qed.

Lemma ltb_trans x y z :
  (x <? y)%float = true → (y <? z)%float = true → (x <? z)%float = true.
Proof.
  intros Hxy Hyz.
  destruct (ltb_number _ _ Hxy) as [Hx Hy], (ltb_number _ _ Hyz) as [_ Hz].
  revert Hxy Hyz. rewrite !ltb_key by done. unfold key_lt. lia.
Qed.

Lemma positive_nonneg x : (0 <? x)%float = true → (0 <=? x)%float = true.
Proof.
  intros Hx. destruct (ltb_number _ _ Hx) as [H0 Hnum]. by apply ltb_leb.
Qed.

End FloatOrder.

Section KnowledgeBaseSearchFacts.

Lemma keyword_score_nonneg query_lower query_words doc :
  (0 <=? keyword_score query_lower query_words doc)%float = true.
Proof. unfold keyword_score. by repeat apply add_per_match_nonneg. Qed.

(** The loop [for doc in self.documents] of [_keyword_search], for any way
    of scoring a document. *)
Lemma scored_documents (self : KnowledgeBaseService) (score_of : document → float) :
  Forall (λ h, (0 <? hit_score h)%float = true
               ∧ hit_document h ∈ documents self
               ∧ hit_rank h = None)
    (flat_map (λ doc,
       let score := score_of doc in
       if Py.gt score 0 then
         [{| hit_document := doc; hit_score := score; hit_rank := None |}]
       else [])
       (documents self)).
Proof.
  apply Forall_forall. intros h Hin.
  apply list_elem_of_In, in_flat_map in Hin as (doc & Hdoc%list_elem_of_In & Hh).
  unfold Py.gt in Hh.
  destruct (0 <? score_of doc)%float eqn:Hpos; [|done].
  destruct Hh as [<-|[]]. by simpl.
Qed.

Lemma keyword_search_positive self query top_k :
  Forall (λ h, (0 <? hit_score h)%float = true ∧ hit_document h ∈ documents self)
         (_keyword_search self query top_k).
Proof.
  unfold _keyword_search. apply Forall_forall. intros h Hin.
  pose proof (elem_of_sublist _ _ _ Hin (slice_to_sublist _ _)) as Hin'.
  rewrite sort_descending_Permutation in Hin'.
  pose proof (scored_documents self
                (keyword_score (lower query) (remove_dups (split (lower query)))))
    as Hscored.
  rewrite Forall_forall in Hscored. by destruct (Hscored h Hin') as (? & ? & _).
Qed.

(** X19: _keyword_search returns documents of the knowledge base with a
    score above 0 and without rank, ordered by decreasing score; it returns
    at most top_k results when top_k is 0 or more, and never more than there
    are documents. *)
Theorem keyword_search_results self query top_k :
  let results := _keyword_search self query top_k in
  Forall (λ h, (0 <? hit_score h)%float = true
               ∧ hit_document h ∈ documents self
               ∧ hit_rank h = None) results
  ∧ StronglySorted (λ a b, (hit_score b <=? hit_score a)%float = true) results
  ∧ ((0 <= top_k)%Z → length results ≤ Z.to_nat top_k)
  ∧ length results ≤ length (documents self).
Proof.
  intros results. subst results. unfold _keyword_search.
  set (score_of := keyword_score (lower query) (remove_dups (split (lower query)))).
  set (scored := flat_map _ (documents self)).
  set (le := λ a b : hit, (hit_score a <=? hit_score b)%float).
  assert (Forall (λ h, (0 <? hit_score h)%float = true
                       ∧ hit_document h ∈ documents self
                       ∧ hit_rank h = None) scored) as Hscored
    by apply scored_documents.
  pose proof (sort_descending_Permutation le scored) as Hperm.
  assert (StronglySorted (λ a b, le b a = true) (sort_descending le scored))
    as Hsorted.
  { apply (sort_descending_sorted _ (λ h, is_number (hit_score h) = true)).
    - intros a b. apply leb_total.
    - intros a b c. apply leb_trans.
    - eapply Forall_impl; [exact Hscored|]. intros h [Hpos _].
      by apply ltb_number in Hpos as [_ ?]. }
  destruct (slice_to_prefix top_k (sort_descending le scored)) as [rest Hrest].
  split; [|split; [|split]].
  - apply Forall_forall. intros h Hin.
    pose proof (elem_of_sublist _ _ _ Hin (slice_to_sublist _ _)) as Hin'.
    rewrite Hperm in Hin'. rewrite Forall_forall in Hscored. by apply Hscored.
  - rewrite Hrest in Hsorted. by apply StronglySorted_app_1_l in Hsorted.
  - apply slice_to_length.
  - etrans; [apply sublist_length, slice_to_sublist|].
    rewrite (Permutation_length Hperm). subst scored.
    apply flat_map_at_most_one. intros doc. destruct (Py.gt _ 0); simpl; lia.
Qed.

Lemma vector_hits_documents self neighbours :
  Forall (λ h, hit_document h ∈ documents self) (vector_hits self neighbours)
  ∧ length (vector_hits self neighbours) ≤ length neighbours.
Proof.
  unfold vector_hits.
  assert (∀ (f : nat → float * Z → list hit) l,
            (∀ i x, Forall (λ h, hit_document h ∈ documents self) (f i x)
                    ∧ length (f i x) ≤ 1) →
            Forall (λ h, hit_document h ∈ documents self) (mjoin (imap f l))
            ∧ length (mjoin (imap f l)) ≤ length l) as Hgeneral.
  { intros f l. revert f. induction l as [|x l IH]; intros f Hf; [done|].
    rewrite imap_cons. simpl. rewrite length_app.
    destruct (Hf 0 x) as [Hx Hlen]. destruct (IH (f ∘ S)) as [IHall IHlen].
    { intros i y. apply Hf. }
    split; [by apply Forall_app|lia]. }
  apply Hgeneral. intros i [score idx].
  destruct (_ && _); [|split; [done|simpl; lia]].
  destruct (documents self !! Z.to_nat idx) as [doc|] eqn:Hdoc;
    [|split; [done|simpl; lia]].
  split; [|done]. apply Forall_singleton. simpl. by eapply list_elem_of_lookup_2.
Qed.

Lemma search_positive self query top_k :
  Forall (λ h, (0 <? hit_score h)%float = true ∧ hit_document h ∈ documents self)
         (search self query top_k).
Proof.
  unfold search. destruct (vector_index self) as [index|];
    [|apply keyword_search_positive].
  destruct (index query _) as [neighbours|e]; [|apply keyword_search_positive].
  destruct (vector_hits_documents self neighbours) as [Hdocs _].
  rewrite Forall_forall in Hdocs. apply Forall_forall. intros h Hin.
  apply list_elem_of_In, List.filter_In in Hin as [Hin%list_elem_of_In Hscore].
  split; [|by apply Hdocs]. unfold Py.gt in Hscore.
  by apply (ltb_trans 0 0.3).
Qed.

(** X20: Every result of KnowledgeBaseService.search is a document of the
    knowledge base with a score above 0, whatever the vector index returns.
    Without index, or when the index raises, search is the keyword search;
    when the index returns, every result has a score above 0.3 and a rank,
    and there are at most as many results as neighbours. *)
Theorem search_scores_are_positive self query top_k :
  Forall (λ h, (0 <? hit_score h)%float = true ∧ hit_document h ∈ documents self)
         (search self query top_k)
  ∧ match vector_index self with
    | None => search self query top_k = _keyword_search self query top_k
    | Some index =>
        match index query (Z.min top_k (Z.of_nat (length (documents self)))) with
        | Ok neighbours =>
            Forall (λ h, (0.3 <? hit_score h)%float = true ∧ hit_rank h ≠ None)
                   (search self query top_k)
            ∧ length (search self query top_k) ≤ length neighbours
        | Raise _ => search self query top_k = _keyword_search self query top_k
        end
    end.
Proof.
  split; [apply search_positive|].
  unfold search. destruct (vector_index self) as [index|]; [|done].
  destruct (index query _) as [neighbours|e]; [|done]. split.
  - apply Forall_forall. intros h Hin.
    apply list_elem_of_In, List.filter_In in Hin as [Hin%list_elem_of_In Hscore].
    split; [done|]. revert Hin. unfold vector_hits.
    intros (hits & Hh & Hhits)%list_elem_of_join.
    apply elem_of_lookup_imap in Hhits as (i & [score idx] & -> & _).
    destruct (_ && _); [|by apply elem_of_nil in Hh].
    destruct (documents self !! Z.to_nat idx); [|by apply elem_of_nil in Hh].
    by apply list_elem_of_singleton in Hh as ->.
  - etrans; [apply List.filter_length_le|]. apply vector_hits_documents.
Qed.

End KnowledgeBaseSearchFacts.

Section ConfidenceOfSearch.
Context {collab : Collaborators}.

(** The knowledge-base confidence of candidates whose scores are at least
    zero. *)
Lemma kb_confidence_in_unit_interval (results : list kb_result) query :
  Forall (λ s, (0 <=? s)%float = true) (scores_of results) →
  in_unit_interval (_calculate_kb_confidence results query) = true.
Proof.
  intros Hscores. unfold _calculate_kb_confidence.
  destruct results as [|r rs]; [done|].
  apply min_one_in_unit_interval.
  assert ((0 <=? Py.max (get (score r) 0.0%float) (scores_of rs))%float = true)
    as Hbest.
  { pose proof (max_elem_of (get (score r) 0.0%float) (scores_of rs)) as Hin.
    rewrite Forall_forall in Hscores. by apply Hscores. }
  assert ((0 <=? add_per_match 0.1 math_topics (lower query) 0)%float = true)
    as Hboost by by apply add_per_match_nonneg.
  apply add_nonneg; [done|].
  destruct (any_in _ _); [by apply add_nonneg|done].
Qed.

End ConfidenceOfSearch.

(** * The web-search filters *)

Section Substrings.

Lemma lower_append (s t : string) : lower (s +:+ t) = lower s +:+ lower t.
Proof.
  induction s as [|c s IH]; [done|]. rewrite append_cons. simpl.
  by rewrite IH, append_cons.
Qed.

Lemma contains_append_r (sub s t : string) :
  contains sub t = true → contains sub (s +:+ t) = true.
Proof.
  intros Ht. induction s as [|c s IH]; [done|].
  rewrite append_cons. simpl. by rewrite IH, orb_true_r.
Qed.

End Substrings.

Section EnhanceQuery.

(** X21: _enhance_math_query returns the query or the query followed by '
    mathematics', so the query is a prefix of the result; applying it twice
    is the same as applying it once; and a query that contains 'what is',
    'define' or 'explain' (in any case) is turned into one that contains one
    of 'math', 'formula', 'equation', 'solve'. *)
Theorem enhance_math_query_is_idempotent query :
  (_enhance_math_query query = query
   ∨ _enhance_math_query query = query +:+ " mathematics")
  ∧ String.prefix query (_enhance_math_query query) = true
  ∧ _enhance_math_query (_enhance_math_query query) = _enhance_math_query query
  ∧ (any_in ["what is"; "define"; "explain"] (lower query) = true →
     any_in ["math"; "formula"; "equation"; "solve"]
            (lower (_enhance_math_query query)) = true).
Proof.
  assert (∀ s : string, String.prefix s s = true) as Hrefl.
  { intros s. induction s as [|c s IH]; [done|]. simpl. by destruct (ascii_dec c c). }
  assert (any_in ["math"; "formula"; "equation"; "solve"]
                 (lower (query +:+ " mathematics")) = true) as Hmath.
  { rewrite lower_append. unfold any_in. cbn [existsb].
    by rewrite contains_append_r. }
  assert (∀ q, any_in ["math"; "formula"; "equation"; "solve"] (lower q) = true →
               _enhance_math_query q = q) as Hkeep.
  { intros q Hq. unfold _enhance_math_query. by rewrite Hq. }
  destruct (any_in ["math"; "formula"; "equation"; "solve"] (lower query)) eqn:Hm.
  { rewrite !Hkeep by done. split; [by left|]. by split; [apply Hrefl|]. }
  destruct (any_in ["what is"; "define"; "explain"] (lower query)) eqn:He.
  - assert (_enhance_math_query query = query +:+ " mathematics") as ->
      by (unfold _enhance_math_query; by rewrite Hm, He).
    rewrite Hkeep by done. split; [by right|]. by split; [apply prefix_append|].
  - assert (_enhance_math_query query = query) as Hsame
      by (unfold _enhance_math_query; by rewrite Hm, He).
    rewrite !Hsame. split; [by left|]. by split; [apply Hrefl|].
Qed.

End EnhanceQuery.

Section FilterMathResults.

Lemma relevance_outcome query_lower result :
  match relevance query_lower result with
  | Ok _ => split query_lower ≠ []
  | Raise e => split query_lower = [] ∧ e = "division by zero"
  end.
Proof.
  unfold relevance.
  destruct (split query_lower) as [|word words]; [done|].
  by rewrite truediv_nonzero by (simpl; lia).
Qed.

Lemma scored_web_results_outcome query_lower results :
  match scored_web_results query_lower results with
  | Raise e => results ≠ [] ∧ split query_lower = [] ∧ e = "division by zero"
  | Ok scored =>
      (results = [] ∨ split query_lower ≠ [])
      ∧ Forall (λ r : scored_result,
          (0.5 <? r.1)%float = true ∧ r.2 ∈ results
          ∧ relevance query_lower r.2 = Ok r.1) scored
      ∧ length scored ≤ length results
  end.
Proof.
  induction results as [|result results IH]; simpl.
  { split; [by left|]. split; [done|]. done. }
  pose proof (relevance_outcome query_lower result) as Hrelevance.
  destruct (relevance query_lower result) as [score|e] eqn:Hscore;
    [|by destruct Hrelevance].
  destruct (scored_web_results query_lower results) as [rest|e].
  - destruct IH as (_ & Hrest & Hlen). split; [by right|]. split.
    + apply Forall_app. split.
      * unfold Py.gt. destruct (0.5 <? score)%float eqn:Hkeep; [|done].
        apply Forall_singleton. simpl. split; [done|]. split; [by left|done].
      * eapply Forall_impl; [exact Hrest|]. intros r (? & ? & ?).
        split; [done|]. split; [by right|done].
    + rewrite length_app. unfold scored_result in *.
      destruct (Py.gt score 0.5); simpl; lia.
  - destruct IH as (_ & Hsplit & _). done.
Qed.

(** X22: _filter_math_results raises 'division by zero' exactly when the
    result list is not empty and the query has no word (it is empty or
    blank). Otherwise it returns results of the given list whose relevance
    score is above 0.5, each with its score, ordered by decreasing score,
    and at most as many as were given. *)
Theorem filter_math_results_outcome results query :
  match _filter_math_results results query with
  | Raise e => results ≠ [] ∧ split (lower query) = [] ∧ e = "division by zero"
  | Ok scored =>
      (results = [] ∨ split (lower query) ≠ [])
      ∧ Forall (λ r : scored_result,
          (0.5 <? r.1)%float = true ∧ r.2 ∈ results
          ∧ relevance (lower query) r.2 = Ok r.1) scored
      ∧ StronglySorted (λ a b : scored_result, (b.1 <=? a.1)%float = true) scored
      ∧ length scored ≤ length results
  end.
Proof.
  unfold _filter_math_results.
  pose proof (scored_web_results_outcome (lower query) results) as Hscored.
  destruct (scored_web_results (lower query) results) as [scored|e]; [|done].
  destruct Hscored as (Hwords & Hall & Hlen).
  match goal with
  | |- context [sort_descending ?le scored] =>
      pose proof (sort_descending_Permutation le scored) as Hperm;
      assert (StronglySorted (λ a b, le b a = true) (sort_descending le scored))
        as Hsorted;
      [|set (sorted := sort_descending le scored) in *]
  end.
  { apply (sort_descending_sorted _ (λ r : scored_result, is_number r.1 = true)).
    - intros a b. apply leb_total.
    - intros a b c. apply leb_trans.
    - eapply Forall_impl; [exact Hall|]. intros r [Hkeep _].
      by apply ltb_number in Hkeep as [_ ?]. }
  split; [done|]. split; [by rewrite Hperm|]. split; [done|].
  pose proof (Permutation_length Hperm) as Hsame. unfold scored_result in *. lia.
Qed.

End FilterMathResults.

(** * The knowledge-base solver and the route through it *)

Section Solver.

Lemma generate_steps_from_kb_shape kb_result query :
  ∃ steps,
    MathSolverAgent._generate_steps_from_kb kb_result query
    = ("Problem Type: This is a " +:+ doc_topic (hit_document kb_result) +:+ " problem.")
      :: steps
    ∧ 3 ≤ length steps ≤ 4.
Proof.
  unfold MathSolverAgent._generate_steps_from_kb.
  repeat case_match; eexists; (split; [reflexivity|simpl; lia]).
Qed.

Lemma concat_not_empty sep (s : string) (parts : list string) :
  s ≠ "" → String.concat sep (parts ++ [s]) ≠ "".
Proof.
  intros Hs. induction parts as [|p parts IH]; simpl; [done|].
  destruct (parts ++ [s]) as [|p' rest] eqn:Hparts.
  - by destruct parts.
  - destruct p; [|done]. rewrite append_nil_l. destruct sep; [|done].
    by rewrite append_nil_l.
Qed.

Lemma format_solution_not_empty answer explanation step steps :
  MathSolverAgent._format_solution answer explanation (step :: steps) ≠ "".
Proof. unfold MathSolverAgent._format_solution. by apply concat_not_empty. Qed.

(** X23: On a knowledge-base result with the entries the solver reads,
    solve_from_knowledge returns solution, steps and confidence (no key that
    _process_knowledge_base reads is missing): the confidence is the score
    of the result, the solution is not empty, and there are 4 or 5 steps,
    the first of which names the topic of the document. *)
Theorem solve_from_knowledge_answers kb_result query :
  ∃ solution steps,
    MathSolverAgent.solve_from_knowledge kb_result query
    = {| out_solution := Some solution;
         out_steps := Some steps;
         out_confidence := Some (hit_score kb_result) |}
    ∧ missing_key (MathSolverAgent.solve_from_knowledge kb_result query) = None
    ∧ solution ≠ ""
    ∧ 4 ≤ length steps ≤ 5
    ∧ head steps
      = Some ("Problem Type: This is a " +:+ doc_topic (hit_document kb_result)
              +:+ " problem.").
Proof.
  unfold MathSolverAgent.solve_from_knowledge.
  destruct (generate_steps_from_kb_shape kb_result query) as (steps & -> & Hlen).
  eexists _, _. split; [reflexivity|]. split; [done|]. split; [|split; [simpl; lia|done]].
  apply format_solution_not_empty.
Qed.

End Solver.

Section RouteRun.
Context {collab : Collaborators}.

(** What [route_query] returns and leaves behind when the search returns. *)
Lemma route_query_run query metadata st results w :
  kb_search query 3 (world st) = (Ok results, w) →
  let kb_conf := _calculate_kb_confidence results query in
  let web_need := _should_use_web_search query metadata in
  let route := transition_table kb_conf web_need in
  ∃ md,
    route_query query metadata st
    = (Ok (route, md),
       {| world := w;
          routing_history :=
            routing_history st
            ++ [{| h_query := String.substring 0 100 query;
                   h_route := value route;
                   h_confidence := md_confidence_scores md;
                   h_reasoning := md_reasoning md |}] |})
    ∧ md_confidence_scores md
      = ("knowledge_base", kb_conf)
        :: (if ge kb_conf settings.confidence_threshold then []
            else [("web_search", web_need)]).
Proof.
  intros Hkb kb_conf web_need route. subst route.
  unfold route_query. rewrite route_query_with_unfold.
  unfold try_except, route_query_try, Py.bind, in_agent, call, eval. simpl.
  rewrite Hkb. simpl. fold kb_conf web_need.
  unfold transition_table, settings.confidence_threshold.
  destruct (ge kb_conf 0.7); simpl;
    [eexists; split; [apply f_equal2; reflexivity|reflexivity]|].
  destruct (ge web_need 0.5); simpl;
    [|eexists; split; [apply f_equal2; reflexivity|reflexivity]].
  destruct (gt kb_conf 0.3); simpl;
    eexists; (split; [apply f_equal2; reflexivity|reflexivity]).
Qed.

End RouteRun.

Section LocalPipeline.
Variable kb : KnowledgeBaseService.
Variable others : Collaborators.
Local Arguments search : simpl never.

(** X24: On the results of KnowledgeBaseService.search, for any knowledge
    base, search text and top_k, _calculate_kb_confidence is in the closed
    interval [0.0, 1.0]: the search returns no score that is negative or
    NaN, which is what the lower bound needs. *)
Theorem kb_confidence_of_search_is_in_unit_interval search_query top_k query :
  in_unit_interval
    (_calculate_kb_confidence (collab := with_knowledge_base kb others)
       (map (λ h, (Some (hit_score h), h)) (search kb search_query top_k)) query)
  = true.
Proof.
  apply (kb_confidence_in_unit_interval (collab := with_knowledge_base kb others)).
  unfold scores_of. rewrite map_map. apply Forall_fmap.
  eapply Forall_impl; [apply search_positive|].
  intros h [Hpos _]. simpl. by apply positive_nonneg.
Qed.

(** X25: With the repository's knowledge-base search and knowledge-base
    solver as collaborators: when route_query decides KNOWLEDGE_BASE, the
    search has a first result and process_query answers from it, with
    route_used 'knowledge_base', no error, a non-empty solution, 4 or 5
    steps and that result as only source. The confidence of the envelope is
    the raw score of the first result, which is above 0 but is not capped at
    1.0 (3.100000000000001 in the witness), whereas the recorded knowledge-
    base confidence is the capped one. *)
Theorem knowledge_base_route_answers_from_the_first_hit query metadata st md st1 :
  route_query (collab := with_knowledge_base kb others) query metadata st
    = (Ok (KNOWLEDGE_BASE, md), st1) →
  ∃ best rest envelope,
    search kb query 3 = best :: rest
    ∧ process_query (collab := with_knowledge_base kb others) query metadata st
      = (Ok envelope, st1)
    ∧ world st1 = world st
    ∧ resp_route_used envelope = "knowledge_base"
    ∧ resp_confidence envelope = hit_score best
    ∧ (0 <? resp_confidence envelope)%float = true
    ∧ resp_error envelope = None
    ∧ resp_solution envelope ≠ ""
    ∧ 4 ≤ length (resp_steps envelope) ≤ 5
    ∧ resp_sources envelope
      = [Source_knowledge_base (collab := with_knowledge_base kb others)
           (Some (hit_score best), best)]
    ∧ md_confidence_scores md
      = [("knowledge_base",
          _calculate_kb_confidence (collab := with_knowledge_base kb others)
            (map (λ h, (Some (hit_score h), h)) (search kb query 3)) query)].
Proof.
  intros Hroute.
  set (results := map (λ h, (Some (hit_score h), h)) (search kb query 3)).
  assert (∀ w, kb_search (Collaborators := with_knowledge_base kb others) query 3 w
               = (Ok results, w)) as Hsearch by done.
  destruct (route_query_run (collab := with_knowledge_base kb others)
              query metadata st results (world st) (Hsearch _)) as (md' & Hrun & Hscores).
  rewrite Hrun in Hroute. injection Hroute as Htable <- <-.
  destruct (search kb query 3) as [|best rest] eqn:Hhits.
  { exfalso. revert Htable. subst results. unfold transition_table. simpl.
    by repeat case_match. }
  rewrite Htable in Hrun |- *.
  rewrite (process_query_dispatch _ _ _ _ _ _ Hrun).
  assert (MathSolverAgent._format_solution (doc_answer (hit_document best))
            (doc_explanation (hit_document best))
            (MathSolverAgent._generate_steps_from_kb best query) ≠ "") as Hsolution.
  { destruct (generate_steps_from_kb_shape best query) as (steps & -> & _).
    apply format_solution_not_empty. }
  assert (4 ≤ length (MathSolverAgent._generate_steps_from_kb best query) ≤ 5)
    as Hsteps.
  { destruct (generate_steps_from_kb_shape best query) as (steps & -> & ?).
    simpl. lia. }
  unfold _process_knowledge_base, try_except, Py.bind, call, eval. simpl.
  unfold Py.ret. change (Z.of_nat 3) with 3%Z. rewrite Hhits. simpl.
  exists best, rest. eexists. split; [done|]. split; [reflexivity|]. simpl.
  split; [done|]. split; [done|]. split; [done|]. split.
  { pose proof (search_positive kb query 3) as Hpos. rewrite Hhits in Hpos.
    by apply Forall_cons_1 in Hpos as [[? _] _]. }
  split; [done|]. split; [done|]. split; [done|]. split; [done|].
  rewrite Hscores. subst results.
  unfold transition_table in Htable. unfold settings.confidence_threshold.
  destruct (ge _ 0.7); [done|]. exfalso. revert Htable. by repeat case_match.
Qed.

End LocalPipeline.

Lemma knowledge_base_route_answers_from_the_first_hit_witness :
  ∃ best rest envelope st1,
    search two_documents "Solve the quadratic equation x^2 - 5x + 6 = 0" 3 = best :: rest
    ∧ process_query (collab := with_knowledge_base two_documents idle)
        "Solve the quadratic equation x^2 - 5x + 6 = 0" tt
        (new_agent (with_knowledge_base two_documents idle) tt)
      = (Ok envelope, st1)
    ∧ resp_confidence envelope = hit_score best
    ∧ resp_confidence envelope = 3.100000000000001%float.
Proof.
  destruct (knowledge_base_route_answers_from_the_first_hit two_documents idle
              "Solve the quadratic equation x^2 - 5x + 6 = 0" tt
              (new_agent (with_knowledge_base two_documents idle) tt) _ _ eq_refl)
    as (best & rest & envelope & Hhits & Hrun & _ & _ & Hconfidence & _).
  exists best, rest, envelope. eexists. split; [exact Hhits|]. split; [exact Hrun|].
  split; [exact Hconfidence|]. rewrite Hconfidence.
  vm_compute in Hhits. by injection Hhits as <- _.
Defined.
